(** * Attendance-Monitoring-System: the recognition and registration engine

    A shallow embedding of [ml_service/utils.py] (the [MathUtils] and
    [ValidationUtils] helpers) and of [ml_service/face_processor.py]
    (the [FaceProcessor] class), followed by the properties of the
    decision engine.

    Conventions of the embedding:
    - a Python [float] (and a numpy float64) is an ideal real number of [R]:
      rounding, infinities and NaN are not modelled.  No property below
      bounds a cosine similarity by 1: in binary64 the quotient of
      [calculate_cosine_similarity] can exceed 1 by rounding, as [Binary64]
      shows on one input;
    - a one-dimensional numpy array is a [list R];
    - a Python exception is [None] in the [option] monad; a [try/except] that
      returns a default is a [match] on that option;
    - the attributes of [self] are a record that every method takes and
      returns; the two files of the data directory are part of the state;
    - the detector, the embedding model, the image codec and OpenCV are
      collaborators, the fields of the class [Collaborators]; what the file
      system does during a save is an argument of the operations that
      save. *)

From Stdlib Require Import String Ascii.
From Stdlib Require Import Reals Lra Lia ZArith Bool List.
From Stdlib Require Import Permutation Sorted.
From Stdlib Require Floats.PrimFloat.
Import ListNotations.

Open Scope R_scope.

(** ** The option monad of the [try] blocks *)

Definition bind {A B : Type} (m : option A) (k : A -> option B) : option B :=
  match m with
  | Some a => k a
  | None => None
  end.

Notation "x <- m ;; k" := (bind m (fun x => k))
  (at level 61, m at next level, right associativity).

(** ** Python and numpy primitives *)

Module Py.

(** Comparisons of floats, as booleans. *)
Definition ltb (x y : R) : bool := if Rlt_dec x y then true else false.
Definition gtb (x y : R) : bool := if Rgt_dec x y then true else false.
Definition eqb (x y : R) : bool := if Req_dec_T x y then true else false.

(** [list.index(x)]: the first position of [x]; raises when absent. *)
Fixpoint index (x : string) (l : list string) : option nat :=
  match l with
  | [] => None
  | y :: t => if String.eqb x y then Some 0%nat
              else option_map S (index x t)
  end.

(** [x in l] on a list of strings. *)
Definition mem (x : string) (l : list string) : bool :=
  existsb (String.eqb x) l.

(** [l[i] = v]: raises [IndexError] out of range. *)
Fixpoint setitem {A : Type} (l : list A) (i : nat) (v : A) : option (list A) :=
  match l, i with
  | [], _ => None
  | _ :: t, O => Some (v :: t)
  | x :: t, S j => option_map (cons x) (setitem t j v)
  end.

(** [l.pop(i)] for its effect on the list: raises out of range. *)
Fixpoint pop {A : Type} (l : list A) (i : nat) : option (list A) :=
  match l, i with
  | [], _ => None
  | _ :: t, O => Some t
  | x :: t, S j => option_map (cons x) (pop t j)
  end.

(** [str.strip()] and [str.upper()] on ASCII text: the white space of
    Python below 128 is 9..13, 28..31 and 32; bytes from 128 on are left
    as they are. *)
Definition is_space (c : ascii) : bool :=
  let n := nat_of_ascii c in
  ((9 <=? n) && (n <=? 13) || (28 <=? n) && (n <=? 32))%nat.

Fixpoint lstrip (s : string) : string :=
  match s with
  | EmptyString => EmptyString
  | String c t => if is_space c then lstrip t else s
  end.

Fixpoint rstrip (s : string) : string :=
  match s with
  | EmptyString => EmptyString
  | String c t =>
      match rstrip t with
      | EmptyString => if is_space c then EmptyString else String c EmptyString
      | t' => String c t'
      end
  end.

Definition strip (s : string) : string := rstrip (lstrip s).

Definition upper_char (c : ascii) : ascii :=
  let n := nat_of_ascii c in
  if ((97 <=? n) && (n <=? 122))%nat then ascii_of_nat (n - 32) else c.

Fixpoint upper (s : string) : string :=
  match s with
  | EmptyString => EmptyString
  | String c t => String (upper_char c) (upper t)
  end.

(** [max(l, key=...)]: the first element whose key is maximal; raises on
    the empty list. *)
Fixpoint max_from {A : Type} (key : A -> R) (best : A) (l : list A) : A :=
  match l with
  | [] => best
  | x :: t => if gtb (key x) (key best) then max_from key x t
              else max_from key best t
  end.

Definition max_by {A : Type} (key : A -> R) (l : list A) : option A :=
  match l with
  | [] => None
  | x :: t => Some (max_from key x t)
  end.

(** [np.argmin] and [np.argmax] on a list of floats: the first position of
    the extreme value; raise on the empty list. *)
Fixpoint arg_from (better : R -> R -> bool) (best_i : nat) (best : R)
    (i : nat) (l : list R) : nat :=
  match l with
  | [] => best_i
  | x :: t => if better x best then arg_from better i x (S i) t
              else arg_from better best_i best (S i) t
  end.

Definition argmin (l : list R) : option nat :=
  match l with
  | [] => None
  | x :: t => Some (arg_from ltb 0%nat x 1%nat t)
  end.

Definition argmax (l : list R) : option nat :=
  match l with
  | [] => None
  | x :: t => Some (arg_from gtb 0%nat x 1%nat t)
  end.

(** [list.sort(key=..., reverse=True)]: stable, descending.  An element is
    put in front of the first element whose key is not greater than its
    own, so equal keys keep the order they came in. *)
Fixpoint insert_desc {A : Type} (key : A -> R) (x : A) (l : list A) : list A :=
  match l with
  | [] => [x]
  | y :: t => if gtb (key y) (key x) then y :: insert_desc key x t
              else x :: l
  end.

Fixpoint sort_desc {A : Type} (key : A -> R) (l : list A) : list A :=
  match l with
  | [] => []
  | x :: t => insert_desc key x (sort_desc key t)
  end.

End Py.

(** ** [utils.py]: [MathUtils] *)

Module MathUtils.

Definition vec := list R.

(** Sum of the squares of the components. *)
Fixpoint sumsq (v : vec) : R :=
  match v with
  | [] => 0
  | x :: t => x * x + sumsq t
  end.

(** [np.linalg.norm] of a one-dimensional array. *)
Definition norm (v : vec) : R := sqrt (sumsq v).

Fixpoint zip_with (f : R -> R -> R) (a b : vec) : vec :=
  match a, b with
  | x :: a', y :: b' => f x y :: zip_with f a' b'
  | _, _ => []
  end.

(** [vec1 - vec2] with numpy broadcasting: equal shapes, or one operand of
    length one; any other pair of shapes raises [ValueError]. *)
Definition np_sub (a b : vec) : option vec :=
  if (length a =? length b)%nat then Some (zip_with Rminus a b)
  else match a, b with
       | [x], _ => Some (map (fun y => x - y) b)
       | _, [y] => Some (map (fun x => x - y) a)
       | _, _ => None
       end.

Fixpoint dot (a b : vec) : R :=
  match a, b with
  | x :: a', y :: b' => x * y + dot a' b'
  | _, _ => 0
  end.

(** [np.dot] of two one-dimensional arrays: the shapes must agree. *)
Definition np_dot (a b : vec) : option R :=
  if (length a =? length b)%nat then Some (dot a b) else None.

Definition calculate_euclidean_distance (vec1 vec2 : vec) : option R :=
  d <- np_sub vec1 vec2 ;; Some (norm d).

Definition calculate_cosine_similarity (vec1 vec2 : vec) : option R :=
  dot_product <- np_dot vec1 vec2 ;;
  let norms := norm vec1 * norm vec2 in
  if Py.eqb norms 0 then Some 0
  else Some (dot_product / norms).

Definition normalize_vector (vector : vec) : vec :=
  let n := norm vector in
  if Py.eqb n 0 then vector
  else map (fun x => x / n) vector.

(** [np.mean(vs, axis=0)] of a list of one-dimensional arrays: the arrays
    are stacked, which raises unless they have one common length, then
    summed row by row and divided by their number.  The caller passes at
    least two arrays; the empty list is given the error result here. *)
Definition np_mean (vs : list vec) : option vec :=
  match vs with
  | [] => None
  | v :: rest =>
      if forallb (fun w => (length w =? length v)%nat) rest
      then Some (map (fun s => s / INR (length vs))
                     (fold_left (zip_with Rplus) rest v))
      else None
  end.

End MathUtils.

(** ** [utils.py]: [ValidationUtils] *)

Module ValidationUtils.

Definition is_empty (s : string) : bool :=
  match s with
  | EmptyString => true
  | _ => false
  end.

Definition validate_student_id (student_id : string) : bool :=
  if is_empty student_id then false
  else
    let student_id := Py.upper (Py.strip student_id) in
    if ((String.length student_id <? 6) || (15 <? String.length student_id))%nat
    then false
    else true.

Definition validate_confidence_score (confidence : R) : bool :=
  if Rle_dec 0 confidence then (if Rle_dec confidence 1 then true else false)
  else false.

End ValidationUtils.

(** ** [face_processor.py]: the data *)

Module FaceProcessor.

Import MathUtils.

(** The three parallel lists of [FaceProcessor]. *)
Record Store := mkStore {
  known_face_encodings : list vec;
  known_face_names : list string;
  known_student_ids : list string
}.

(** A file is absent, holds bytes that cannot be read back, or holds a
    value. *)
Inductive File (A : Type) : Type :=
| Absent
| Unreadable
| Holds (a : A).

Arguments Absent {A}.
Arguments Unreadable {A}.
Arguments Holds {A} a.

(** The dictionary of [face_encodings.pkl]; [load_student_database] reads
    its three lists with [dict.get(key, [])], so a key may be missing. *)
Record Pickled := mkPickled {
  p_encodings : option (list vec);
  p_names : option (list string);
  p_student_ids : option (list string)
}.

(** The summary of [student_metadata.json]. *)
Record Metadata := mkMetadata {
  total_students : nat;
  students : list (string * string)
}.

Record State := mkState {
  mem : Store;
  encodings_file : File Pickled;
  metadata_file : File Metadata
}.

(** What the file system does during one [save_student_database]. *)
Inductive io : Type :=
| PickleOpenFails
| PickleDumpFails
| JsonOpenFails
| JsonDumpFails
| AllWritten.

Definition box_t : Type := (Z * Z * Z * Z)%type.

(** The dictionary built by [recognize_face]. *)
Record StudentInfo := mkInfo {
  student_id : string;
  name : string;
  confidence : R;
  similarity_score : R;
  distance_score : R
}.

(** The same dictionary after [process_image] has added the three keys of
    the detection. *)
Record RecognizedStudent := mkRecognized {
  student : StudentInfo;
  detection_box : box_t;
  face_quality : R;
  face_size : Z * Z
}.

(** The dictionary returned by [process_image]; [error] is [None] for the
    text of a caught exception. *)
Inductive ProcessResult : Type :=
| Failed (error : option string)
| Processed (recognized_students : list RecognizedStudent)
            (faces_detected unregistered_faces : nat).

(** The grayscale crop: its pixels row by row and its shape. *)
Record Gray := mkGray {
  pixels : list Byte.byte;
  gray_height : nat;
  gray_width : nat
}.

Definition pixel_value (b : Byte.byte) : R := IZR (Z.of_N (Byte.to_N b)).

(** [np.mean], [np.var] and [np.std] of a flat array. *)
Definition mean (l : list R) : R := fold_right Rplus 0 l / INR (length l).

Definition var (l : list R) : R :=
  mean (map (fun x => (x - mean l) * (x - mean l)) l).

Definition std (l : list R) : R := sqrt (var l).

(** A raw output of the detector. *)
Record Detection (Landmarks : Type) := mkDetection {
  det_confidence : R;
  det_box : box_t;
  det_keypoints : option Landmarks
}.

Arguments mkDetection {Landmarks}.
Arguments det_confidence {Landmarks}.
Arguments det_box {Landmarks}.
Arguments det_keypoints {Landmarks}.

(** An entry of the list returned by [detect_faces]. *)
Record Face (FaceImg Landmarks : Type) := mkFace {
  face : FaceImg;
  box : box_t;
  face_confidence : R;
  quality : R;
  landmarks : option Landmarks;
  size : Z * Z
}.

Arguments mkFace {FaceImg Landmarks}.
Arguments face {FaceImg Landmarks}.
Arguments box {FaceImg Landmarks}.
Arguments face_confidence {FaceImg Landmarks}.
Arguments quality {FaceImg Landmarks}.
Arguments landmarks {FaceImg Landmarks}.
Arguments size {FaceImg Landmarks}.

(** *** The collaborators

    The image codec, OpenCV, the detector and the embedding model, as the
    interface the class calls them through. *)
Class Collaborators := {
  Image : Type;
  FaceImg : Type;
  Landmarks : Type;
  (** [ImageUtils.decode_base64_to_image]: [None] when the text is no
      image. *)
  decode_base64_to_image : string -> option Image;
  (** [ImageUtils.resize_image]; [None] when OpenCV raises. *)
  resize_image : Image -> option Image;
  (** Enhancement, conversion to RGB and [self.detector.detect_faces];
      [None] when one of them raises. *)
  detector : Image -> option (list (Detection Landmarks));
  (** [rgb_image.shape[:2]]: height, then width. *)
  shape : Image -> Z * Z;
  (** [rgb_image[y:y+h, x:x+w]]. *)
  crop : Image -> Z -> Z -> Z -> Z -> FaceImg;
  (** [cv2.cvtColor(face_img, cv2.COLOR_RGB2GRAY)]; [None] when it
      raises. *)
  cvtColor_gray : FaceImg -> option Gray;
  (** [cv2.Laplacian(gray, cv2.CV_64F)], flattened; [None] when it
      raises. *)
  laplacian : Gray -> option (list R);
  (** [DeepFace.represent] after the colour conversion and the resize of
      [get_face_embedding]: the embedding of each returned entry; [None]
      when one of the three raises. *)
  represent : FaceImg -> option (list vec)
}.

Section Processor.

Context {collab : Collaborators}.

Local Notation "'Face'" := (Face FaceImg Landmarks).
Local Notation "'Detection'" := (Detection Landmarks).

(** *** [load_student_database] and [save_student_database] *)

Definition get_or_empty {A : Type} (o : option (list A)) : list A :=
  match o with
  | Some l => l
  | None => []
  end.

Definition load_student_database (st : State) : bool * State :=
  match encodings_file st with
  | Absent => (true, st)
  | Unreadable => (false, st)
  | Holds data =>
      (true,
       mkState (mkStore (get_or_empty (p_encodings data))
                        (get_or_empty (p_names data))
                        (get_or_empty (p_student_ids data)))
               (encodings_file st) (metadata_file st))
  end.

Definition encodings_data (s : Store) : Pickled :=
  mkPickled (Some (known_face_encodings s)) (Some (known_face_names s))
            (Some (known_student_ids s)).

Definition metadata (s : Store) : Metadata :=
  mkMetadata (length (known_face_encodings s))
             (combine (known_student_ids s) (known_face_names s)).

(** The pickle is written first.  [FileUtils.save_json] catches its own
    errors and its result is not looked at, so a failure of the summary
    does not fail the save. *)
Definition save_student_database (st : State) (o : io) : bool * State :=
  match o with
  | PickleOpenFails => (false, st)
  | PickleDumpFails => (false, mkState (mem st) Unreadable (metadata_file st))
  | JsonOpenFails =>
      (true, mkState (mem st) (Holds (encodings_data (mem st)))
                     (metadata_file st))
  | JsonDumpFails =>
      (true, mkState (mem st) (Holds (encodings_data (mem st))) Unreadable)
  | AllWritten =>
      (true, mkState (mem st) (Holds (encodings_data (mem st)))
                     (Holds (metadata (mem st))))
  end.

(** *** [_calculate_face_quality] *)

Definition size_score (width height : nat) : R :=
  if ((width <? 100) || (height <? 100))%nat
  then INR (Nat.min width height) / 100
  else if ((300 <? width) || (300 <? height))%nat
  then 300 / INR (Nat.max width height)
  else 1.

(** The weighted sum, before the final [min]. *)
Definition combined_quality (gray : Gray) (lap : list R) : R :=
  let laplacian_var := var lap in
  let sharpness_score := Rmin (laplacian_var / 1000) 1 in
  let brightness := mean (map pixel_value (pixels gray)) / 255 in
  let brightness_score := 1 - Rabs (brightness - 0.5) * 2 in
  let contrast_score := std (map pixel_value (pixels gray)) / 128 in
  let contrast_score := Rmin contrast_score 1 in
  let size_score := size_score (gray_width gray) (gray_height gray) in
  sharpness_score * 0.4 + brightness_score * 0.3 +
  contrast_score * 0.2 + size_score * 0.1.

Definition _calculate_face_quality (face_img : FaceImg) : R :=
  match (gray <- cvtColor_gray face_img ;;
         lap <- laplacian gray ;;
         Some (Rmin (combined_quality gray lap) 1)) with
  | Some q => q
  | None => 0.5
  end.

(** *** [detect_faces] *)

(** One turn of the loop over the detections. *)
Definition detect_step (image : Image) (faces : list Face)
    (detection : Detection) : list Face :=
  let confidence := det_confidence detection in
  if Py.gtb confidence 0.95 then
    let '(x, y, w, h) := det_box detection in
    let '(height, width) := shape image in
    let x := Z.max 0 x in
    let y := Z.max 0 y in
    let w := Z.min w (width - x) in
    let h := Z.min h (height - y) in
    if ((60 <? w) && (60 <? h))%Z then
      let face_img := crop image x y w h in
      let quality_score := _calculate_face_quality face_img in
      faces ++ [mkFace face_img (x, y, w, h) confidence quality_score
                       (det_keypoints detection) (w, h)]
    else faces
  else faces.

Definition rank (f : Face) : R := face_confidence f * quality f.

(** The body of [detect_faces] once the detector has answered. *)
Definition filter_detections (image : Image) (detections : list Detection)
    : list Face :=
  Py.sort_desc rank (fold_left (detect_step image) detections []).

Definition detect_faces (image : Image) : list Face :=
  match detector image with
  | Some detections => filter_detections image detections
  | None => []
  end.

(** *** [get_face_embedding] *)

Definition get_face_embedding (face_img : FaceImg) : option vec :=
  match represent face_img with
  | Some (e :: _) => Some e
  | _ => None
  end.

(** *** [recognize_face] *)

(** The loop over the known encodings: both lists grow by one per turn,
    unless one of the two measures raises. *)
Fixpoint measure_all (face_embedding : vec) (known : list vec)
    (distances similarities : list R) : option (list R * list R) :=
  match known with
  | [] => Some (distances, similarities)
  | known_encoding :: rest =>
      distance <- calculate_euclidean_distance face_embedding known_encoding ;;
      similarity <- calculate_cosine_similarity face_embedding known_encoding ;;
      measure_all face_embedding rest (distances ++ [distance])
                  (similarities ++ [similarity])
  end.

(** The end of the [try] block, from [best_idx] and [confidence] on. *)
Definition student_info_at (s : Store) (distances similarities : list R)
    (best_idx : nat) (confidence : R) : option (option StudentInfo * R) :=
  sid <- nth_error (known_student_ids s) best_idx ;;
  nm <- nth_error (known_face_names s) best_idx ;;
  sim <- nth_error similarities best_idx ;;
  dist <- nth_error distances best_idx ;;
  Some (Some (mkInfo sid nm confidence sim dist), dist).

Definition recognize_try (s : Store) (face_embedding : vec) (threshold : R)
    : option (option StudentInfo * R) :=
  ms <- measure_all face_embedding (known_face_encodings s) [] [] ;;
  let '(distances, similarities) := ms in
  min_distance_idx <- Py.argmin distances ;;
  max_similarity_idx <- Py.argmax similarities ;;
  min_distance <- nth_error distances min_distance_idx ;;
  max_similarity <- nth_error similarities max_similarity_idx ;;
  if Py.gtb max_similarity (1 - threshold) then
    student_info_at s distances similarities max_similarity_idx max_similarity
  else if Py.ltb min_distance threshold then
    student_info_at s distances similarities min_distance_idx
                    (1 - min_distance / threshold)
  else Some (None, min_distance).

Definition recognize_face (s : Store) (face_embedding : vec) (threshold : R)
    : option StudentInfo * R :=
  if (length (known_face_encodings s) =? 0)%nat then (None, 1)
  else match recognize_try s face_embedding threshold with
       | Some r => r
       | None => (None, 1)
       end.

(** *** [process_image] *)

Definition validate_image_data (image_data : string) : bool :=
  if ValidationUtils.is_empty image_data then false
  else match decode_base64_to_image image_data with
       | Some _ => true
       | None => false
       end.

Definition recognized_eq_dec (a b : RecognizedStudent) : {a = b} + {a <> b}.
Proof.
  repeat decide equality;
    solve [apply Req_dec_T | apply Z.eq_dec | apply Ascii.ascii_dec
          | apply Bool.bool_dec ].
Defined.

(** [list.remove(x)]: drops the first entry equal to [x]; raises when
    there is none. *)
Fixpoint list_remove (x : RecognizedStudent) (l : list RecognizedStudent)
    : option (list RecognizedStudent) :=
  match l with
  | [] => None
  | y :: t => if recognized_eq_dec y x then Some t
              else option_map (cons y) (list_remove x t)
  end.

Definition same_student (sid : string) (s : RecognizedStudent) : bool :=
  String.eqb (student_id (student s)) sid.

(** The branch taken for a matched face: the list after the match has been
    offered to it. *)
Definition offer (recognized_students : list RecognizedStudent)
    (student_info : StudentInfo) (face_data : Face)
    : option (list RecognizedStudent) :=
  let updated := mkRecognized student_info (box face_data) (quality face_data)
                              (size face_data) in
  match find (same_student (student_id student_info)) recognized_students with
  | None => Some (recognized_students ++ [updated])
  | Some existing_student =>
      if Py.gtb (confidence student_info)
                (confidence (student existing_student))
      then rest <- list_remove existing_student recognized_students ;;
           Some (rest ++ [updated])
      else Some recognized_students
  end.

(** One turn of the loop over the detected faces, on the pair of the list
    and of the counter. *)
Definition process_step (s : Store) (confidence_threshold : R)
    (acc : list RecognizedStudent * nat) (face_data : Face)
    : option (list RecognizedStudent * nat) :=
  let '(recognized_students, unregistered_faces) := acc in
  match get_face_embedding (face face_data) with
  | None => Some acc
  | Some embedding =>
      match fst (recognize_face s embedding confidence_threshold) with
      | Some student_info =>
          l <- offer recognized_students student_info face_data ;;
          Some (l, unregistered_faces)
      | None => Some (recognized_students, S unregistered_faces)
      end
  end.

Fixpoint process_loop (s : Store) (confidence_threshold : R)
    (acc : list RecognizedStudent * nat) (detected_faces : list Face)
    : option (list RecognizedStudent * nat) :=
  match detected_faces with
  | [] => Some acc
  | face_data :: rest =>
      acc' <- process_step s confidence_threshold acc face_data ;;
      process_loop s confidence_threshold acc' rest
  end.

Definition process_image (s : Store) (image_data : string)
    (confidence_threshold : R) : ProcessResult :=
  if negb (validate_image_data image_data)
  then Failed (Some "Invalid image data"%string)
  else match decode_base64_to_image image_data with
       | None => Failed (Some "Failed to decode image"%string)
       | Some image =>
           match (image <- resize_image image ;;
                  let detected_faces := detect_faces image in
                  acc <- process_loop s confidence_threshold ([], 0%nat)
                                      detected_faces ;;
                  Some (Processed (fst acc) (length detected_faces) (snd acc)))
           with
           | Some r => r
           | None => Failed None
           end
       end.

(** *** [register_student] *)

(** What one sample image adds to [valid_embeddings]: nothing when it is
    not valid, does not decode, shows no face, or when the embedding of its
    best face fails. *)
Definition sample_embedding (img_data : string) : option vec :=
  if negb (validate_image_data img_data) then None
  else match decode_base64_to_image img_data with
       | None => None
       | Some image =>
           let faces := detect_faces image in
           match Py.max_by (fun x => quality x * face_confidence x) faces with
           | None => None
           | Some best_face => get_face_embedding (face best_face)
           end
       end.

(** The loop over the sample images. *)
Fixpoint collect_embeddings (face_images : list string)
    (valid_embeddings : list vec) : list vec :=
  match face_images with
  | [] => valid_embeddings
  | img_data :: rest =>
      match sample_embedding img_data with
      | Some embedding =>
          collect_embeddings rest (valid_embeddings ++ [embedding])
      | None => collect_embeddings rest valid_embeddings
      end
  end.

Definition with_mem (st : State) (s : Store) : State :=
  mkState s (encodings_file st) (metadata_file st).

(** The commit: the two assignments by index of the update (the second may
    raise after the first is done), or the three [append]s; then the save. *)
Definition commit (st : State) (student_id name : string) (avg_embedding : vec)
    (o : io) : bool * State :=
  let s := mem st in
  if Py.mem student_id (known_student_ids s) then
    match Py.index student_id (known_student_ids s) with
    | None => (false, st)
    | Some idx =>
        match Py.setitem (known_face_encodings s) idx avg_embedding with
        | None => (false, st)
        | Some encodings =>
            match Py.setitem (known_face_names s) idx name with
            | None =>
                (false, with_mem st (mkStore encodings (known_face_names s)
                                             (known_student_ids s)))
            | Some names =>
                save_student_database
                  (with_mem st (mkStore encodings names (known_student_ids s)))
                  o
            end
        end
    end
  else
    save_student_database
      (with_mem st (mkStore (known_face_encodings s ++ [avg_embedding])
                            (known_face_names s ++ [name])
                            (known_student_ids s ++ [student_id])))
      o.

Definition register_student (st : State) (student_id name : string)
    (face_images : list string) (o : io) : bool * State :=
  if negb (ValidationUtils.validate_student_id student_id) then (false, st)
  else if ValidationUtils.is_empty name then (false, st)
  else if (length face_images <? 2)%nat then (false, st)
  else
    let student_id := Py.upper (Py.strip student_id) in
    let name := Py.strip name in
    let valid_embeddings := collect_embeddings face_images [] in
    if (length valid_embeddings <? 2)%nat then (false, st)
    else
      match np_mean valid_embeddings with
      | None => (false, st)
      | Some avg_embedding =>
          commit st student_id name (normalize_vector avg_embedding) o
      end.

(** *** [get_registered_students] and [delete_student] *)

Definition get_registered_students (st : State) : list (string * string) :=
  combine (known_student_ids (mem st)) (known_face_names (mem st)).

(** The three [pop]s happen in the order ids, names, encodings; one that
    raises leaves the earlier ones done. *)
Definition delete_student (st : State) (student_id : string) (o : io)
    : bool * State :=
  let s := mem st in
  let student_id := Py.upper (Py.strip student_id) in
  if Py.mem student_id (known_student_ids s) then
    match Py.index student_id (known_student_ids s) with
    | None => (false, st)
    | Some idx =>
        match Py.pop (known_student_ids s) idx with
        | None => (false, st)
        | Some ids =>
            match Py.pop (known_face_names s) idx with
            | None =>
                (false, with_mem st (mkStore (known_face_encodings s)
                                             (known_face_names s) ids))
            | Some names =>
                match Py.pop (known_face_encodings s) idx with
                | None =>
                    (false, with_mem st (mkStore (known_face_encodings s)
                                                 names ids))
                | Some encodings =>
                    save_student_database
                      (with_mem st (mkStore encodings names ids)) o
                end
            end
        end
    end
  else (false, st).

End Processor.

End FaceProcessor.

(** ** The matcher of the specification

    The reference that [recognize_face] is compared with, written from the
    description of the matcher: a registry of identity records, the two
    measures against every record, the two extremes found independently,
    and the decision rule. *)

Module EmbeddingMatcher.

Import MathUtils.

Record IdentityRecord := mkIdentity {
  id : string;
  full_name : string;
  embedding : vec
}.

Record MatchResult := mkMatch {
  identity : IdentityRecord;
  fused_confidence : R;
  raw_similarity : R;
  raw_distance : R
}.

(** Euclidean distance: the root of the sum of the squared differences. *)
Definition euclidean (a b : vec) : R :=
  sqrt (fold_right (fun p acc => (fst p - snd p) * (fst p - snd p) + acc) 0
                   (combine a b)).

(** Cosine similarity, 0 when one of the two vectors has no length. *)
Definition cosine (a b : vec) : R :=
  if Req_dec_T (norm a * norm b) 0 then 0
  else fold_right (fun p acc => fst p * snd p + acc) 0 (combine a b)
       / (norm a * norm b).

Fixpoint minimum (x : R) (l : list R) : R :=
  match l with
  | [] => x
  | y :: t => Rmin x (minimum y t)
  end.

Fixpoint maximum (x : R) (l : list R) : R :=
  match l with
  | [] => x
  | y :: t => Rmax x (maximum y t)
  end.

(** The first position that holds [x]. *)
Fixpoint first_index_of (x : R) (l : list R) : nat :=
  match l with
  | [] => 0%nat
  | y :: t => if Req_dec_T y x then 0%nat else S (first_index_of x t)
  end.

Definition accept (registry : list IdentityRecord) (ds ss : list R)
    (i : nat) (confidence : R) : option MatchResult * R :=
  match nth_error registry i, nth_error ss i, nth_error ds i with
  | Some r, Some s, Some d => (Some (mkMatch r confidence s d), d)
  | _, _, _ => (None, 1)
  end.

Definition match_ (query : vec) (registry : list IdentityRecord)
    (threshold : R) : option MatchResult * R :=
  match registry with
  | [] => (None, 1)
  | r0 :: rest =>
      let ds := map (fun r => euclidean query (embedding r)) registry in
      let ss := map (fun r => cosine query (embedding r)) registry in
      let min_distance :=
        minimum (euclidean query (embedding r0))
                (map (fun r => euclidean query (embedding r)) rest) in
      let max_similarity :=
        maximum (cosine query (embedding r0))
                (map (fun r => cosine query (embedding r)) rest) in
      if Rgt_dec max_similarity (1 - threshold)
      then accept registry ds ss (first_index_of max_similarity ss)
                  max_similarity
      else if Rlt_dec min_distance threshold
      then accept registry ds ss (first_index_of min_distance ds)
                  (1 - min_distance / threshold)
      else (None, min_distance)
  end.

(** The registry held by the three parallel lists. *)
Fixpoint registry_of (ids names : list string) (encodings : list vec)
    : list IdentityRecord :=
  match ids, names, encodings with
  | i :: ids', n :: names', e :: encodings' =>
      mkIdentity i n e :: registry_of ids' names' encodings'
  | _, _, _ => []
  end.

Definition registry (s : FaceProcessor.Store) : list IdentityRecord :=
  registry_of (FaceProcessor.known_student_ids s)
              (FaceProcessor.known_face_names s)
              (FaceProcessor.known_face_encodings s).

(** A match result as the dictionary of [recognize_face]. *)
Definition as_student_info (r : option MatchResult * R)
    : option FaceProcessor.StudentInfo * R :=
  (option_map (fun m => FaceProcessor.mkInfo (id (identity m))
                          (full_name (identity m)) (fused_confidence m)
                          (raw_similarity m) (raw_distance m))
              (fst r),
   snd r).

End EmbeddingMatcher.

(** ** Invariants of the identity store *)

Module IdentityStore.

Import FaceProcessor.

(** The three parallel lists have one length. *)
Definition aligned (s : Store) : Prop :=
  length (known_face_names s) = length (known_face_encodings s) /\
  length (known_student_ids s) = length (known_face_encodings s).

(** Every embedding of the store has the dimension [n]. *)
Definition dimension (n : nat) (s : Store) : Prop :=
  Forall (fun e => length e = n) (known_face_encodings s).

(** The embedding held for a student id: the entry of the encodings at
    the first position of the id. *)
Definition stored_embedding (s : Store) (sid : string) : option MathUtils.vec :=
  idx <- Py.index sid (known_student_ids s) ;;
  nth_error (known_face_encodings s) idx.

(** The name held for a student id. *)
Definition stored_name (s : Store) (sid : string) : option string :=
  idx <- Py.index sid (known_student_ids s) ;;
  nth_error (known_face_names s) idx.

(** The snapshot on disk, when there is one that can be read, holds three
    lists of one length. *)
Definition snapshot_aligned (f : File Pickled) : Prop :=
  match f with
  | Holds data =>
      aligned (mkStore (get_or_empty (p_encodings data))
                       (get_or_empty (p_names data))
                       (get_or_empty (p_student_ids data)))
  | _ => True
  end.

(** The invariant of the store: the lists in memory are aligned and so are
    those of the snapshot. *)
Definition consistent (st : State) : Prop :=
  aligned (mem st) /\ snapshot_aligned (encodings_file st).

(** No student id is held twice, in memory or in the snapshot. *)
Definition unique_ids (st : State) : Prop :=
  NoDup (known_student_ids (mem st)) /\
  match encodings_file st with
  | Holds data => NoDup (get_or_empty (p_student_ids data))
  | _ => True
  end.

(** The state of a processor started on an empty data directory. *)
Definition initial : State := mkState (mkStore [] [] []) Absent Absent.

(** The public operations, each with what the file system does if the
    operation saves. *)
Inductive operation : Type :=
| DoLoad
| DoSave (o : io)
| DoRegister (student_id name : string) (face_images : list string) (o : io)
| DoDelete (student_id : string) (o : io)
| DoList.

Section Operations.

Context {collab : Collaborators}.

(** The state after one operation. *)
Definition run (st : State) (op : operation) : State :=
  match op with
  | DoLoad => snd (load_student_database st)
  | DoSave o => snd (save_student_database st o)
  | DoRegister student_id name face_images o =>
      snd (register_student st student_id name face_images o)
  | DoDelete student_id o => snd (delete_student st student_id o)
  | DoList => st
  end.

End Operations.

(** Whether the pickle is written during a save: what
    [save_student_database] returns. *)
Definition pickle_written (o : io) : bool :=
  match o with
  | PickleOpenFails | PickleDumpFails => false
  | JsonOpenFails | JsonDumpFails | AllWritten => true
  end.

(** The id under which a student is kept: trimmed, in upper case. *)
Definition normalized (student_id : string) : string :=
  Py.upper (Py.strip student_id).

(** The entry that a list of ids gives access to in a parallel list. *)
Definition lookup {A : Type} (ids : list string) (vals : list A)
    (x : string) : option A :=
  j <- Py.index x ids ;; nth_error vals j.

End IdentityStore.

(** ** The detection filter of the specification

    What the filter keeps, said candidate by candidate: the clamped box,
    the test that a raw detection passes, and the entry it becomes. *)

Module DetectionFilter.

Import FaceProcessor.


Section Filter.

Context {collab : Collaborators}.

(** The box clamped into an image of the given height and width. *)
Definition clamp (height width : Z) (b : box_t) : box_t :=
  let '(x, y, w, h) := b in
  (Z.max 0 x, Z.max 0 y, Z.min w (width - Z.max 0 x),
   Z.min h (height - Z.max 0 y)).

Definition clamped (image : Image) (d : Detection Landmarks) : box_t :=
  clamp (fst (shape image)) (snd (shape image)) (det_box d).

Definition box_width (b : box_t) : Z := let '(_, _, w, _) := b in w.
Definition box_height (b : box_t) : Z := let '(_, _, _, h) := b in h.

(** Confidence above 0.95, clamped width and height above 60. *)
Definition survives (image : Image) (d : Detection Landmarks) : Prop :=
  det_confidence d > 0.95 /\
  (60 < box_width (clamped image d))%Z /\
  (60 < box_height (clamped image d))%Z.

Definition survivesb (image : Image) (d : Detection Landmarks) : bool :=
  (if Rgt_dec (det_confidence d) 0.95 then true else false)
  && (60 <? box_width (clamped image d))%Z
  && (60 <? box_height (clamped image d))%Z.

(** The candidate that a surviving detection becomes. *)
Definition candidate (image : Image) (d : Detection Landmarks)
    : Face FaceImg Landmarks :=
  let '(x, y, w, h) := clamped image d in
  mkFace (crop image x y w h) (x, y, w, h) (det_confidence d)
         (_calculate_face_quality (crop image x y w h))
         (det_keypoints d) (w, h).


End Filter.

End DetectionFilter.

(** ** The recognition result of the specification

    The matches of one image, face by face, and for each identity the
    highest confidence among its matches. *)

Module RecognitionResult.

Import FaceProcessor.

Section Result.

Context {collab : Collaborators}.

(** The match of one detected face, when its embedding is extracted and
    recognised. *)
Definition match_of (s : Store) (threshold : R) (f : Face FaceImg Landmarks)
    : option StudentInfo :=
  match get_face_embedding (face f) with
  | None => None
  | Some embedding => fst (recognize_face s embedding threshold)
  end.

(** The faces that matched, with their matches, in the order of the
    detected faces. *)
Fixpoint matched (s : Store) (threshold : R)
    (faces : list (Face FaceImg Landmarks))
    : list (StudentInfo * Face FaceImg Landmarks) :=
  match faces with
  | [] => []
  | f :: rest =>
      match match_of s threshold f with
      | Some info => (info, f) :: matched s threshold rest
      | None => matched s threshold rest
      end
  end.

End Result.

(** The highest confidence with which [sid] occurs in a list of matches;
    [None] when it does not occur. *)
Fixpoint best_confidence (sid : string) (ms : list StudentInfo) : option R :=
  match ms with
  | [] => None
  | m :: rest =>
      if String.eqb (student_id m) sid
      then Some (match best_confidence sid rest with
                 | Some c => Rmax (confidence m) c
                 | None => confidence m
                 end)
      else best_confidence sid rest
  end.

(** The entries of a result list for one identity. *)
Definition entries_of (sid : string) (rs : list RecognizedStudent)
    : list RecognizedStudent :=
  filter (same_student sid) rs.

(** A result list holds each identity of the matches once, with the
    highest confidence of its matches, and no other identity. *)
Definition deduplicated (ms : list StudentInfo) (rs : list RecognizedStudent)
    : Prop :=
  forall sid,
    match best_confidence sid ms with
    | None => entries_of sid rs = []
    | Some c =>
        exists r, entries_of sid rs = [r] /\ confidence (student r) = c
    end.

Section Counting.

Context {collab : Collaborators}.

(** Whether the embedding of a detected face is extracted. *)
Definition embedded (f : Face FaceImg Landmarks) : bool :=
  match get_face_embedding (face f) with
  | Some _ => true
  | None => false
  end.

(** Whether a detected face has an embedding that matches nobody. *)
Definition unknown (s : Store) (threshold : R) (f : Face FaceImg Landmarks)
    : bool :=
  match get_face_embedding (face f) with
  | Some embedding =>
      match fst (recognize_face s embedding threshold) with
      | Some _ => false
      | None => true
      end
  | None => false
  end.

(** The result entry that a matched face becomes. *)
Definition entry_of (m : StudentInfo * Face FaceImg Landmarks)
    : RecognizedStudent :=
  mkRecognized (fst m) (box (snd m)) (quality (snd m)) (size (snd m)).

End Counting.

End RecognitionResult.

(** ** [face_recognition_service.py]: the statistics and the recognition
    handlers

    The handlers are taken from the point where the request has been
    parsed: their arguments are the fields of the JSON body, the store is
    that of the global [face_processor], and [service_stats] is passed in
    and returned. *)

Module Service.

Import FaceProcessor.

(** The counters of [service_stats]. *)
Record ServiceStats := mkStats {
  total_requests : nat;
  successful_recognitions : nat;
  failed_recognitions : nat;
  registrations : nat
}.

Definition update_stats (service_stats : ServiceStats) (operation : string)
    (success : bool) : ServiceStats :=
  let total := S (total_requests service_stats) in
  if String.eqb operation "recognition" then
    if success
    then mkStats total (S (successful_recognitions service_stats))
                 (failed_recognitions service_stats)
                 (registrations service_stats)
    else mkStats total (successful_recognitions service_stats)
                 (S (failed_recognitions service_stats))
                 (registrations service_stats)
  else if String.eqb operation "registration" then
    mkStats total (successful_recognitions service_stats)
            (failed_recognitions service_stats)
            (S (registrations service_stats))
  else
    mkStats total (successful_recognitions service_stats)
            (failed_recognitions service_stats)
            (registrations service_stats).

(** A Python [dict] with string keys: the pairs in insertion order. *)
Definition dict (V : Type) : Type := list (string * V).

Fixpoint dict_get {V : Type} (k : string) (d : dict V) : option V :=
  match d with
  | [] => None
  | (k', v) :: t => if String.eqb k' k then Some v else dict_get k t
  end.

(** [d[k] = v]: a key that is present keeps its place. *)
Fixpoint dict_set {V : Type} (k : string) (v : V) (d : dict V) : dict V :=
  match d with
  | [] => [(k, v)]
  | (k', v') :: t =>
      if String.eqb k' k then (k, v) :: t else (k', v') :: dict_set k v t
  end.

(** [list(d.values())]. *)
Definition dict_values {V : Type} (d : dict V) : list V := map snd d.

(** The threshold that the handlers pass on: the one of the request when
    [validate_confidence_score] accepts it, else 0.6. *)
Definition checked_threshold (confidence_threshold : R) : R :=
  if ValidationUtils.validate_confidence_score confidence_threshold
  then confidence_threshold
  else 0.6.

(** An entry of [batch_results]; [entry_error] is [None] for an image that
    was processed. *)
Record BatchEntry := mkEntry {
  image_index : nat;
  entry_success : bool;
  entry_error : option (option string);
  entry_faces_detected : nat;
  students_recognized : nat
}.

(** The three variables of the loop of [process_batch_images]. *)
Record BatchState := mkBatch {
  batch_results : list BatchEntry;
  all_recognized_students : dict RecognizedStudent;
  total_faces_detected : nat
}.

(** The body of the response of [process_batch_images]. *)
Record BatchResponse := mkResponse {
  response_results : list BatchEntry;
  total_images_processed : nat;
  successful_images : nat;
  total_unique_students : nat;
  response_students : list RecognizedStudent;
  response_faces_detected : nat
}.

Inductive Reply (A : Type) : Type :=
| BadRequest (error : string)
| Ok (body : A).

Arguments BadRequest {A} error.
Arguments Ok {A} body.

(** The inner loop: a student enters the dictionary when the id is new or
    the confidence is higher than the one held. *)
Definition collect_student (all : dict RecognizedStudent)
    (student_ : RecognizedStudent) : dict RecognizedStudent :=
  let sid := student_id (student student_) in
  match dict_get sid all with
  | None => dict_set sid student_ all
  | Some held =>
      if Py.gtb (confidence (student student_)) (confidence (student held))
      then dict_set sid student_ all
      else all
  end.

Section Handlers.

Context {collab : Collaborators}.

Definition process_single_image (service_stats : ServiceStats) (s : Store)
    (image_data : string) (confidence_threshold : R)
    : Reply ProcessResult * ServiceStats :=
  if ValidationUtils.is_empty image_data
  then (BadRequest "No image data provided", service_stats)
  else
    let confidence_threshold := checked_threshold confidence_threshold in
    let result := process_image s image_data confidence_threshold in
    let success :=
      match result with
      | Processed (_ :: _) _ _ => true
      | _ => false
      end in
    (Ok result, update_stats service_stats "recognition" success).

(** One turn of the loop over the enumerated images. *)
Definition batch_step (s : Store) (confidence_threshold : R)
    (acc : BatchState) (idx : nat) (image_data : string) : BatchState :=
  match process_image s image_data confidence_threshold with
  | Processed recognized faces_detected _ =>
      mkBatch (batch_results acc
               ++ [mkEntry idx true None faces_detected (length recognized)])
              (fold_left collect_student recognized
                         (all_recognized_students acc))
              (total_faces_detected acc + faces_detected)
  | Failed error =>
      mkBatch (batch_results acc ++ [mkEntry idx false (Some error) 0 0])
              (all_recognized_students acc)
              (total_faces_detected acc)
  end.

Fixpoint batch_loop (s : Store) (confidence_threshold : R)
    (acc : BatchState) (idx : nat) (images_data : list string) : BatchState :=
  match images_data with
  | [] => acc
  | image_data :: rest =>
      batch_loop s confidence_threshold
                 (batch_step s confidence_threshold acc idx image_data)
                 (S idx) rest
  end.

Definition process_batch_images (service_stats : ServiceStats) (s : Store)
    (images_data : list string) (confidence_threshold : R)
    : Reply BatchResponse * ServiceStats :=
  match images_data with
  | [] => (BadRequest "No images provided", service_stats)
  | _ :: _ =>
      let confidence_threshold := checked_threshold confidence_threshold in
      let final :=
        batch_loop s confidence_threshold (mkBatch [] [] 0) 0 images_data in
      let response :=
        mkResponse (batch_results final) (length images_data)
                   (length (filter entry_success (batch_results final)))
                   (length (all_recognized_students final))
                   (dict_values (all_recognized_students final))
                   (total_faces_detected final) in
      (Ok response,
       update_stats service_stats "recognition"
                    (0 <? length (all_recognized_students final))%nat)
  end.

End Handlers.

(** The sum of the three counters that an operation may bump. *)
Definition counted (service_stats : ServiceStats) : nat :=
  (successful_recognitions service_stats
   + failed_recognitions service_stats
   + registrations service_stats)%nat.

(** The two operation names that [update_stats] knows. *)
Definition known_operation (call : string * bool) : bool :=
  String.eqb (fst call) "recognition"
  || String.eqb (fst call) "registration".

(** The statistics after a sequence of calls of [update_stats]. *)
Definition after_calls (service_stats : ServiceStats)
    (calls : list (string * bool)) : ServiceStats :=
  fold_left (fun st call => update_stats st (fst call) (snd call)) calls
            service_stats.

Section Batch.

Context {collab : Collaborators}.

(** The students recognised in the images of a batch, image after image. *)
Fixpoint batch_students (s : Store) (threshold : R)
    (images_data : list string) : list RecognizedStudent :=
  match images_data with
  | [] => []
  | image_data :: rest =>
      match process_image s image_data threshold with
      | Processed recognized _ _ =>
          recognized ++ batch_students s threshold rest
      | Failed _ => batch_students s threshold rest
      end
  end.

End Batch.

(** The entries of a dictionary are filed under the id of their student,
    each id once: the entries of an id among the values are the value
    found under that id. *)
Definition filed (d : dict RecognizedStudent) : Prop :=
  forall sid,
    RecognitionResult.entries_of sid (dict_values d)
    = match dict_get sid d with
      | Some r => [r]
      | None => []
      end.

(** The keys of a dictionary of students are the ids of its values, each
    key once. *)
Definition well_keyed (d : dict RecognizedStudent) : Prop :=
  (forall k v, In (k, v) d -> student_id (student v) = k) /\
  NoDup (map fst d).

End Service.

(** ** The cosine similarity in binary64

    [calculate_cosine_similarity] once more, on the binary64 numbers of the
    machine instead of ideal reals: the same length test, dot product, norms
    and zero guard, every operation rounded to nearest.  The dot product is
    summed in the order of the indices; numpy leaves that order to its
    kernels, so this version speaks for the code on inputs whose sum does
    not depend on the order, as the one evaluated in the properties. *)

Module Binary64.

Import PrimFloat.

Definition one : float := 1%float.

Fixpoint dot_from (acc : float) (a b : list float) : float :=
  match a, b with
  | x :: a', y :: b' => dot_from (acc + x * y)%float a' b'
  | _, _ => acc
  end.

Definition np_dot (a b : list float) : option float :=
  if (length a =? length b)%nat then Some (dot_from 0%float a b) else None.

(** [np.linalg.norm] of a one-dimensional array: the root of its dot
    product with itself. *)
Definition norm (v : list float) : float := sqrt (dot_from 0%float v v).

Definition calculate_cosine_similarity (vec1 vec2 : list float)
    : option float :=
  dot_product <- np_dot vec1 vec2 ;;
  let norms := (norm vec1 * norm vec2)%float in
  if (norms =? 0)%float then Some 0%float
  else Some (dot_product / norms)%float.

End Binary64.

(** ** Sample data

    Small stores and inputs on which the properties below are exercised. *)

Module Sample.

Import MathUtils FaceProcessor.

(** One student whose embedding is the unit vector of dimension one. *)
Definition one_student : Store :=
  mkStore [[1]] ["Alice"%string] ["MIT2025001"%string].

(** One student whose embedding points away from the query [[1]]. *)
Definition opposite_student : Store :=
  mkStore [[-1]] ["Bob"%string] ["MIT2025002"%string].

(** A gray crop of two by two pixels of mid luminance. *)
Definition gray_patch : Gray :=
  mkGray [Byte.x80; Byte.x80; Byte.x80; Byte.x80] 2 2.

(** Collaborators for the examples.  An image text of fewer than two
    characters does not decode; the image of a longer text is its length.
    The detector finds one face of 120 by 120 pixels with confidence 0.99
    in every image of 480 by 640, and its embedding is [[1]] for an image
    of even length and [[-1]] for one of odd length. *)
Definition studio : Collaborators := {|
  Image := nat;
  FaceImg := nat;
  Landmarks := unit;
  decode_base64_to_image := fun s =>
    if (String.length s <? 2)%nat then None else Some (String.length s);
  resize_image := fun image => Some image;
  detector := fun _ => Some [mkDetection 0.99 (10, 10, 120, 120)%Z None];
  shape := fun _ => (480, 640)%Z;
  crop := fun image _ _ _ _ => image;
  cvtColor_gray := fun _ => Some gray_patch;
  laplacian := fun _ => Some [0; 0; 0; 0];
  represent := fun f => Some [[if Nat.even f then 1 else -1]]
|}.

(** A processor that holds Alice, with a snapshot of nothing on disk. *)
Definition alice_enrolled : State := mkState one_student Absent Absent.

(** The state after [save_student_database] has written both files. *)
Definition saved (s : Store) : State :=
  mkState s (Holds (encodings_data s)) (Holds (metadata s)).

(** Alice after a second enrollment from two samples of embedding [[1]]. *)
Definition alice_again : State :=
  saved (mkStore [normalize_vector [(1 + 1) / 2]] ["Alice B."%string]
                 ["MIT2025001"%string]).

(** Alice after an enrollment from two samples whose embeddings are
    opposite. *)
Definition alice_cancelled : State :=
  saved (mkStore [[(1 + -1) / 2]] ["Alice"%string] ["MIT2025001"%string]).

(** Collaborators like [studio], except that the embedding of an image has
    as many components as the image text has characters. *)
Definition uneven_studio : Collaborators := {|
  Image := nat;
  FaceImg := nat;
  Landmarks := unit;
  decode_base64_to_image := fun s =>
    if (String.length s <? 2)%nat then None else Some (String.length s);
  resize_image := fun image => Some image;
  detector := fun _ => Some [mkDetection 0.99 (10, 10, 120, 120)%Z None];
  shape := fun _ => (480, 640)%Z;
  crop := fun image _ _ _ _ => image;
  cvtColor_gray := fun _ => Some gray_patch;
  laplacian := fun _ => Some [0; 0; 0; 0];
  represent := fun f => Some [repeat 1 f]
|}.

(** Alice after a first enrollment from two samples of embedding [[1]]. *)
Definition alice_first : State :=
  saved (mkStore [normalize_vector [(1 + 1) / 2]] ["Alice"%string]
                 ["MIT2025001"%string]).

(** Alice as [process_image] reports her for the image "aa". *)
Definition alice_seen : RecognizedStudent :=
  mkRecognized (mkInfo "MIT2025001" "Alice" 1 1 0) (10, 10, 120, 120)%Z
               (_calculate_face_quality (collab := studio) 2%nat)
               (120, 120)%Z.

End Sample.

(** * Properties *)

(** ** The vector primitives *)

Module MathProps.

Import MathUtils.

Lemma sumsq_nonneg (v : vec) : 0 <= sumsq v.
Proof.
  induction v as [|x t IH]; simpl; [lra | nra].
Qed.

Lemma norm_nonneg (v : vec) : 0 <= norm v.
Proof. apply sqrt_pos. Qed.

Lemma eqb_true (x y : R) : x = y -> Py.eqb x y = true.
Proof.
  intros E. unfold Py.eqb. destruct (Req_dec_T x y); congruence.
Qed.

Lemma eqb_false (x y : R) : x <> y -> Py.eqb x y = false.
Proof.
  intros E. unfold Py.eqb. destruct (Req_dec_T x y); congruence.
Qed.

Lemma np_sub_same_length (a b : vec) :
  length a = length b -> np_sub a b = Some (zip_with Rminus a b).
Proof.
  intros E. unfold np_sub. rewrite E, Nat.eqb_refl. reflexivity.
Qed.

Lemma np_dot_same_length (a b : vec) :
  length a = length b -> np_dot a b = Some (dot a b).
Proof.
  intros E. unfold np_dot. rewrite E, Nat.eqb_refl. reflexivity.
Qed.

(** C10: the vector primitives are guarded against a zero norm.  For two
    vectors of one dimension of which one has norm zero, the cosine
    similarity is 0 and the Euclidean distance is computed (neither
    raises); a vector of norm zero is returned by the normalization as it
    is, so it does not become a unit vector. *)
Theorem zero_norm_is_guarded (v w : vec) :
  length v = length w ->
  norm v = 0 \/ norm w = 0 ->
  calculate_cosine_similarity v w = Some 0 /\
  calculate_euclidean_distance v w = Some (norm (zip_with Rminus v w)) /\
  (norm v = 0 -> normalize_vector v = v /\ norm (normalize_vector v) <> 1).
Proof.
  intros Hlen Hz. repeat split.
  - unfold calculate_cosine_similarity.
    rewrite (np_dot_same_length v w Hlen). cbn [bind].
    rewrite eqb_true; [reflexivity|].
    destruct Hz as [E|E]; rewrite E; ring.
  - unfold calculate_euclidean_distance.
    rewrite (np_sub_same_length v w Hlen). reflexivity.
  - unfold normalize_vector. rewrite eqb_true by assumption. reflexivity.
  - unfold normalize_vector. rewrite eqb_true by assumption. lra.
Qed.

Lemma zero_norm_is_guarded_witness :
  calculate_cosine_similarity [0; 0] [3; 4] = Some 0 /\
  calculate_euclidean_distance [0; 0] [3; 4]
    = Some (norm (zip_with Rminus [0; 0] [3; 4])) /\
  (norm [0; 0] = 0 ->
   normalize_vector [0; 0] = [0; 0] /\ norm (normalize_vector [0; 0]) <> 1).
Proof.
  apply (zero_norm_is_guarded [0; 0] [3; 4]).
  - reflexivity.
  - left. unfold norm. simpl.
    replace (0 * 0 + (0 * 0 + 0)) with 0 by lra. apply sqrt_0.
Defined.

Lemma gtb_true (x y : R) : x > y -> Py.gtb x y = true.
Proof.
  intros H. unfold Py.gtb.
  destruct (Rgt_dec x y); [reflexivity | contradiction].
Qed.

Lemma gtb_false (x y : R) : x <= y -> Py.gtb x y = false.
Proof.
  intros H. unfold Py.gtb. destruct (Rgt_dec x y); [lra | reflexivity].
Qed.

Lemma ltb_true (x y : R) : x < y -> Py.ltb x y = true.
Proof.
  intros H. unfold Py.ltb.
  destruct (Rlt_dec x y); [reflexivity | contradiction].
Qed.

Lemma ltb_false (x y : R) : y <= x -> Py.ltb x y = false.
Proof.
  intros H. unfold Py.ltb. destruct (Rlt_dec x y); [lra | reflexivity].
Qed.

Lemma norm_singleton (x : R) : norm [x] = Rabs x.
Proof.
  unfold norm. simpl. rewrite Rplus_0_r. apply sqrt_Rsqr_abs.
Qed.

Lemma distance_nonneg (a b : vec) (d : R) :
  calculate_euclidean_distance a b = Some d -> 0 <= d.
Proof.
  unfold calculate_euclidean_distance.
  destruct (np_sub a b); cbn [bind]; [|discriminate].
  intros H; injection H as <-. apply norm_nonneg.
Qed.

(** In binary64 the similarity of the vector (1, 1, 1) with itself is
    above 1: the norm is the rounded root of 3, whose square is below 3. *)
Lemma binary64_self_similarity :
  exists x,
    Binary64.calculate_cosine_similarity
      [Binary64.one; Binary64.one; Binary64.one]
      [Binary64.one; Binary64.one; Binary64.one]
    = Some x /\
    PrimFloat.ltb Binary64.one x = true.
Proof.
  eexists. split; vm_compute; reflexivity.
Qed.

End MathProps.

(** ** The matcher *)

Module MatcherProps.

Import MathUtils MathProps FaceProcessor EmbeddingMatcher IdentityStore.

Lemma euclidean_norm (a b : vec) :
  euclidean a b = norm (zip_with Rminus a b).
Proof.
  unfold euclidean, norm. f_equal.
  revert b. induction a as [|x a IH]; intros [|y b]; simpl; try reflexivity.
  rewrite IH. reflexivity.
Qed.

Lemma fold_dot (a b : vec) :
  fold_right (fun p acc => fst p * snd p + acc) 0 (combine a b) = dot a b.
Proof.
  revert b. induction a as [|x a IH]; intros [|y b]; simpl; try reflexivity.
  rewrite IH. reflexivity.
Qed.

Lemma distance_same_length (q e : vec) :
  length e = length q ->
  calculate_euclidean_distance q e = Some (euclidean q e).
Proof.
  intros E. unfold calculate_euclidean_distance.
  rewrite np_sub_same_length by congruence. cbn [bind].
  rewrite euclidean_norm. reflexivity.
Qed.

Lemma similarity_same_length (q e : vec) :
  length e = length q ->
  calculate_cosine_similarity q e = Some (cosine q e).
Proof.
  intros E. unfold calculate_cosine_similarity, cosine.
  rewrite np_dot_same_length by congruence. cbn [bind].
  unfold Py.eqb. rewrite fold_dot.
  destruct (Req_dec_T (norm q * norm e) 0); reflexivity.
Qed.

Lemma measure_all_same_length (q : vec) (known : list vec) :
  Forall (fun e => length e = length q) known ->
  forall ds ss,
    measure_all q known ds ss
    = Some (ds ++ map (euclidean q) known, ss ++ map (cosine q) known).
Proof.
  induction 1 as [|e known He Hk IH]; intros ds ss; simpl.
  - rewrite !app_nil_r. reflexivity.
  - rewrite distance_same_length, similarity_same_length by assumption.
    cbn [bind]. rewrite IH, <- !app_assoc. reflexivity.
Qed.

(** *** The running extreme of [np.argmin] and [np.argmax] *)

Lemma minimum_le_head (x : R) (l : list R) : minimum x l <= x.
Proof.
  destruct l; simpl; [lra | apply Rmin_l].
Qed.

Lemma minimum_lower (x : R) (l : list R) :
  forall y, In y (x :: l) -> minimum x l <= y.
Proof.
  revert x. induction l as [|z l IH]; intros x y Hy; simpl in *.
  - destruct Hy as [<-|[]]. lra.
  - destruct Hy as [<-|Hy].
    + apply Rmin_l.
    + eapply Rle_trans; [apply Rmin_r | apply IH; exact Hy].
Qed.

Lemma minimum_in (x : R) (l : list R) : In (minimum x l) (x :: l).
Proof.
  revert x. induction l as [|z l IH]; intros x; simpl.
  - left. reflexivity.
  - unfold Rmin. destruct (Rle_dec x (minimum z l)).
    + left. reflexivity.
    + right. apply IH.
Qed.

Lemma maximum_opp (x : R) (l : list R) :
  maximum x l = - minimum (- x) (map Ropp l).
Proof.
  revert x. induction l as [|z l IH]; intros x; simpl.
  - lra.
  - rewrite IH. unfold Rmax, Rmin.
    destruct (Rle_dec x (- minimum (- z) (map Ropp l)));
      destruct (Rle_dec (- x) (minimum (- z) (map Ropp l))); lra.
Qed.

Lemma first_index_opp (x : R) (l : list R) :
  first_index_of (- x) (map Ropp l) = first_index_of x l.
Proof.
  induction l as [|z l IH]; simpl; [reflexivity|].
  destruct (Req_dec_T (- z) (- x)); destruct (Req_dec_T z x);
    try lra; congruence.
Qed.

Lemma arg_from_opp (bi : nat) (best : R) (i : nat) (l : list R) :
  Py.arg_from Py.gtb bi best i l
  = Py.arg_from Py.ltb bi (- best) i (map Ropp l).
Proof.
  revert bi best i. induction l as [|z l IH]; intros bi best i; simpl.
  - reflexivity.
  - unfold Py.gtb, Py.ltb.
    destruct (Rgt_dec z best); destruct (Rlt_dec (- z) (- best));
      try lra; apply IH.
Qed.

Lemma first_index_nth (x : R) (l : list R) :
  In x l -> nth_error l (first_index_of x l) = Some x.
Proof.
  induction l as [|z l IH]; simpl; intros H; [contradiction|].
  destruct (Req_dec_T z x) as [->|N]; [reflexivity|].
  destruct H as [H|H]; [contradiction|]. simpl. apply IH, H.
Qed.

(** The single pass keeps the first position of the least value seen. *)
Lemma arg_from_min (l : list R) :
  forall bi best i,
    Py.arg_from Py.ltb bi best i l
    = if Req_dec_T (minimum best l) best then bi
      else (i + first_index_of (minimum best l) l)%nat.
Proof.
  induction l as [|x l IH]; intros bi best i.
  - simpl. destruct (Req_dec_T best best); congruence.
  - cbn [Py.arg_from]. unfold Py.ltb at 1.
    pose proof (minimum_le_head x l) as Hx.
    destruct (Rlt_dec x best) as [Lt|Ge].
    + rewrite IH. cbn [minimum first_index_of].
      assert (E : Rmin best (minimum x l) = minimum x l)
        by (apply Rmin_right; lra).
      rewrite E.
      destruct (Req_dec_T (minimum x l) best) as [A|_]; [lra|].
      destruct (Req_dec_T (minimum x l) x) as [B|B].
      * rewrite B. destruct (Req_dec_T x x); [lia | congruence].
      * destruct (Req_dec_T x (minimum x l)); [congruence | lia].
    + rewrite IH. cbn [minimum first_index_of].
      assert (E : minimum best l = Rmin best (minimum x l)).
      { clear IH. destruct l as [|z l]; simpl in *.
        - unfold Rmin. destruct (Rle_dec best x); lra.
        - unfold Rmin.
          destruct (Rle_dec x (minimum z l));
            destruct (Rle_dec best (minimum z l));
            destruct (Rle_dec best x); lra. }
      rewrite <- E.
      destruct (Req_dec_T (minimum best l) best) as [A|A]; [reflexivity|].
      pose proof (minimum_le_head best l).
      destruct (Req_dec_T x (minimum best l)); [lra | lia].
Qed.

Lemma argmin_first (x : R) (l : list R) :
  Py.argmin (x :: l) = Some (first_index_of (minimum x l) (x :: l)).
Proof.
  unfold Py.argmin. rewrite arg_from_min. cbn [first_index_of].
  destruct (Req_dec_T (minimum x l) x) as [A|A];
    destruct (Req_dec_T x (minimum x l)); try congruence; reflexivity.
Qed.

Lemma argmax_first (x : R) (l : list R) :
  Py.argmax (x :: l) = Some (first_index_of (maximum x l) (x :: l)).
Proof.
  unfold Py.argmax. rewrite arg_from_opp, arg_from_min.
  rewrite maximum_opp. cbn [first_index_of].
  rewrite <- (first_index_opp (- minimum (- x) (map Ropp l)) l).
  rewrite Ropp_involutive.
  destruct (Req_dec_T (minimum (- x) (map Ropp l)) (- x)) as [A|A];
    destruct (Req_dec_T x (- minimum (- x) (map Ropp l))); try lra;
    reflexivity.
Qed.

Lemma maximum_in (x : R) (l : list R) : In (maximum x l) (x :: l).
Proof.
  rewrite maximum_opp.
  pose proof (minimum_in (- x) (map Ropp l)) as H.
  change (- x :: map Ropp l) with (map Ropp (x :: l)) in H.
  apply in_map_iff in H. destruct H as [y [E H]].
  rewrite <- E, Ropp_involutive. exact H.
Qed.

(** *** The registry behind the parallel lists *)

Lemma registry_nth (ids names : list string) (encodings : list vec) :
  forall i,
    nth_error (registry_of ids names encodings) i
    = match nth_error ids i, nth_error names i, nth_error encodings i with
      | Some a, Some b, Some c => Some (mkIdentity a b c)
      | _, _, _ => None
      end.
Proof.
  revert names encodings.
  induction ids as [|a ids IH]; intros [|b names] [|c encodings] [|i];
    simpl; try reflexivity;
    try (destruct (nth_error ids i); reflexivity);
    try (destruct (nth_error ids i); destruct (nth_error names i);
         reflexivity).
  apply IH.
Qed.

Lemma registry_embeddings (ids names : list string) (encodings : list vec) :
  length names = length encodings ->
  length ids = length encodings ->
  map embedding (registry_of ids names encodings) = encodings.
Proof.
  revert names encodings.
  induction ids as [|a ids IH]; intros [|b names] [|c encodings];
    simpl; intros H1 H2; try discriminate; try reflexivity.
  f_equal. apply IH; congruence.
Qed.

Lemma student_info_accept (s : Store) (ds ss : list R) (i : nat) (c : R) :
  aligned s ->
  length ds = length (known_face_encodings s) ->
  length ss = length (known_face_encodings s) ->
  (i < length (known_face_encodings s))%nat ->
  student_info_at s ds ss i c
  = Some (as_student_info (accept (registry s) ds ss i c)).
Proof.
  intros [Hn Hi] Hd Hs Lt.
  unfold student_info_at, accept, registry. rewrite registry_nth.
  destruct (nth_error (known_student_ids s) i) as [a|] eqn:Ea;
    [|apply nth_error_None in Ea; lia].
  destruct (nth_error (known_face_names s) i) as [b|] eqn:Eb;
    [|apply nth_error_None in Eb; lia].
  destruct (nth_error (known_face_encodings s) i) as [e|] eqn:Ee;
    [|apply nth_error_None in Ee; lia].
  destruct (nth_error ss i) as [x|] eqn:Es;
    [|apply nth_error_None in Es; lia].
  destruct (nth_error ds i) as [y|] eqn:Ed;
    [|apply nth_error_None in Ed; lia].
  reflexivity.
Qed.

Lemma first_index_bound (x : R) (l : list R) :
  In x l -> (first_index_of x l < length l)%nat.
Proof.
  intros H. apply nth_error_Some. rewrite first_index_nth by exact H.
  discriminate.
Qed.

(** C1: on a store whose three lists are aligned and whose embeddings have
    the dimension of the query, [recognize_face] computes the matcher of
    the specification: (none, 1) on the empty registry; otherwise the match
    at the first index of greatest similarity, with that similarity as
    confidence, when it exceeds 1 - threshold; else the match at the first
    index of least distance with confidence 1 - distance / threshold when
    that distance is below the threshold; else (none, least distance). *)
Theorem recognize_face_is_match (s : Store) (q : vec) (threshold : R) :
  aligned s ->
  dimension (length q) s ->
  recognize_face s q threshold
  = as_student_info (match_ q (registry s) threshold).
Proof.
  intros Ha Hdim. pose proof Ha as [Hn Hi].
  unfold recognize_face, recognize_try.
  rewrite (measure_all_same_length q _ Hdim). cbn [bind app].
  pose proof (registry_embeddings _ _ _ Hn Hi) as Hemb.
  unfold match_. fold (registry s) in Hemb.
  destruct (registry s) as [|r0 rest] eqn:Er.
  - simpl in Hemb. rewrite <- Hemb. reflexivity.
  - assert (Hds : map (fun r => euclidean q (embedding r)) (r0 :: rest)
                  = map (euclidean q) (known_face_encodings s))
      by (rewrite <- Hemb, map_map; reflexivity).
    assert (Hss : map (fun r => cosine q (embedding r)) (r0 :: rest)
                  = map (cosine q) (known_face_encodings s))
      by (rewrite <- Hemb, map_map; reflexivity).
    rewrite <- Hds, <- Hss.
    assert (Hlen : length (known_face_encodings s) = S (length rest))
      by (rewrite <- Hemb; simpl; rewrite length_map; reflexivity).
    rewrite Hlen. cbn [Nat.eqb].
    set (ds := map (fun r => euclidean q (embedding r)) (r0 :: rest)).
    set (ss := map (fun r => cosine q (embedding r)) (r0 :: rest)).
    set (dmin := minimum (euclidean q (embedding r0))
                         (map (fun r => euclidean q (embedding r)) rest)).
    set (smax := maximum (cosine q (embedding r0))
                         (map (fun r => cosine q (embedding r)) rest)).
    assert (Emin : Py.argmin ds = Some (first_index_of dmin ds))
      by apply argmin_first.
    assert (Emax : Py.argmax ss = Some (first_index_of smax ss))
      by apply argmax_first.
    assert (Imin : In dmin ds) by apply minimum_in.
    assert (Imax : In smax ss) by apply maximum_in.
    rewrite Emin, Emax. cbn [bind].
    rewrite (first_index_nth _ _ Imin), (first_index_nth _ _ Imax).
    cbn [bind].
    assert (Ld : length ds = length (known_face_encodings s))
      by (unfold ds; rewrite Hds, length_map; reflexivity).
    assert (Ls : length ss = length (known_face_encodings s))
      by (unfold ss; rewrite Hss, length_map; reflexivity).
    unfold Py.gtb, Py.ltb.
    destruct (Rgt_dec smax (1 - threshold)) as [G|G].
    + rewrite (student_info_accept s ds ss _ _ Ha Ld Ls).
      * rewrite Er. reflexivity.
      * rewrite <- Ls. apply first_index_bound, Imax.
    + destruct (Rlt_dec dmin threshold) as [L|L].
      * rewrite (student_info_accept s ds ss _ _ Ha Ld Ls).
        -- rewrite Er. reflexivity.
        -- rewrite <- Ld. apply first_index_bound, Imin.
      * reflexivity.
Qed.

(** *** The range of the confidence *)

Lemma measure_all_bounds (q : vec) (known : list vec) :
  forall ds0 ss0 ds ss,
    measure_all q known ds0 ss0 = Some (ds, ss) ->
    Forall (fun d => 0 <= d) ds0 ->
    Forall (fun d => 0 <= d) ds.
Proof.
  induction known as [|e known IH]; intros ds0 ss0 ds ss H Hd.
  - simpl in H. injection H as <- <-. assumption.
  - simpl in H.
    destruct (calculate_euclidean_distance q e) as [d|] eqn:Ed;
      cbn [bind] in H; [|discriminate].
    destruct (calculate_cosine_similarity q e) as [x|] eqn:Ex;
      cbn [bind] in H; [|discriminate].
    apply (IH _ _ _ _ H).
    apply Forall_app. split; [assumption|].
    constructor; [|constructor]. eapply distance_nonneg, Ed.
Qed.

Lemma student_info_confidence (s : Store) (ds ss : list R) (i : nat)
    (c : R) (info : StudentInfo) (d : R) :
  student_info_at s ds ss i c = Some (Some info, d) -> confidence info = c.
Proof.
  unfold student_info_at.
  destruct (nth_error (known_student_ids s) i); cbn [bind]; [|discriminate].
  destruct (nth_error (known_face_names s) i); cbn [bind]; [|discriminate].
  destruct (nth_error ss i); cbn [bind]; [|discriminate].
  destruct (nth_error ds i); cbn [bind]; [|discriminate].
  intros H. injection H as <- _. reflexivity.
Qed.



(** *** The matcher on the sample stores *)

Lemma distance_singleton (x y : R) :
  calculate_euclidean_distance [x] [y] = Some (Rabs (x - y)).
Proof.
  unfold calculate_euclidean_distance, np_sub.
  cbn [length Nat.eqb zip_with bind].
  rewrite norm_singleton. reflexivity.
Qed.

Lemma similarity_singleton (x y : R) :
  x <> 0 -> y <> 0 ->
  calculate_cosine_similarity [x] [y] = Some (x * y / (Rabs x * Rabs y)).
Proof.
  intros Hx Hy.
  unfold calculate_cosine_similarity, np_dot. cbn [length Nat.eqb dot bind].
  rewrite !norm_singleton, eqb_false.
  - rewrite Rplus_0_r. reflexivity.
  - pose proof (Rabs_pos_lt x Hx). pose proof (Rabs_pos_lt y Hy). nra.
Qed.

(** The query [[1]] against its own embedding: accepted by similarity. *)
Lemma recognize_same :
  recognize_face Sample.one_student [1] 0.6
  = (Some (mkInfo "MIT2025001" "Alice" 1 1 0), 0).
Proof.
  unfold recognize_face, recognize_try, Sample.one_student.
  cbn [known_face_encodings length Nat.eqb measure_all].
  rewrite distance_singleton, similarity_singleton by lra.
  cbn [bind app measure_all Py.argmin Py.argmax Py.arg_from nth_error].
  replace (1 * 1 / (Rabs 1 * Rabs 1)) with 1
    by (rewrite Rabs_R1; field).
  replace (Rabs (1 - 1)) with 0
    by (replace (1 - 1) with 0 by lra; symmetry; apply Rabs_R0).
  rewrite gtb_true by lra.
  reflexivity.
Qed.


Lemma recognize_face_is_match_witness :
  recognize_face Sample.one_student [1] 0.6
  = as_student_info (match_ [1] (registry Sample.one_student) 0.6).
Proof.
  apply (recognize_face_is_match Sample.one_student [1] 0.6).
  - split; reflexivity.
  - repeat constructor.
Defined.



End MatcherProps.

(** ** The quality score *)

Module QualityProps.

Import MathUtils MathProps FaceProcessor.

Lemma sum_bounds (a b : R) (l : list R) :
  Forall (fun x => a <= x <= b) l ->
  a * INR (length l) <= fold_right Rplus 0 l <= b * INR (length l).
Proof.
  induction 1 as [|x l Hx Hl IH].
  - simpl. lra.
  - cbn [fold_right length]. rewrite S_INR. lra.
Qed.

Lemma length_pos {A : Type} (l : list A) : l <> [] -> 0 < INR (length l).
Proof.
  destruct l; [congruence|]. intros _. apply lt_0_INR. simpl. lia.
Qed.

Lemma mean_bounds (a b : R) (l : list R) :
  l <> [] -> Forall (fun x => a <= x <= b) l -> a <= mean l <= b.
Proof.
  intros Hne Hl. pose proof (length_pos l Hne) as Hn.
  pose proof (sum_bounds a b l Hl) as [Lo Hi]. unfold mean. split.
  - apply Rmult_le_reg_r with (INR (length l)); [assumption|].
    unfold Rdiv. rewrite Rmult_assoc, Rinv_l by lra. lra.
  - apply Rmult_le_reg_r with (INR (length l)); [assumption|].
    unfold Rdiv. rewrite Rmult_assoc, Rinv_l by lra. lra.
Qed.

Lemma sum_squares_nonneg (m : R) (l : list R) :
  0 <= fold_right Rplus 0 (map (fun x => (x - m) * (x - m)) l).
Proof.
  induction l as [|x l IH]; simpl; [lra|].
  pose proof (Rle_0_sqr (x - m)) as S. unfold Rsqr in S. lra.
Qed.

Lemma var_nonneg (l : list R) : l <> [] -> 0 <= var l.
Proof.
  intros Hne. unfold var, mean. rewrite length_map.
  apply Rmult_le_pos; [apply sum_squares_nonneg|].
  left. apply Rinv_0_lt_compat, length_pos, Hne.
Qed.

Lemma pixel_value_range (b : Byte.byte) : 0 <= pixel_value b <= 255.
Proof.
  unfold pixel_value. pose proof (Byte.to_N_bounded b) as H.
  split; [apply IZR_le | apply IZR_le]; lia.
Qed.

Lemma size_score_range (width height : nat) :
  0 <= size_score width height <= 1.
Proof.
  unfold size_score.
  destruct ((width <? 100) || (height <? 100))%nat eqn:Small.
  - assert (Hm : (Nat.min width height < 100)%nat).
    { apply orb_true_iff in Small.
      destruct Small as [H|H]; apply Nat.ltb_lt in H; lia. }
    apply lt_INR in Hm. pose proof (pos_INR (Nat.min width height)).
    replace (INR 100) with 100 in Hm by (simpl; lra). lra.
  - destruct ((300 <? width) || (300 <? height))%nat eqn:Large; [|lra].
    assert (Hm : (300 < Nat.max width height)%nat).
    { apply orb_true_iff in Large.
      destruct Large as [H|H]; apply Nat.ltb_lt in H; lia. }
    apply lt_INR in Hm.
    replace (INR 300) with 300 in Hm by (simpl; lra).
    split.
    + apply Rmult_le_pos; [lra|]. left. apply Rinv_0_lt_compat. lra.
    + apply Rmult_le_reg_r with (INR (Nat.max width height)); [lra|].
      unfold Rdiv. rewrite Rmult_assoc, Rinv_l by lra. lra.
Qed.

Lemma nonempty_map {A B : Type} (f : A -> B) (l : list A) :
  l <> [] -> map f l <> [].
Proof.
  destruct l; [congruence | discriminate].
Qed.

Lemma combined_quality_range (gray : Gray) (lap : list R) :
  pixels gray <> [] ->
  lap <> [] ->
  0 <= combined_quality gray lap <= 1.
Proof.
  intros Hne Hlap. unfold combined_quality.
  pose proof (var_nonneg lap Hlap) as Hv.
  assert (Hs : 0 <= Rmin (var lap / 1000) 1 <= 1).
  { split; [apply Rmin_glb; lra | apply Rmin_r]. }
  assert (Hb : 0 <= mean (map pixel_value (pixels gray)) <= 255).
  { apply mean_bounds.
    - apply nonempty_map, Hne.
    - apply Forall_forall. intros x Hx. apply in_map_iff in Hx.
      destruct Hx as [b [<- _]]. apply pixel_value_range. }
  set (b := mean (map pixel_value (pixels gray)) / 255) in *.
  assert (Hbs : 0 <= 1 - Rabs (b - 0.5) * 2 <= 1).
  { pose proof (Rabs_pos (b - 0.5)).
    assert (Rabs (b - 0.5) <= 0.5) by (apply Rabs_le; unfold b; lra).
    lra. }
  assert (Hc : 0 <= Rmin (std (map pixel_value (pixels gray)) / 128) 1 <= 1).
  { split; [|apply Rmin_r]. apply Rmin_glb; [|lra].
    pose proof (sqrt_pos (var (map pixel_value (pixels gray)))).
    unfold std. lra. }
  pose proof (size_score_range (gray_width gray) (gray_height gray)).
  lra.
Qed.

Section Quality.

Context {collab : Collaborators}.

(** C6: the quality score is defined on every face image (the function is
    total: it never raises), and, OpenCV returning a gray image that has
    pixels and a Laplacian of the same size, lies in [0, 1].  When the
    conversion to gray or the Laplacian fails the score is the default 0.5;
    otherwise it is the weighted sum 0.4 sharpness + 0.3 brightness +
    0.2 contrast + 0.1 size clamped to [0, 1]. *)
Theorem quality_in_unit_interval (face_img : FaceImg) :
  (forall gray, cvtColor_gray face_img = Some gray -> pixels gray <> []) ->
  (forall gray lap,
     cvtColor_gray face_img = Some gray -> laplacian gray = Some lap ->
     length lap = length (pixels gray)) ->
  0 <= _calculate_face_quality face_img <= 1 /\
  (cvtColor_gray face_img = None ->
   _calculate_face_quality face_img = 0.5) /\
  (forall gray,
     cvtColor_gray face_img = Some gray ->
     match laplacian gray with
     | None => _calculate_face_quality face_img = 0.5
     | Some lap =>
         _calculate_face_quality face_img
         = Rmax 0 (Rmin (combined_quality gray lap) 1)
     end).
Proof.
  intros Hne Hlap. unfold _calculate_face_quality.
  destruct (cvtColor_gray face_img) as [gray|] eqn:Eg; cbn [bind].
  - specialize (Hne gray eq_refl).
    destruct (laplacian gray) as [lap|] eqn:El; cbn [bind].
    + assert (Hl : lap <> []).
      { specialize (Hlap gray lap eq_refl El).
        destruct lap; [|discriminate].
        destruct (pixels gray); [congruence | discriminate]. }
      pose proof (combined_quality_range gray lap Hne Hl) as [Lo Hi].
      assert (E : Rmin (combined_quality gray lap) 1
                  = combined_quality gray lap) by (apply Rmin_left; lra).
      repeat split.
      * rewrite E. lra.
      * rewrite E. lra.
      * discriminate.
      * intros g Hg. injection Hg as <-. rewrite El, E.
        symmetry. apply Rmax_right. lra.
    + repeat split; try lra; try discriminate.
      intros g Hg. injection Hg as <-. rewrite El. reflexivity.
  - repeat split; try lra. intros g Hg. discriminate.
Qed.

End Quality.

Lemma quality_in_unit_interval_witness :
  0 <= _calculate_face_quality (collab := Sample.studio) 2%nat <= 1.
Proof.
  apply (quality_in_unit_interval (collab := Sample.studio) 2%nat).
  - intros gray H. injection H as <-. discriminate.
  - intros gray lap Hg Hl. injection Hg as <-. injection Hl as <-.
    reflexivity.
Defined.

End QualityProps.

(** ** The detection filter *)

Module DetectionProps.

Import MathUtils MathProps FaceProcessor DetectionFilter.

Section Sorting.

Context {A : Type} (key : A -> R).

Lemma insert_desc_perm (x : A) (l : list A) :
  Permutation (Py.insert_desc key x l) (x :: l).
Proof.
  induction l as [|y t IH]; simpl.
  - apply Permutation_refl.
  - destruct (Py.gtb (key y) (key x)).
    + eapply perm_trans; [apply perm_skip, IH | apply perm_swap].
    + apply Permutation_refl.
Qed.

Lemma sort_desc_perm (l : list A) : Permutation (Py.sort_desc key l) l.
Proof.
  induction l as [|x t IH]; simpl.
  - constructor.
  - eapply perm_trans; [apply insert_desc_perm | apply perm_skip, IH].
Qed.

Lemma insert_desc_sorted (x : A) (l : list A) :
  StronglySorted (fun a b => key a >= key b) l ->
  StronglySorted (fun a b => key a >= key b) (Py.insert_desc key x l).
Proof.
  induction 1 as [|y t Ht IH Hy]; simpl.
  - constructor; constructor.
  - unfold Py.gtb. destruct (Rgt_dec (key y) (key x)) as [G|G].
    + constructor; [exact IH|].
      apply Forall_forall. intros z Hz.
      apply (Permutation_in _ (insert_desc_perm x t)) in Hz.
      destruct Hz as [<-|Hz]; [lra|].
      rewrite Forall_forall in Hy. apply Hy, Hz.
    + constructor; [constructor; assumption|].
      constructor; [lra|].
      apply Forall_forall. intros z Hz.
      rewrite Forall_forall in Hy. specialize (Hy z Hz). lra.
Qed.

Lemma sort_desc_sorted (l : list A) :
  StronglySorted (fun a b => key a >= key b) (Py.sort_desc key l).
Proof.
  induction l as [|x t IH]; simpl.
  - constructor.
  - apply insert_desc_sorted, IH.
Qed.



End Sorting.

Section Detection.

Context {collab : Collaborators}.

Lemma survivesb_spec (image : Image) (d : Detection Landmarks) :
  survivesb image d = true <-> survives image d.
Proof.
  unfold survivesb, survives.
  destruct (Rgt_dec (det_confidence d) 0.95) as [G|G]; cbn [andb].
  - rewrite andb_true_iff, !Z.ltb_lt. tauto.
  - split; [discriminate | tauto].
Qed.

Lemma detect_step_spec (image : Image) (faces : list (Face FaceImg Landmarks))
    (d : Detection Landmarks) :
  detect_step image faces d
  = if survivesb image d then faces ++ [candidate image d] else faces.
Proof.
  unfold detect_step, survivesb, candidate, clamped, clamp, Py.gtb.
  destruct (Rgt_dec (det_confidence d) 0.95); cbn [andb]; [|reflexivity].
  destruct (det_box d) as [[[x y] w] h].
  destruct (shape image) as [height width]. cbn [fst snd box_width box_height].
  reflexivity.
Qed.

Lemma detect_loop_spec (image : Image) (ds : list (Detection Landmarks)) :
  forall faces,
    fold_left (detect_step image) ds faces
    = faces ++ map (candidate image) (filter (survivesb image) ds).
Proof.
  induction ds as [|d ds IH]; intros faces; cbn [fold_left filter].
  - rewrite app_nil_r. reflexivity.
  - rewrite IH, detect_step_spec.
    destruct (survivesb image d); [|reflexivity].
    cbn [map]. rewrite <- app_assoc. reflexivity.
Qed.


End Detection.

(** The sort on four keyed entries with two ties: greater keys first, and
    within a key the order of arrival. *)
Lemma sort_desc_ties :
  Py.sort_desc fst [(1, "a"); (2, "b"); (1, "c"); (2, "d")]%string
  = [(2, "b"); (2, "d"); (1, "a"); (1, "c")]%string.
Proof.
  cbn [Py.sort_desc Py.insert_desc fst].
  repeat (first [rewrite gtb_true by lra | rewrite gtb_false by lra];
          cbn [Py.insert_desc fst]).
  reflexivity.
Qed.

End DetectionProps.

(** ** The recognition result *)

Module RecognitionProps.

Import MathUtils MathProps FaceProcessor RecognitionResult.

Lemma best_confidence_snoc (sid : string) (ms : list StudentInfo)
    (m : StudentInfo) :
  best_confidence sid (ms ++ [m])
  = if String.eqb (student_id m) sid
    then Some (match best_confidence sid ms with
               | Some c => Rmax c (confidence m)
               | None => confidence m
               end)
    else best_confidence sid ms.
Proof.
  induction ms as [|a ms IH]; cbn [app best_confidence].
  - destruct (String.eqb (student_id m) sid); reflexivity.
  - rewrite IH.
    destruct (String.eqb (student_id a) sid);
      destruct (String.eqb (student_id m) sid); try reflexivity.
    destruct (best_confidence sid ms) as [c|];
      [rewrite Rmax_assoc|]; reflexivity.
Qed.

Lemma find_filter {A : Type} (p : A -> bool) (l : list A) :
  find p l = match filter p l with
             | [] => None
             | x :: _ => Some x
             end.
Proof.
  induction l as [|y t IH]; simpl; [reflexivity|].
  destruct (p y); [reflexivity | exact IH].
Qed.

Lemma list_remove_in (x : RecognizedStudent) (l : list RecognizedStudent) :
  In x l -> exists rest, list_remove x l = Some rest.
Proof.
  induction l as [|y t IH]; simpl; intros H; [contradiction|].
  destruct (recognized_eq_dec y x) as [E|N]; [eexists; reflexivity|].
  destruct H as [H|H]; [contradiction|].
  destruct (IH H) as [rest ->]. eexists. reflexivity.
Qed.

Lemma list_remove_found (p : RecognizedStudent -> bool)
    (x : RecognizedStudent) (l : list RecognizedStudent) :
  forall rest,
    find p l = Some x -> list_remove x l = Some rest ->
    filter p l = x :: filter p rest.
Proof.
  induction l as [|y t IH]; simpl; intros rest Hf Hr; [discriminate|].
  destruct (p y) eqn:Py.
  - injection Hf as ->.
    destruct (recognized_eq_dec x x) as [_|N]; [|congruence].
    injection Hr as <-. reflexivity.
  - destruct (recognized_eq_dec y x) as [E|N].
    + apply find_some in Hf. destruct Hf as [_ Px]. congruence.
    + destruct (list_remove x t) as [rest'|]; [|discriminate].
      injection Hr as <-. simpl. rewrite Py. apply IH; [exact Hf | reflexivity].
Qed.

Lemma list_remove_other (q : RecognizedStudent -> bool)
    (x : RecognizedStudent) (l : list RecognizedStudent) :
  forall rest,
    q x = false -> list_remove x l = Some rest ->
    filter q rest = filter q l.
Proof.
  induction l as [|y t IH]; simpl; intros rest Hq Hr; [discriminate|].
  destruct (recognized_eq_dec y x) as [E|N].
  - injection Hr as <-. subst y. rewrite Hq. reflexivity.
  - destruct (list_remove x t) as [rest'|]; [|discriminate].
    injection Hr as <-. simpl. rewrite (IH rest' Hq eq_refl). reflexivity.
Qed.

Lemma entries_snoc (sid : string) (rs : list RecognizedStudent)
    (u : RecognizedStudent) :
  entries_of sid (rs ++ [u])
  = entries_of sid rs ++ (if same_student sid u then [u] else []).
Proof.
  unfold entries_of. rewrite filter_app. reflexivity.
Qed.

Section Deduplication.

Context {collab : Collaborators}.

(** One match offered to a deduplicated list: the list stays
    deduplicated, and the [remove] does not raise. *)
Lemma offer_deduplicated (ms : list StudentInfo)
    (rs : list RecognizedStudent) (info : StudentInfo)
    (f : Face FaceImg Landmarks) :
  deduplicated ms rs ->
  exists rs', offer rs info f = Some rs' /\ deduplicated (ms ++ [info]) rs'.
Proof.
  intros Inv. unfold offer.
  set (u := mkRecognized info (box f) (quality f) (size f)).
  assert (Hu : forall sid, same_student sid u
                           = String.eqb (student_id info) sid)
    by reflexivity.
  pose proof (Inv (student_id info)) as Inv0.
  rewrite find_filter. fold (entries_of (student_id info) rs).
  destruct (entries_of (student_id info) rs) as [|ex tl] eqn:Een.
  - (* the identity is new *)
    exists (rs ++ [u]). split; [reflexivity|].
    intros sid. rewrite best_confidence_snoc, entries_snoc, Hu.
    destruct (String.eqb (student_id info) sid) eqn:Es.
    + apply String.eqb_eq in Es. subst sid. rewrite Een.
      destruct (best_confidence (student_id info) ms) as [c|].
      * destruct Inv0 as [r [H _]]. discriminate.
      * exists u. split; reflexivity.
    + rewrite app_nil_r. apply Inv.
  - (* the identity is held by [ex] *)
    destruct (best_confidence (student_id info) ms) as [c|] eqn:Eb;
      [|discriminate].
    destruct Inv0 as [r [Hr Hc]]. injection Hr as <- ->.
    assert (Hex : same_student (student_id info) ex = true).
    { assert (In ex (entries_of (student_id info) rs))
        by (rewrite Een; left; reflexivity).
      apply filter_In in H. tauto. }
    assert (Hother : forall sid, String.eqb (student_id info) sid = false ->
                                 same_student sid ex = false).
    { intros sid Hs. unfold same_student in *.
      apply String.eqb_eq in Hex. rewrite Hex. exact Hs. }
    unfold Py.gtb.
    destruct (Rgt_dec (confidence info) (confidence (student ex))) as [G|G].
    + assert (Hin : In ex rs).
      { assert (In ex (entries_of (student_id info) rs))
          by (rewrite Een; left; reflexivity).
        apply filter_In in H. tauto. }
      destruct (list_remove_in ex rs Hin) as [rest Hrest].
      rewrite Hrest. cbn [bind]. exists (rest ++ [u]).
      split; [reflexivity|].
      intros sid. rewrite best_confidence_snoc, entries_snoc, Hu.
      destruct (String.eqb (student_id info) sid) eqn:Es.
      * apply String.eqb_eq in Es. subst sid. rewrite Eb.
        assert (Hfind : find (same_student (student_id info)) rs = Some ex)
          by (rewrite find_filter; fold (entries_of (student_id info) rs);
              rewrite Een; reflexivity).
        pose proof (list_remove_found _ _ _ _ Hfind Hrest) as Hf.
        fold (entries_of (student_id info) rs) in Hf.
        fold (entries_of (student_id info) rest) in Hf.
        rewrite Een in Hf. injection Hf as <-.
        exists u. split; [reflexivity|].
        cbn [student u]. rewrite Hc in G. symmetry. apply Rmax_right. lra.
      * rewrite app_nil_r. unfold entries_of.
        rewrite (list_remove_other _ _ _ _ (Hother sid Es) Hrest).
        apply Inv.
    + exists rs. split; [reflexivity|].
      intros sid. rewrite best_confidence_snoc.
      destruct (String.eqb (student_id info) sid) eqn:Es.
      * apply String.eqb_eq in Es. subst sid. rewrite Eb, Een.
        exists ex. split; [reflexivity|].
        rewrite Hc in *. symmetry. apply Rmax_left. lra.
      * apply Inv.
Qed.

End Deduplication.

Section Loop.

Context {collab : Collaborators}.

Lemma process_loop_deduplicated (s : Store) (threshold : R)
    (faces : list (Face FaceImg Landmarks)) :
  forall ms rs n,
    deduplicated ms rs ->
    exists rs' n',
      process_loop s threshold (rs, n) faces = Some (rs', n') /\
      deduplicated (ms ++ map fst (matched s threshold faces)) rs'.
Proof.
  induction faces as [|f faces IH]; intros ms rs n Inv.
  - exists rs, n. split; [reflexivity|].
    cbn [matched map]. rewrite app_nil_r. exact Inv.
  - cbn [process_loop matched]. unfold process_step, match_of.
    destruct (get_face_embedding (face f)) as [e|]; cbn [bind].
    + destruct (fst (recognize_face s e threshold)) as [info|].
      * destruct (offer_deduplicated ms rs info f Inv) as [rs1 [E Inv1]].
        rewrite E. cbn [bind].
        destruct (IH _ _ n Inv1) as [rs' [n' [E' Inv']]].
        exists rs', n'. split; [exact E'|].
        cbn [map fst]. rewrite <- app_assoc in Inv'. exact Inv'.
      * apply IH, Inv.
    + apply IH, Inv.
Qed.

(** C8: the loop of [process_image] over the detected faces always ends
    with a result list (the [remove] never raises), and in that list every
    identity that matched at least one face has exactly one entry, whose
    confidence is the highest among the matches of that identity; an
    identity that matched no face has none. *)
Theorem each_identity_once (s : Store) (threshold : R)
    (faces : list (Face FaceImg Landmarks)) :
  exists rs n,
    process_loop s threshold ([], 0%nat) faces = Some (rs, n) /\
    forall sid,
      match best_confidence sid (map fst (matched s threshold faces)) with
      | None => entries_of sid rs = []
      | Some c =>
          exists r, entries_of sid rs = [r] /\ confidence (student r) = c
      end.
Proof.
  destruct (process_loop_deduplicated s threshold faces [] [] 0%nat)
    as [rs [n [E Inv]]].
  - intros sid. reflexivity.
  - exists rs, n. split; [exact E | exact Inv].
Qed.

(** The list returned by a successful [process_image] is deduplicated
    against the matches of the faces detected in the resized image. *)
Lemma process_image_deduplicated (s : Store) (image_data : string)
    (threshold : R) (rs : list RecognizedStudent) (fd un : nat) :
  process_image s image_data threshold = Processed rs fd un ->
  exists image0 image,
    decode_base64_to_image image_data = Some image0 /\
    resize_image image0 = Some image /\
    fd = length (detect_faces image) /\
    deduplicated (map fst (matched s threshold (detect_faces image))) rs.
Proof.
  unfold process_image.
  destruct (negb (validate_image_data image_data)); [discriminate|].
  destruct (decode_base64_to_image image_data) as [image0|] eqn:Ed;
    [|discriminate].
  destruct (resize_image image0) as [image|] eqn:Er; cbn [bind];
    [|discriminate].
  destruct (process_loop_deduplicated s threshold (detect_faces image)
                                      [] [] 0%nat)
    as [rs' [n [E Inv]]]; [intros sid; reflexivity|].
  rewrite E. cbn [bind fst snd]. intros H. injection H as <- <- <-.
  exists image0, image. split; [reflexivity|]. split; [exact Er|].
  split; [reflexivity | exact Inv].
Qed.

(** Two faces of one image match the same student with the confidences
    0.7 and 0.9: the result holds that student once, with 0.9. *)
Lemma offer_twice (f1 f2 : Face FaceImg Landmarks) (sim1 sim2 d1 d2 : R) :
  let m1 := mkInfo "MIT2025001" "Alice" 0.7 sim1 d1 in
  let m2 := mkInfo "MIT2025001" "Alice" 0.9 sim2 d2 in
  (l <- offer [] m1 f1 ;; offer l m2 f2)
  = Some [mkRecognized m2 (box f2) (quality f2) (size f2)].
Proof.
  intros m1 m2. subst m1 m2. unfold offer, same_student.
  cbn [find app bind student student_id].
  rewrite String.eqb_refl. cbn [confidence student].
  rewrite gtb_true by lra. cbn [list_remove].
  destruct (recognized_eq_dec _ _) as [_|N]; [|congruence].
  reflexivity.
Qed.

End Loop.

End RecognitionProps.

(** ** Enrollment and the identity store *)

Module EnrollmentProps.

Import MathUtils MathProps FaceProcessor IdentityStore.

(** *** The sample collaborators at work *)

Lemma studio_detect_faces (image : nat) :
  detect_faces (collab := Sample.studio) image
  = [mkFace image (10, 10, 120, 120)%Z 0.99
            (_calculate_face_quality (collab := Sample.studio) image)
            None (120, 120)%Z].
Proof.
  unfold detect_faces, filter_detections.
  cbn [detector Sample.studio fold_left].
  unfold detect_step. cbn [det_confidence det_box det_keypoints].
  rewrite gtb_true by lra.
  cbn [shape crop Sample.studio]. reflexivity.
Qed.

Lemma studio_sample_embedding (img_data : string) :
  (2 <= String.length img_data)%nat ->
  sample_embedding (collab := Sample.studio) img_data
  = Some [if Nat.even (String.length img_data) then 1 else -1].
Proof.
  intros H. unfold sample_embedding, validate_image_data.
  assert (E : ValidationUtils.is_empty img_data = false)
    by (destruct img_data; [simpl in H; lia | reflexivity]).
  rewrite E. cbn [decode_base64_to_image Sample.studio].
  assert (L : (String.length img_data <? 2)%nat = false)
    by (apply Nat.ltb_ge; exact H).
  rewrite L. cbn [negb]. rewrite studio_detect_faces.
  reflexivity.
Qed.

Lemma studio_sample_undecoded (img_data : string) :
  (String.length img_data < 2)%nat ->
  sample_embedding (collab := Sample.studio) img_data = None.
Proof.
  intros H. unfold sample_embedding, validate_image_data.
  cbn [decode_base64_to_image Sample.studio].
  assert (L : (String.length img_data <? 2)%nat = true)
    by (apply Nat.ltb_lt; exact H).
  rewrite L. destruct (ValidationUtils.is_empty img_data); reflexivity.
Qed.

(** *** The mean and the normalization *)

Lemma zip_with_length (f : R -> R -> R) (a b : vec) :
  length a = length b -> length (zip_with f a b) = length a.
Proof.
  revert b. induction a as [|x a IH]; intros [|y b] H; simpl in *;
    try discriminate; [reflexivity|].
  f_equal. apply IH. congruence.
Qed.

Lemma zip_with_nth (a b : vec) (j : nat) :
  length a = length b ->
  nth j (zip_with Rplus a b) 0 = nth j a 0 + nth j b 0.
Proof.
  revert b j. induction a as [|x a IH]; intros [|y b] j H; simpl in *;
    try discriminate.
  - destruct j; lra.
  - destruct j; [reflexivity|]. apply IH. congruence.
Qed.

Lemma column_sum (j : nat) (rest : list vec) :
  forall v,
    Forall (fun w => length w = length v) rest ->
    length (fold_left (zip_with Rplus) rest v) = length v /\
    nth j (fold_left (zip_with Rplus) rest v) 0
    = nth j v 0 + fold_right Rplus 0 (map (fun e => nth j e 0) rest).
Proof.
  induction rest as [|w rest IH]; intros v H; cbn [fold_left map fold_right].
  - split; [reflexivity | lra].
  - inversion H as [|? ? Hw Hrest]; subst.
    assert (L : length (zip_with Rplus v w) = length v)
      by (apply zip_with_length; congruence).
    destruct (IH (zip_with Rplus v w)) as [IH1 IH2].
    + eapply Forall_impl; [|exact Hrest]. intros u Hu. simpl in Hu. congruence.
    + split; [congruence|].
      rewrite IH2, zip_with_nth by congruence. lra.
Qed.

Lemma nth_map_div (n : R) (l : vec) (j : nat) :
  nth j (map (fun s => s / n) l) 0 = nth j l 0 / n.
Proof.
  revert j. induction l as [|x l IH]; intros [|j]; simpl;
    try reflexivity; try (unfold Rdiv; ring).
  apply IH.
Qed.

(** What [np_mean] returns, component by component. *)
Lemma np_mean_components (es : list vec) (m : vec) :
  np_mean es = Some m ->
  length m = length (hd [] es) /\
  Forall (fun e => length e = length m) es /\
  forall j, nth j m 0 = mean (map (fun e => nth j e 0) es).
Proof.
  unfold np_mean. destruct es as [|v rest]; [discriminate|].
  destruct (forallb (fun w => (length w =? length v)%nat) rest) eqn:F;
    [|discriminate].
  intros H. injection H as <-.
  assert (Hall : Forall (fun w => length w = length v) rest).
  { apply Forall_forall. intros w Hw.
    rewrite forallb_forall in F. apply Nat.eqb_eq, F, Hw. }
  assert (Hlen : length (fold_left (zip_with Rplus) rest v) = length v)
    by (apply (column_sum 0 rest v Hall)).
  rewrite length_map. cbn [hd]. split; [exact Hlen|]. split.
  - constructor; [congruence|].
    eapply Forall_impl; [|exact Hall]. intros u Hu. simpl in Hu. congruence.
  - intros j. unfold mean. rewrite length_map, nth_map_div.
    destruct (column_sum j rest v Hall) as [_ ->]. reflexivity.
Qed.

Lemma np_mean_pair (e1 e2 : vec) :
  length e1 = length e2 ->
  np_mean [e1; e2] = Some (zip_with (fun a b => (a + b) / 2) e1 e2).
Proof.
  intros H. unfold np_mean. cbn [forallb fold_left length].
  rewrite H, Nat.eqb_refl. cbn [andb]. f_equal.
  replace (INR 2) with 2 by (simpl; lra).
  clear H. revert e2. induction e1 as [|x e1 IH]; intros [|y e2]; simpl;
    try reflexivity.
  rewrite IH. reflexivity.
Qed.

Lemma sumsq_scaled (n : R) (v : vec) :
  n <> 0 -> sumsq (map (fun x => x / n) v) = sumsq v / (n * n).
Proof.
  intros Hn. induction v as [|x v IH]; simpl.
  - field. exact Hn.
  - rewrite IH. field. exact Hn.
Qed.

Lemma normalize_unit (v : vec) : norm v <> 0 -> norm (normalize_vector v) = 1.
Proof.
  intros Hn. unfold normalize_vector. rewrite eqb_false by exact Hn.
  unfold norm at 1. rewrite sumsq_scaled by exact Hn.
  unfold norm. rewrite sqrt_sqrt by apply sumsq_nonneg.
  assert (sumsq v <> 0).
  { intros E. apply Hn. unfold norm. rewrite E. apply sqrt_0. }
  replace (sumsq v / sumsq v) with 1 by (field; assumption).
  apply sqrt_1.
Qed.

(** *** Lists by index *)

Lemma mem_In (x : string) (l : list string) : Py.mem x l = true <-> In x l.
Proof.
  unfold Py.mem. rewrite existsb_exists. split.
  - intros [y [Hy E]]. apply String.eqb_eq in E. subst y. exact Hy.
  - intros H. exists x. split; [exact H | apply String.eqb_refl].
Qed.

Lemma index_Some (x : string) (l : list string) :
  forall i, Py.index x l = Some i ->
            nth_error l i = Some x /\ (i < length l)%nat.
Proof.
  induction l as [|y t IH]; simpl; intros i H; [discriminate|].
  destruct (String.eqb x y) eqn:E.
  - injection H as <-. apply String.eqb_eq in E. subst y.
    split; [reflexivity | lia].
  - destruct (Py.index x t) as [j|]; [|discriminate].
    injection H as <-. destruct (IH j eq_refl) as [H1 H2].
    split; [exact H1 | lia].
Qed.

Lemma index_In (x : string) (l : list string) :
  In x l -> exists i, Py.index x l = Some i.
Proof.
  induction l as [|y t IH]; simpl; intros H; [contradiction|].
  destruct (String.eqb x y) eqn:E; [eexists; reflexivity|].
  destruct H as [H|H].
  - subst y. rewrite String.eqb_refl in E. discriminate.
  - destruct (IH H) as [i ->]. eexists. reflexivity.
Qed.

Lemma index_snoc_new (x : string) (l : list string) :
  ~ In x l -> Py.index x (l ++ [x]) = Some (length l).
Proof.
  induction l as [|y t IH]; simpl; intros H.
  - rewrite String.eqb_refl. reflexivity.
  - destruct (String.eqb x y) eqn:E.
    + apply String.eqb_eq in E. subst y. exfalso. apply H. left. reflexivity.
    + rewrite IH by tauto. reflexivity.
Qed.

Lemma setitem_Some {A : Type} (l : list A) (v : A) :
  forall i l',
    Py.setitem l i v = Some l' ->
    length l' = length l /\ nth_error l' i = Some v /\
    forall j, j <> i -> nth_error l' j = nth_error l j.
Proof.
  induction l as [|x t IH]; intros [|i] l' H; simpl in H; try discriminate.
  - injection H as <-. repeat split. intros [|j] Hj; [congruence | reflexivity].
  - destruct (Py.setitem t i v) as [t'|] eqn:E; [|discriminate].
    injection H as <-. destruct (IH i t' E) as [H1 [H2 H3]].
    repeat split; simpl; [congruence | exact H2 |].
    intros [|j] Hj; [reflexivity|]. apply H3. congruence.
Qed.

Lemma setitem_in_range {A : Type} (l : list A) (v : A) :
  forall i, (i < length l)%nat -> exists l', Py.setitem l i v = Some l'.
Proof.
  induction l as [|x t IH]; intros [|i] H; simpl in *; try lia.
  - eexists. reflexivity.
  - destruct (IH i) as [t' ->]; [lia|]. eexists. reflexivity.
Qed.

Lemma pop_Some {A : Type} (l : list A) :
  forall i l', Py.pop l i = Some l' -> length l = S (length l').
Proof.
  induction l as [|x t IH]; intros [|i] l' H; simpl in H; try discriminate.
  - injection H as <-. reflexivity.
  - destruct (Py.pop t i) as [t'|] eqn:E; [|discriminate].
    injection H as <-. simpl. f_equal. apply (IH i t' E).
Qed.

Lemma pop_in_range {A : Type} (l : list A) :
  forall i, (i < length l)%nat -> exists l', Py.pop l i = Some l'.
Proof.
  induction l as [|x t IH]; intros [|i] H; simpl in *; try lia.
  - eexists. reflexivity.
  - destruct (IH i) as [t' ->]; [lia|]. eexists. reflexivity.
Qed.

Lemma save_keeps_mem (st : State) (o : io) :
  mem (snd (save_student_database st o)) = mem st.
Proof. destruct o; reflexivity. Qed.

Lemma save_result_mem (st st' : State) (o : io) (b : bool) :
  save_student_database st o = (b, st') -> mem st' = mem st.
Proof.
  intros H. rewrite <- (save_keeps_mem st o), H. reflexivity.
Qed.

(** *** The commit *)

Lemma commit_update (st st' : State) (sid nm : string) (avg : vec) (o : io) :
  In sid (known_student_ids (mem st)) ->
  commit st sid nm avg o = (true, st') ->
  exists idx encodings names,
    Py.index sid (known_student_ids (mem st)) = Some idx /\
    Py.setitem (known_face_encodings (mem st)) idx avg = Some encodings /\
    Py.setitem (known_face_names (mem st)) idx nm = Some names /\
    mem st' = mkStore encodings names (known_student_ids (mem st)).
Proof.
  intros Hin. unfold commit.
  apply mem_In in Hin. rewrite Hin.
  destruct (Py.index sid (known_student_ids (mem st))) as [idx|];
    [|discriminate].
  destruct (Py.setitem (known_face_encodings (mem st)) idx avg)
    as [encodings|] eqn:He; [|discriminate].
  destruct (Py.setitem (known_face_names (mem st)) idx nm) as [names|] eqn:Hn;
    [|discriminate].
  intros H. exists idx, encodings, names.
  split; [reflexivity|]. split; [exact He|]. split; [exact Hn|].
  apply save_result_mem in H. exact H.
Qed.

Lemma commit_append (st st' : State) (sid nm : string) (avg : vec) (o : io) :
  ~ In sid (known_student_ids (mem st)) ->
  commit st sid nm avg o = (true, st') ->
  mem st' = mkStore (known_face_encodings (mem st) ++ [avg])
                    (known_face_names (mem st) ++ [nm])
                    (known_student_ids (mem st) ++ [sid]).
Proof.
  intros Hin. unfold commit.
  destruct (Py.mem sid (known_student_ids (mem st))) eqn:E;
    [apply mem_In in E; contradiction|].
  intros H. apply save_result_mem in H. exact H.
Qed.

Section Enrollment.

Context {collab : Collaborators}.

(** C2: when fewer than two sample images yield an embedding,
    [register_student] returns failure and leaves the state as it was: the
    three lists (and the two files) are those of before the call. *)
Theorem too_few_embeddings_refused (st : State) (student_id name : string)
    (face_images : list string) (o : io) :
  (length (collect_embeddings face_images []) < 2)%nat ->
  register_student st student_id name face_images o = (false, st).
Proof.
  intros H. unfold register_student.
  destruct (negb (ValidationUtils.validate_student_id student_id));
    [reflexivity|].
  destruct (ValidationUtils.is_empty name); [reflexivity|].
  destruct (length face_images <? 2)%nat; [reflexivity|].
  apply Nat.ltb_lt in H. rewrite H. reflexivity.
Qed.

(** A successful registration went through the mean of at least two
    embeddings and through the commit. *)
Lemma register_success (st st' : State) (student_id name : string)
    (face_images : list string) (o : io) :
  register_student st student_id name face_images o = (true, st') ->
  exists m,
    (2 <= length (collect_embeddings face_images []))%nat /\
    np_mean (collect_embeddings face_images []) = Some m /\
    commit st (Py.upper (Py.strip student_id)) (Py.strip name)
           (normalize_vector m) o = (true, st').
Proof.
  unfold register_student.
  destruct (negb (ValidationUtils.validate_student_id student_id));
    [discriminate|].
  destruct (ValidationUtils.is_empty name); [discriminate|].
  destruct (length face_images <? 2)%nat; [discriminate|].
  destruct (length (collect_embeddings face_images []) <? 2)%nat eqn:L;
    [discriminate|].
  apply Nat.ltb_ge in L.
  destruct (np_mean (collect_embeddings face_images [])) as [m|];
    [|discriminate].
  intros H. exists m. repeat split; assumption.
Qed.

(** C3, amended: after a successful enrollment on an aligned store, with
    the accepted sample embeddings e1..en (n >= 2), the embedding held for
    the student id is the normalization of the component-wise mean of
    e1..en; it has unit norm whenever that mean is not of norm zero (a mean
    of norm zero is stored as it is); for two samples e1, e2 it is
    normalize((e1 + e2) / 2). *)
Theorem stored_embedding_is_normalized_mean (st st' : State)
    (student_id name : string) (face_images : list string) (o : io) :
  aligned (mem st) ->
  register_student st student_id name face_images o = (true, st') ->
  let es := collect_embeddings face_images [] in
  exists m,
    (2 <= length es)%nat /\
    Forall (fun e => length e = length m) es /\
    (forall j, nth j m 0 = mean (map (fun e => nth j e 0) es)) /\
    stored_embedding (mem st') (Py.upper (Py.strip student_id))
    = Some (normalize_vector m) /\
    (norm m <> 0 -> norm (normalize_vector m) = 1) /\
    (forall e1 e2, es = [e1; e2] ->
                   m = zip_with (fun a b => (a + b) / 2) e1 e2).
Proof.
  intros [Hn Hi] H es.
  destruct (register_success _ _ _ _ _ _ H) as [m [Hlen [Hm Hc]]].
  fold es in Hlen, Hm.
  destruct (np_mean_components es m Hm) as [_ [Hall Hcomp]].
  exists m. split; [exact Hlen|]. split; [exact Hall|].
  split; [exact Hcomp|]. split; [|split].
  - unfold stored_embedding.
    destruct (in_dec string_dec (Py.upper (Py.strip student_id))
                     (known_student_ids (mem st))) as [Hin|Hin].
    + destruct (commit_update _ _ _ _ _ _ Hin Hc)
        as [idx [encodings [names [Hidx [He [_ Hmem]]]]]].
      rewrite Hmem. cbn [known_student_ids known_face_encodings].
      rewrite Hidx. cbn [bind].
      apply (setitem_Some _ _ _ _ He).
    + rewrite (commit_append _ _ _ _ _ _ Hin Hc).
      cbn [known_student_ids known_face_encodings].
      rewrite index_snoc_new by exact Hin. cbn [bind].
      rewrite Hi, nth_error_app2, Nat.sub_diag by lia. reflexivity.
  - apply normalize_unit.
  - intros e1 e2 E. rewrite E in Hm, Hall.
    assert (L : length e1 = length e2).
    { inversion Hall as [|? ? H1 Hall']; subst.
      inversion Hall' as [|? ? H2 _]; subst. congruence. }
    rewrite (np_mean_pair e1 e2 L) in Hm. congruence.
Qed.

(** C4: on a store that holds each student id at most once, a successful
    enrollment of an id that is already registered (after trim and
    uppercase) overwrites the name and the embedding at the position of
    that id: the ids and the three lengths are unchanged, the other
    positions are untouched, and the id is held exactly once; a successful
    enrollment of an id that is not registered appends one entry to each
    of the three lists. *)
Theorem reenrollment_updates_in_place (st st' : State)
    (student_id name : string) (face_images : list string) (o : io) :
  NoDup (known_student_ids (mem st)) ->
  register_student st student_id name face_images o = (true, st') ->
  let sid := Py.upper (Py.strip student_id) in
  let s := mem st in
  let s' := mem st' in
  exists avg,
    (In sid (known_student_ids s) ->
     known_student_ids s' = known_student_ids s /\
     length (known_face_names s') = length (known_face_names s) /\
     length (known_face_encodings s')
     = length (known_face_encodings s) /\
     count_occ string_dec (known_student_ids s') sid = 1%nat /\
     exists idx,
       Py.index sid (known_student_ids s) = Some idx /\
       nth_error (known_face_names s') idx = Some (Py.strip name) /\
       nth_error (known_face_encodings s') idx = Some avg /\
       forall j, j <> idx ->
         nth_error (known_face_names s') j = nth_error (known_face_names s) j /\
         nth_error (known_face_encodings s') j
         = nth_error (known_face_encodings s) j) /\
    (~ In sid (known_student_ids s) ->
     known_student_ids s' = known_student_ids s ++ [sid] /\
     known_face_names s' = known_face_names s ++ [Py.strip name] /\
     known_face_encodings s' = known_face_encodings s ++ [avg]).
Proof.
  intros Hnd H sid s s'.
  destruct (register_success _ _ _ _ _ _ H) as [m [_ [_ Hc]]].
  fold sid in Hc. exists (normalize_vector m). split.
  - intros Hin.
    destruct (commit_update _ _ _ _ _ _ Hin Hc)
      as [idx [encodings [names [Hidx [He [Hnm Hmem]]]]]].
    unfold s'. rewrite Hmem.
    cbn [known_student_ids known_face_names known_face_encodings].
    destruct (setitem_Some _ _ _ _ He) as [E1 [E2 E3]].
    destruct (setitem_Some _ _ _ _ Hnm) as [N1 [N2 N3]].
    split; [reflexivity|]. split; [exact N1|]. split; [exact E1|].
    split.
    + apply NoDup_count_occ'; assumption.
    + exists idx. split; [exact Hidx|]. split; [exact N2|].
      split; [exact E2|]. intros j Hj. split; [apply N3 | apply E3]; exact Hj.
  - intros Hin. unfold s'. rewrite (commit_append _ _ _ _ _ _ Hin Hc).
    repeat split.
Qed.

(** *** The invariant of the store *)

Lemma save_consistent (st : State) (o : io) :
  consistent st -> consistent (snd (save_student_database st o)).
Proof.
  intros [Hm Hf]. destruct o; cbn [save_student_database snd];
    split; cbn [mem encodings_file snapshot_aligned]; try assumption;
    try exact I; destruct (mem st); exact Hm.
Qed.

Lemma with_mem_consistent (st : State) (s : Store) :
  consistent st -> aligned s -> consistent (with_mem st s).
Proof.
  intros [_ Hf] Hs. split; [exact Hs | exact Hf].
Qed.

Lemma commit_consistent (st : State) (sid nm : string) (avg : vec) (o : io) :
  consistent st -> consistent (snd (commit st sid nm avg o)).
Proof.
  intros Hc. pose proof Hc as [[Hn Hi] _]. unfold commit.
  destruct (Py.mem sid (known_student_ids (mem st))).
  - destruct (Py.index sid (known_student_ids (mem st))) as [idx|];
      [|exact Hc].
    destruct (Py.setitem (known_face_encodings (mem st)) idx avg)
      as [encodings|] eqn:He; [|exact Hc].
    destruct (setitem_Some _ _ _ _ He) as [Le _].
    destruct (Py.setitem (known_face_names (mem st)) idx nm)
      as [names|] eqn:Hnm.
    + destruct (setitem_Some _ _ _ _ Hnm) as [Ln _].
      apply save_consistent, with_mem_consistent; [exact Hc|].
      split; simpl; congruence.
    + apply with_mem_consistent; [exact Hc|]. split; simpl; congruence.
  - apply save_consistent, with_mem_consistent; [exact Hc|].
    split; simpl; rewrite !length_app; simpl; congruence.
Qed.

Lemma register_consistent (st : State) (student_id name : string)
    (face_images : list string) (o : io) :
  consistent st ->
  consistent (snd (register_student st student_id name face_images o)).
Proof.
  intros Hc. unfold register_student.
  destruct (negb (ValidationUtils.validate_student_id student_id));
    [exact Hc|].
  destruct (ValidationUtils.is_empty name); [exact Hc|].
  destruct (length face_images <? 2)%nat; [exact Hc|].
  destruct (length (collect_embeddings face_images []) <? 2)%nat;
    [exact Hc|].
  destruct (np_mean (collect_embeddings face_images [])); [|exact Hc].
  apply commit_consistent, Hc.
Qed.

Lemma delete_consistent (st : State) (student_id : string) (o : io) :
  consistent st -> consistent (snd (delete_student st student_id o)).
Proof.
  intros Hc. pose proof Hc as [[Hn Hi] _]. unfold delete_student.
  destruct (Py.mem _ _); [|exact Hc].
  destruct (Py.index _ _) as [idx|] eqn:Hidx; [|exact Hc].
  apply index_Some in Hidx. destruct Hidx as [_ Hlt].
  destruct (pop_in_range (known_student_ids (mem st)) idx Hlt) as [ids Eids].
  destruct (pop_in_range (known_face_names (mem st)) idx) as [names Enames];
    [lia|].
  destruct (pop_in_range (known_face_encodings (mem st)) idx)
    as [encodings Eenc]; [lia|].
  rewrite Eids, Enames, Eenc.
  apply pop_Some in Eids, Enames, Eenc.
  apply save_consistent, with_mem_consistent; [exact Hc|].
  split; simpl; lia.
Qed.

(** C5: every public operation (load, save, register, delete, list) that
    starts in a state whose three lists have one length, in memory and in
    the snapshot it may read back, ends in such a state, also when the
    operation fails or the file system fails during the save. *)
Theorem operations_keep_lists_aligned (st : State) (op : operation) :
  consistent st -> consistent (run st op).
Proof.
  intros Hc. destruct op as [|o|sid nm imgs o|sid o|]; cbn [run].
  - unfold load_student_database. pose proof Hc as [_ Hf].
    destruct (encodings_file st) as [| |data] eqn:E; try exact Hc.
    split; [exact Hf|]. cbn [encodings_file snd]. exact Hf.
  - apply save_consistent, Hc.
  - apply register_consistent, Hc.
  - apply delete_consistent, Hc.
  - exact Hc.
Qed.

End Enrollment.

Lemma too_few_embeddings_refused_witness :
  register_student (collab := Sample.studio) initial "MIT2025001" "Alice"
                   ["aa"; "a"; "a"]%string AllWritten
  = (false, initial).
Proof.
  apply (too_few_embeddings_refused (collab := Sample.studio)).
  cbn [collect_embeddings].
  rewrite studio_sample_embedding by (simpl; lia).
  rewrite studio_sample_undecoded by (simpl; lia).
  simpl. lia.
Defined.

(** Every state reached from the initial one is consistent. *)
Lemma reachable_consistent {collab : Collaborators} (ops : list operation) :
  consistent (fold_left run ops initial).
Proof.
  assert (G : forall st, consistent st -> consistent (fold_left run ops st)).
  { induction ops as [|op ops IH]; intros st Hc; cbn [fold_left].
    - exact Hc.
    - apply IH. destruct op as [|o|sid nm imgs o|sid o|]; cbn [run].
      + unfold load_student_database. pose proof Hc as [_ Hf].
        destruct (encodings_file st) as [| |data] eqn:E; try exact Hc.
        split; [exact Hf|]. cbn [encodings_file snd]. exact Hf.
      + apply save_consistent, Hc.
      + apply register_consistent, Hc.
      + apply delete_consistent, Hc.
      + exact Hc. }
  apply G. split; [split; reflexivity | exact I].
Qed.

(** *** Enrollments with the sample collaborators *)

(** Two sample images that decode: the registration is the commit of the
    normalized mean of their two embeddings. *)
Lemma studio_register (st : State) (student_id name a b : string) (o : io) :
  ValidationUtils.validate_student_id student_id = true ->
  ValidationUtils.is_empty name = false ->
  (2 <= String.length a)%nat ->
  (2 <= String.length b)%nat ->
  register_student (collab := Sample.studio) st student_id name [a; b] o
  = commit st (Py.upper (Py.strip student_id)) (Py.strip name)
           (normalize_vector
              [((if Nat.even (String.length a) then 1 else -1)
                + (if Nat.even (String.length b) then 1 else -1)) / 2])
           o.
Proof.
  intros Hv Hn Ha Hb. unfold register_student.
  rewrite Hv, Hn. cbn [negb length Nat.ltb Nat.leb collect_embeddings].
  rewrite !studio_sample_embedding by assumption.
  cbn [app length Nat.ltb Nat.leb].
  rewrite np_mean_pair by reflexivity. reflexivity.
Qed.

Lemma norm_zero_mean : norm [(1 + -1) / 2] = 0.
Proof.
  rewrite norm_singleton. replace ((1 + -1) / 2) with 0 by lra.
  apply Rabs_R0.
Qed.

(** Alice enrolled from two images whose embeddings are opposite: the mean
    is the zero vector, and it is stored as it is. *)
Lemma studio_register_opposite :
  register_student (collab := Sample.studio) initial "mit2025001 " "Alice"
                   ["aa"; "aaa"]%string AllWritten
  = (true, Sample.alice_cancelled).
Proof.
  rewrite studio_register by (try reflexivity; simpl; lia).
  cbn [String.length Nat.even].
  unfold normalize_vector. rewrite norm_zero_mean, eqb_true by reflexivity.
  reflexivity.
Qed.

(** C3 as stated fails on the unit norm: two opposite sample embeddings
    enroll successfully, and the embedding then held for the student has
    norm 0. *)
Lemma stored_embedding_not_unit :
  exists st' v,
    register_student (collab := Sample.studio) initial "mit2025001 " "Alice"
                     ["aa"; "aaa"]%string AllWritten = (true, st') /\
    collect_embeddings (collab := Sample.studio) ["aa"; "aaa"]%string []
    = [[1]; [-1]] /\
    stored_embedding (mem st') "MIT2025001" = Some v /\
    norm v <> 1.
Proof.
  eexists. exists [(1 + -1) / 2]. split; [apply studio_register_opposite|].
  split; [|split].
  - cbn [collect_embeddings].
    rewrite !studio_sample_embedding by (simpl; lia). reflexivity.
  - reflexivity.
  - rewrite norm_zero_mean. lra.
Qed.

(** Alice enrolled again, under her id in lower case, from two images whose
    embeddings agree. *)
Lemma studio_register_again :
  register_student (collab := Sample.studio) Sample.alice_enrolled
                   " mit2025001" "Alice B. " ["aa"; "aaaa"]%string AllWritten
  = (true, Sample.alice_again).
Proof.
  rewrite studio_register by (try reflexivity; simpl; lia).
  reflexivity.
Qed.

Lemma stored_embedding_is_normalized_mean_witness :
  exists m,
    stored_embedding (mem Sample.alice_again) "MIT2025001"
    = Some (normalize_vector m) /\
    (norm m <> 0 -> norm (normalize_vector m) = 1).
Proof.
  destruct (stored_embedding_is_normalized_mean
              (collab := Sample.studio) Sample.alice_enrolled
              Sample.alice_again
              " mit2025001" "Alice B. " ["aa"; "aaaa"]%string AllWritten)
    as [m [_ [_ [_ [Hs [Hu _]]]]]].
  - split; reflexivity.
  - apply studio_register_again.
  - exists m. split; [exact Hs | exact Hu].
Defined.

Lemma reenrollment_updates_in_place_witness :
  known_student_ids (mem Sample.alice_again)
  = known_student_ids (mem Sample.alice_enrolled) /\
  count_occ string_dec (known_student_ids (mem Sample.alice_again))
            "MIT2025001"%string = 1%nat.
Proof.
  destruct (reenrollment_updates_in_place
              (collab := Sample.studio) Sample.alice_enrolled
              Sample.alice_again
              " mit2025001" "Alice B. " ["aa"; "aaaa"]%string AllWritten)
    as [avg [Hup _]].
  - repeat constructor. intros [].
  - apply studio_register_again.
  - destruct Hup as [H1 [_ [_ [H2 _]]]]; [left; reflexivity|].
    split; [exact H1 | exact H2].
Defined.

Lemma operations_keep_lists_aligned_witness :
  consistent
    (run (collab := Sample.studio) Sample.alice_enrolled
         (DoDelete "mit2025001" PickleDumpFails)).
Proof.
  apply (operations_keep_lists_aligned (collab := Sample.studio)).
  split; [split; reflexivity | exact I].
Defined.

(** *** Student ids stay unique *)

Lemma pop_In {A : Type} (l : list A) :
  forall i l' x, Py.pop l i = Some l' -> In x l' -> In x l.
Proof.
  induction l as [|y t IH]; intros [|i] l' x H Hx; simpl in H;
    try discriminate.
  - injection H as <-. right. exact Hx.
  - destruct (Py.pop t i) as [t'|] eqn:E; [|discriminate].
    injection H as <-. destruct Hx as [Hx|Hx]; [left; exact Hx|].
    right. apply (IH i t' x E Hx).
Qed.

Lemma pop_NoDup {A : Type} (l : list A) :
  forall i l', NoDup l -> Py.pop l i = Some l' -> NoDup l'.
Proof.
  induction l as [|y t IH]; intros [|i] l' Hnd H; simpl in H;
    try discriminate; inversion Hnd as [|? ? Hy Ht]; subst.
  - injection H as <-. exact Ht.
  - destruct (Py.pop t i) as [t'|] eqn:E; [|discriminate].
    injection H as <-. constructor.
    + intros Hin. apply Hy. apply (pop_In t i t' y E Hin).
    + apply (IH i t' Ht E).
Qed.

Lemma save_unique (st : State) (o : io) :
  unique_ids st -> unique_ids (snd (save_student_database st o)).
Proof.
  intros [Hm Hf]. destruct o; cbn [save_student_database snd];
    split; cbn [mem encodings_file encodings_data p_student_ids
                get_or_empty]; try assumption; exact I.
Qed.

Lemma with_mem_unique (st : State) (s : Store) :
  unique_ids st -> NoDup (known_student_ids s) -> unique_ids (with_mem st s).
Proof.
  intros [_ Hf] Hs. split; [exact Hs | exact Hf].
Qed.

Lemma commit_unique (st : State) (sid nm : string) (avg : vec) (o : io) :
  unique_ids st -> unique_ids (snd (commit st sid nm avg o)).
Proof.
  intros Hu. pose proof Hu as [Hnd _]. unfold commit.
  destruct (Py.mem sid (known_student_ids (mem st))) eqn:Em.
  - destruct (Py.index sid (known_student_ids (mem st))); [|exact Hu].
    destruct (Py.setitem (known_face_encodings (mem st)) _ avg);
      [|exact Hu].
    destruct (Py.setitem (known_face_names (mem st)) _ nm).
    + apply save_unique, with_mem_unique; [exact Hu | exact Hnd].
    + apply with_mem_unique; [exact Hu | exact Hnd].
  - apply save_unique, with_mem_unique; [exact Hu|].
    cbn [known_student_ids]. apply NoDup_app; [exact Hnd | | ].
    + constructor; [intros [] | constructor].
    + intros x Hx [<-|[]].
      apply mem_In in Hx. congruence.
Qed.

(** Every state reached from the initial one holds each student id at
    most once: the hypothesis of the theorem on re-enrollment is an
    invariant of the store. *)
Lemma reachable_unique {collab : Collaborators} (ops : list operation) :
  unique_ids (fold_left run ops initial).
Proof.
  assert (G : forall st, unique_ids st -> unique_ids (fold_left run ops st)).
  { induction ops as [|op ops IH]; intros st Hu; cbn [fold_left];
      [exact Hu|].
    apply IH. pose proof Hu as [Hnd Hf].
    destruct op as [|o|sid nm imgs o|sid o|]; cbn [run].
    - unfold load_student_database.
      destruct (encodings_file st) as [| |data] eqn:E; try exact Hu.
      split; cbn [snd mem known_student_ids encodings_file];
        exact Hf.
    - apply save_unique, Hu.
    - unfold register_student.
      destruct (negb (ValidationUtils.validate_student_id sid)); [exact Hu|].
      destruct (ValidationUtils.is_empty nm); [exact Hu|].
      destruct (length imgs <? 2)%nat; [exact Hu|].
      destruct (length (collect_embeddings imgs []) <? 2)%nat; [exact Hu|].
      destruct (np_mean (collect_embeddings imgs [])); [|exact Hu].
      apply commit_unique, Hu.
    - unfold delete_student.
      destruct (Py.mem _ _); [|exact Hu].
      destruct (Py.index _ _) as [idx|]; [|exact Hu].
      destruct (Py.pop (known_student_ids (mem st)) idx) as [ids|] eqn:Ei;
        [|exact Hu].
      pose proof (pop_NoDup _ _ _ Hnd Ei) as Hids.
      destruct (Py.pop (known_face_names (mem st)) idx);
        [|apply with_mem_unique; [exact Hu | exact Hids]].
      destruct (Py.pop (known_face_encodings (mem st)) idx);
        [|apply with_mem_unique; [exact Hu | exact Hids]].
      apply save_unique, with_mem_unique; [exact Hu | exact Hids].
    - exact Hu. }
  apply G. split; [constructor | exact I].
Qed.

End EnrollmentProps.

(** ** More on the vector primitives *)

Module VectorProps.

Import MathUtils MathProps.

Lemma dot_comm (a b : vec) : dot a b = dot b a.
Proof.
  revert b. induction a as [|x a IH]; intros [|y b]; simpl; try reflexivity.
  rewrite IH. ring.
Qed.

Lemma dot_opp (a b : vec) : dot (map Ropp a) b = - dot a b.
Proof.
  revert b. induction a as [|x a IH]; intros [|y b]; simpl; try lra.
  rewrite IH. ring.
Qed.

Lemma sumsq_opp (a : vec) : sumsq (map Ropp a) = sumsq a.
Proof.
  induction a as [|x a IH]; simpl; [reflexivity | rewrite IH; ring].
Qed.

Lemma norm_opp (a : vec) : norm (map Ropp a) = norm a.
Proof. unfold norm. rewrite sumsq_opp. reflexivity. Qed.

(** X1: The cosine similarity does not depend on the order of its arguments,
    errors included; it fails exactly when the two vectors differ in
    length; and negating one vector negates the similarity. *)
Theorem cosine_similarity_facts (a b : vec) :
  calculate_cosine_similarity a b = calculate_cosine_similarity b a /\
  (calculate_cosine_similarity a b = None <-> length a <> length b) /\
  calculate_cosine_similarity (map Ropp a) b
  = option_map Ropp (calculate_cosine_similarity a b).
Proof.
  split; [|split].
  - unfold calculate_cosine_similarity, np_dot.
    rewrite (Nat.eqb_sym (length b) (length a)), (dot_comm b a),
      (Rmult_comm (norm b) (norm a)).
    reflexivity.
  - unfold calculate_cosine_similarity, np_dot.
    destruct (length a =? length b)%nat eqn:E; cbn [bind].
    + apply Nat.eqb_eq in E. split; [|intros H; contradiction].
      destruct (Py.eqb (norm a * norm b) 0); discriminate.
    + apply Nat.eqb_neq in E. split; [intros _; exact E | reflexivity].
  - unfold calculate_cosine_similarity, np_dot.
    rewrite length_map, norm_opp, dot_opp.
    destruct (length a =? length b)%nat; cbn [bind option_map];
      [|reflexivity].
    unfold Py.eqb.
    destruct (Req_dec_T (norm a * norm b) 0) as [E|N];
      cbn [option_map]; f_equal; [lra|].
    unfold Rdiv. ring.
Qed.

Lemma sumsq_sub_comm (a b : vec) :
  sumsq (zip_with Rminus a b) = sumsq (zip_with Rminus b a).
Proof.
  revert b. induction a as [|x a IH]; intros [|y b]; simpl; try reflexivity.
  rewrite IH. ring.
Qed.

Lemma sumsq_broadcast (x : R) (b : vec) :
  sumsq (map (fun y => x - y) b) = sumsq (map (fun y => y - x) b).
Proof.
  induction b as [|y b IH]; simpl; [reflexivity | rewrite IH; ring].
Qed.

Lemma sumsq_zero (v : vec) : sumsq v = 0 -> Forall (fun x => x = 0) v.
Proof.
  induction v as [|x v IH]; simpl; intros H; constructor.
  - pose proof (sumsq_nonneg v). nra.
  - apply IH. pose proof (sumsq_nonneg v).
    pose proof (Rle_0_sqr x) as S. unfold Rsqr in S. lra.
Qed.

Lemma zip_sub_zero (a b : vec) :
  length a = length b ->
  Forall (fun x => x = 0) (zip_with Rminus a b) -> a = b.
Proof.
  revert b. induction a as [|x a IH]; intros [|y b] L H; simpl in *;
    try discriminate; [reflexivity|].
  inversion H as [|? ? H0 Ht]; subst. f_equal; [lra|].
  apply IH; [congruence | exact Ht].
Qed.

Lemma zip_sub_self (a : vec) : sumsq (zip_with Rminus a a) = 0.
Proof.
  induction a as [|x a IH]; simpl; [reflexivity | rewrite IH; ring].
Qed.

(** X2: The Euclidean distance does not depend on the order of its arguments,
    broadcasting and shape errors included; it is never negative; a vector
    is at distance 0 from itself; and two vectors of one length at distance
    0 are equal. *)
Theorem euclidean_distance_facts (a b : vec) :
  calculate_euclidean_distance a b = calculate_euclidean_distance b a /\
  (forall d, calculate_euclidean_distance a b = Some d -> 0 <= d) /\
  calculate_euclidean_distance a a = Some 0 /\
  (length a = length b ->
   calculate_euclidean_distance a b = Some 0 -> a = b).
Proof.
  split; [|split; [|split]].
  - unfold calculate_euclidean_distance, np_sub.
    rewrite (Nat.eqb_sym (length b) (length a)).
    destruct (length a =? length b)%nat eqn:E; cbn [bind].
    + unfold norm. rewrite sumsq_sub_comm. reflexivity.
    + apply Nat.eqb_neq in E.
      destruct a as [|x [|x' a]]; destruct b as [|y [|y' b]];
        cbn [bind]; try reflexivity; try (simpl in E; congruence);
        unfold norm; f_equal; f_equal;
        first [ apply sumsq_broadcast
              | symmetry; apply sumsq_broadcast ].
  - intros d. apply distance_nonneg.
  - unfold calculate_euclidean_distance.
    rewrite np_sub_same_length by reflexivity. cbn [bind].
    unfold norm. rewrite zip_sub_self, sqrt_0. reflexivity.
  - intros L H. unfold calculate_euclidean_distance in H.
    rewrite (np_sub_same_length a b L) in H. cbn [bind] in H.
    injection H as H. unfold norm in H.
    apply sqrt_eq_0 in H; [|apply sumsq_nonneg].
    apply zip_sub_zero; [exact L | apply sumsq_zero, H].
Qed.

Lemma euclidean_distance_facts_witness :
  calculate_euclidean_distance [3; 4] [3; 4] = Some 0 /\ [3; 4] = [3; 4].
Proof.
  split.
  - apply (euclidean_distance_facts [3; 4] [3; 4]).
  - apply (euclidean_distance_facts [3; 4] [3; 4]); [reflexivity|].
    apply (euclidean_distance_facts [3; 4] [3; 4]).
Defined.

(** X3: Normalizing keeps the dimension, and normalizing twice is normalizing
    once. *)
Theorem normalize_vector_idempotent (v : vec) :
  length (normalize_vector v) = length v /\
  normalize_vector (normalize_vector v) = normalize_vector v.
Proof.
  split.
  - unfold normalize_vector. destruct (Py.eqb (norm v) 0); [reflexivity|].
    apply length_map.
  - destruct (Req_dec_T (norm v) 0) as [Z|N].
    + unfold normalize_vector at 2. rewrite eqb_true by exact Z.
      unfold normalize_vector. rewrite eqb_true by exact Z. reflexivity.
    + pose proof (EnrollmentProps.normalize_unit v N) as U.
      unfold normalize_vector at 1. rewrite U, eqb_false by lra.
      rewrite <- (map_id (normalize_vector v)) at 2.
      apply map_ext. intros x. field.
Qed.

End VectorProps.

(** ** More on the identity store *)

Module StoreProps.

Import MathUtils MathProps FaceProcessor IdentityStore EnrollmentProps.

Lemma save_outcome (st : State) (o : io) :
  fst (save_student_database st o) = pickle_written o /\
  mem (snd (save_student_database st o)) = mem st /\
  (pickle_written o = true ->
   encodings_file (snd (save_student_database st o))
   = Holds (encodings_data (mem st))).
Proof.
  destruct o; repeat split; try reflexivity; discriminate.
Qed.

(** X4: Saving and loading back: once a save has returned [True], a later
    load returns [True] and restores the three lists that were saved,
    whatever happened to the lists in memory in between. *)
Theorem save_then_load (st st1 : State) (o : io) (s : Store) :
  save_student_database st o = (true, st1) ->
  exists st2,
    load_student_database (with_mem st1 s) = (true, st2) /\
    mem st2 = mem st.
Proof.
  intros H. destruct (save_outcome st o) as [Hf [_ He]].
  rewrite H in Hf, He. cbn [fst snd] in Hf, He.
  specialize (He (eq_sym Hf)).
  unfold load_student_database. cbn [with_mem encodings_file].
  rewrite He. eexists. split; [reflexivity|].
  cbn [mem encodings_data p_encodings p_names p_student_ids get_or_empty].
  destruct (mem st); reflexivity.
Qed.

Lemma save_then_load_witness :
  exists st2,
    load_student_database
      (with_mem (Sample.saved Sample.one_student) Sample.opposite_student)
    = (true, st2) /\
    mem st2 = mem Sample.alice_enrolled.
Proof.
  apply (save_then_load Sample.alice_enrolled
                        (Sample.saved Sample.one_student) AllWritten).
  reflexivity.
Defined.

(** A load changes the lists in memory only when it reads a snapshot: with
    no file it returns [True], with an unreadable file [False], and both
    leave the state as it is.  A save that fails while the pickle is dumped
    leaves such an unreadable file, whatever the file held before. *)
Theorem load_without_snapshot (st : State) :
  (encodings_file st = Absent -> load_student_database st = (true, st)) /\
  (encodings_file st = Unreadable ->
   load_student_database st = (false, st)) /\
  load_student_database (snd (save_student_database st PickleDumpFails))
  = (false, snd (save_student_database st PickleDumpFails)) /\
  mem (snd (save_student_database st PickleDumpFails)) = mem st.
Proof.
  unfold load_student_database. repeat split.
  - intros ->. reflexivity.
  - intros ->. reflexivity.
Qed.

Lemma load_without_snapshot_witness :
  load_student_database initial = (true, initial).
Proof.
  apply (load_without_snapshot initial). reflexivity.
Defined.

(** *** The listing *)

Lemma combine_aligned {A B : Type} (l : list A) (l' : list B) :
  length l = length l' ->
  map fst (combine l l') = l /\ map snd (combine l l') = l'.
Proof.
  revert l'. induction l as [|x l IH]; intros [|y l'] H; simpl in *;
    try discriminate; [split; reflexivity|].
  destruct (IH l') as [H1 H2]; [congruence|].
  rewrite H1, H2. split; reflexivity.
Qed.

(** X5: On aligned lists the listing has one entry per registered student, in
    the order of the store: its ids are the stored ids and its names the
    stored names, and it is as long as the list of encodings. *)
Theorem listing_of_aligned_store (st : State) :
  aligned (mem st) ->
  map fst (get_registered_students st) = known_student_ids (mem st) /\
  map snd (get_registered_students st) = known_face_names (mem st) /\
  length (get_registered_students st)
  = length (known_face_encodings (mem st)).
Proof.
  intros [Hn Hi]. unfold get_registered_students.
  destruct (combine_aligned (known_student_ids (mem st))
                            (known_face_names (mem st))) as [H1 H2];
    [congruence|].
  split; [exact H1|]. split; [exact H2|].
  rewrite length_combine. lia.
Qed.

Lemma listing_of_aligned_store_witness :
  map fst (get_registered_students Sample.alice_enrolled)
  = ["MIT2025001"%string].
Proof.
  apply (listing_of_aligned_store Sample.alice_enrolled).
  split; reflexivity.
Defined.

(** *** Deleting *)

(** X6: Deleting an id that is not registered returns [False] and leaves the
    state, files included, as it is. *)
Theorem delete_unknown_student (st : State) (student_id : string) (o : io) :
  ~ In (normalized student_id) (known_student_ids (mem st)) ->
  delete_student st student_id o = (false, st).
Proof.
  intros H. unfold delete_student. fold (normalized student_id).
  destruct (Py.mem (normalized student_id) (known_student_ids (mem st)))
    eqn:E; [|reflexivity].
  apply mem_In in E. contradiction.
Qed.

Lemma delete_unknown_student_witness :
  delete_student Sample.alice_enrolled "MIT2025002" AllWritten
  = (false, Sample.alice_enrolled).
Proof.
  apply delete_unknown_student. simpl. intros [H|[]]. discriminate.
Defined.

Lemma pop_lookup {A : Type} (ids : list string) :
  forall (vals : list A) idx ids' vals' x other,
    Py.index x ids = Some idx ->
    other <> x ->
    Py.pop ids idx = Some ids' ->
    Py.pop vals idx = Some vals' ->
    lookup ids' vals' other = lookup ids vals other.
Proof.
  unfold lookup.
  induction ids as [|y t IH]; intros vals idx ids' vals' x other Hi Hne Hp Hv;
    [discriminate|].
  cbn [Py.index] in Hi. destruct (String.eqb x y) eqn:Exy.
  - injection Hi as <-. apply String.eqb_eq in Exy. subst y.
    cbn [Py.pop] in Hp. injection Hp as <-.
    destruct vals as [|v vt]; [discriminate|].
    cbn [Py.pop] in Hv. injection Hv as <-.
    cbn [Py.index]. apply String.eqb_neq in Hne. rewrite Hne.
    destruct (Py.index other t); reflexivity.
  - destruct (Py.index x t) as [i|] eqn:Ei; [|discriminate].
    injection Hi as <-. cbn [Py.pop] in Hp.
    destruct (Py.pop t i) as [t'|] eqn:Et; [|discriminate].
    injection Hp as <-.
    destruct vals as [|v vt]; [discriminate|]. cbn [Py.pop] in Hv.
    destruct (Py.pop vt i) as [vt'|] eqn:Ev; [|discriminate].
    injection Hv as <-. cbn [Py.index].
    destruct (String.eqb other y); [reflexivity|].
    specialize (IH vt i t' vt' x other Ei Hne Et Ev).
    destruct (Py.index other t') as [j'|]; destruct (Py.index other t) as [j|];
      exact IH.
Qed.

Lemma pop_index_gone (ids : list string) :
  forall idx ids' x,
    NoDup ids -> Py.index x ids = Some idx -> Py.pop ids idx = Some ids' ->
    ~ In x ids'.
Proof.
  induction ids as [|y t IH]; intros idx ids' x Hnd Hi Hp; [discriminate|].
  inversion Hnd as [|? ? Hy Ht]; subst.
  cbn [Py.index] in Hi. destruct (String.eqb x y) eqn:Exy.
  - injection Hi as <-. apply String.eqb_eq in Exy. subst y.
    cbn [Py.pop] in Hp. injection Hp as <-. exact Hy.
  - destruct (Py.index x t) as [i|] eqn:Ei; [|discriminate].
    injection Hi as <-. cbn [Py.pop] in Hp.
    destruct (Py.pop t i) as [t'|] eqn:Et; [|discriminate].
    injection Hp as <-. intros [H|H].
    + subst y. rewrite String.eqb_refl in Exy. discriminate.
    + apply (IH i t' x Ht Ei Et H).
Qed.

(** X7: Deleting a registered id on aligned lists removes its record from
    memory whatever the file system does: each list loses one entry, every
    other student keeps name and embedding, and, the ids being unique, the
    id is no longer registered.  The result is [True] exactly when the
    pickle is written, so a failed save reports [False] for a record that
    is already gone from memory. *)
Theorem delete_registered_student (st : State) (student_id : string)
    (o : io) :
  aligned (mem st) ->
  In (normalized student_id) (known_student_ids (mem st)) ->
  exists st',
    delete_student st student_id o = (pickle_written o, st') /\
    S (length (known_student_ids (mem st')))
    = length (known_student_ids (mem st)) /\
    S (length (known_face_names (mem st')))
    = length (known_face_names (mem st)) /\
    S (length (known_face_encodings (mem st')))
    = length (known_face_encodings (mem st)) /\
    (forall other,
       other <> normalized student_id ->
       stored_name (mem st') other = stored_name (mem st) other /\
       stored_embedding (mem st') other = stored_embedding (mem st) other) /\
    (NoDup (known_student_ids (mem st)) ->
     ~ In (normalized student_id) (known_student_ids (mem st'))).
Proof.
  intros [Hn Hi] Hin. unfold delete_student. fold (normalized student_id).
  pose proof Hin as Hm. apply mem_In in Hm. rewrite Hm.
  destruct (index_In _ _ Hin) as [idx Hidx]. rewrite Hidx.
  destruct (index_Some _ _ _ Hidx) as [_ Hlt].
  destruct (pop_in_range (known_student_ids (mem st)) idx Hlt) as [ids Eids].
  destruct (pop_in_range (known_face_names (mem st)) idx) as [names Enames];
    [lia|].
  destruct (pop_in_range (known_face_encodings (mem st)) idx)
    as [encodings Eenc]; [lia|].
  rewrite Eids, Enames, Eenc.
  exists (snd (save_student_database
                 (with_mem st (mkStore encodings names ids)) o)).
  destruct (save_outcome (with_mem st (mkStore encodings names ids)) o)
    as [Hf [Hmem _]].
  split; [rewrite <- Hf; apply surjective_pairing|].
  rewrite Hmem. cbn [with_mem mem known_student_ids known_face_names
                     known_face_encodings].
  split; [symmetry; apply (pop_Some _ _ _ Eids)|].
  split; [symmetry; apply (pop_Some _ _ _ Enames)|].
  split; [symmetry; apply (pop_Some _ _ _ Eenc)|].
  split.
  - intros other Hne. unfold stored_name, stored_embedding.
    cbn [known_student_ids known_face_names known_face_encodings].
    split.
    + apply (pop_lookup _ _ _ _ _ _ _ Hidx Hne Eids Enames).
    + apply (pop_lookup _ _ _ _ _ _ _ Hidx Hne Eids Eenc).
  - intros Hnd. apply (pop_index_gone _ _ _ _ Hnd Hidx Eids).
Qed.

Lemma delete_registered_student_witness :
  exists st',
    delete_student Sample.alice_enrolled " mit2025001 " PickleOpenFails
    = (false, st') /\
    known_student_ids (mem st') = [].
Proof.
  destruct (delete_registered_student Sample.alice_enrolled " mit2025001 "
                                      PickleOpenFails)
    as [st' [H [L _]]].
  - split; reflexivity.
  - left. reflexivity.
  - exists st'. split; [exact H|].
    destruct (known_student_ids (mem st')); [reflexivity | discriminate].
Defined.

(** *** Registering *)

Section Registering.

Context {collab : Collaborators}.

Lemma collect_length (face_images : list string) :
  forall acc,
    (length (collect_embeddings face_images acc)
     <= length acc + length face_images)%nat.
Proof.
  induction face_images as [|img rest IH]; intros acc;
    cbn [collect_embeddings length]; [lia|].
  destruct (sample_embedding img).
  - specialize (IH (acc ++ [v])). rewrite length_app in IH. simpl in IH. lia.
  - specialize (IH acc). lia.
Qed.

Lemma np_mean_ragged (es : list vec) (e1 e2 : vec) :
  In e1 es -> In e2 es -> length e1 <> length e2 -> np_mean es = None.
Proof.
  intros H1 H2 Hne. unfold np_mean. destruct es as [|v rest]; [contradiction|].
  destruct (forallb (fun w => (length w =? length v)%nat) rest) eqn:F;
    [|reflexivity].
  exfalso. rewrite forallb_forall in F.
  assert (G : forall e, In e (v :: rest) -> length e = length v).
  { intros e [<-|He]; [reflexivity | apply Nat.eqb_eq, F, He]. }
  apply Hne. rewrite (G e1 H1), (G e2 H2). reflexivity.
Qed.

Lemma np_mean_uniform (es : list vec) (n : nat) :
  es <> [] -> Forall (fun e => length e = n) es ->
  exists m, np_mean es = Some m.
Proof.
  intros Hne Hall. unfold np_mean. destruct es as [|v rest]; [congruence|].
  inversion Hall as [|? ? Hv Hrest]; subst.
  assert (F : forallb (fun w => (length w =? length v)%nat) rest = true).
  { apply forallb_forall. intros w Hw. apply Nat.eqb_eq.
    rewrite Forall_forall in Hrest. apply Hrest, Hw. }
  rewrite F. eexists. reflexivity.
Qed.

(** X8: An enrollment is refused, and nothing is written in memory or on disk,
    when the id does not validate, when the name is empty, when fewer than
    two images are given, or when two of the collected embeddings have
    different dimensions (the mean raises). *)
Theorem register_refused (st : State) (student_id name : string)
    (face_images : list string) (o : io) :
  ValidationUtils.validate_student_id student_id = false \/
  ValidationUtils.is_empty name = true \/
  (length face_images < 2)%nat \/
  (exists e1 e2,
     In e1 (collect_embeddings face_images []) /\
     In e2 (collect_embeddings face_images []) /\
     length e1 <> length e2) ->
  register_student st student_id name face_images o = (false, st).
Proof.
  intros H. unfold register_student.
  destruct (ValidationUtils.validate_student_id student_id) eqn:Ev;
    cbn [negb]; [|reflexivity].
  destruct (ValidationUtils.is_empty name) eqn:En; [reflexivity|].
  destruct (length face_images <? 2)%nat eqn:El; [reflexivity|].
  apply Nat.ltb_ge in El.
  destruct H as [H|[H|[H|[e1 [e2 [H1 [H2 Hne]]]]]]];
    try discriminate; try lia.
  destruct (length (collect_embeddings face_images []) <? 2)%nat;
    [reflexivity|].
  rewrite (np_mean_ragged _ e1 e2 H1 H2 Hne). reflexivity.
Qed.

(** X9: When the inputs validate and at least two embeddings of one dimension
    are collected, the enrollment is done in memory whatever the file
    system does: afterwards the id gives access to the trimmed name and to
    the normalized mean.  The result is [True] exactly when the pickle is
    written, so a failed save reports [False] for a record that is already
    in memory. *)
Theorem register_outcome (st : State) (student_id name : string)
    (face_images : list string) (o : io) (n : nat) :
  aligned (mem st) ->
  ValidationUtils.validate_student_id student_id = true ->
  ValidationUtils.is_empty name = false ->
  (2 <= length (collect_embeddings face_images []))%nat ->
  Forall (fun e => length e = n) (collect_embeddings face_images []) ->
  exists st' m,
    np_mean (collect_embeddings face_images []) = Some m /\
    register_student st student_id name face_images o
    = (pickle_written o, st') /\
    stored_name (mem st') (normalized student_id) = Some (Py.strip name) /\
    stored_embedding (mem st') (normalized student_id)
    = Some (normalize_vector m).
Proof.
  intros [Hn Hi] Hv Hne Hlen Hall.
  destruct (np_mean_uniform (collect_embeddings face_images []) n)
    as [m Hm];
    [destruct (collect_embeddings face_images []); simpl in Hlen;
     [lia | discriminate] | exact Hall |].
  unfold register_student. rewrite Hv, Hne. cbn [negb].
  pose proof (collect_length face_images []) as Hc. simpl in Hc.
  assert (L1 : (length face_images <? 2)%nat = false)
    by (apply Nat.ltb_ge; lia).
  assert (L2 : (length (collect_embeddings face_images []) <? 2)%nat = false)
    by (apply Nat.ltb_ge; lia).
  rewrite L1, L2, Hm. fold (normalized student_id).
  set (sid := normalized student_id). set (avg := normalize_vector m).
  unfold commit, stored_name, stored_embedding.
  destruct (Py.mem sid (known_student_ids (mem st))) eqn:Em.
  - apply mem_In in Em. destruct (index_In _ _ Em) as [idx Hidx].
    rewrite Hidx. destruct (index_Some _ _ _ Hidx) as [_ Hlt].
    destruct (setitem_in_range (known_face_encodings (mem st)) avg idx)
      as [encodings He]; [lia|].
    destruct (setitem_in_range (known_face_names (mem st)) (Py.strip name) idx)
      as [names Hnm]; [lia|].
    rewrite He, Hnm.
    set (st1 := with_mem st (mkStore encodings names
                                     (known_student_ids (mem st)))).
    exists (snd (save_student_database st1 o)), m.
    destruct (save_outcome st1 o) as [Hf [Hmem _]].
    split; [reflexivity|].
    split; [rewrite <- Hf; apply surjective_pairing|].
    rewrite Hmem. cbn [st1 with_mem mem known_student_ids known_face_names
                       known_face_encodings].
    rewrite Hidx. cbn [bind].
    split; [apply (setitem_Some _ _ _ _ Hnm) | apply (setitem_Some _ _ _ _ He)].
  - assert (Hnot : ~ In sid (known_student_ids (mem st))).
    { intros Hin. apply mem_In in Hin. congruence. }
    set (st1 := with_mem st
                  (mkStore (known_face_encodings (mem st) ++ [avg])
                           (known_face_names (mem st) ++ [Py.strip name])
                           (known_student_ids (mem st) ++ [sid]))).
    exists (snd (save_student_database st1 o)), m.
    destruct (save_outcome st1 o) as [Hf [Hmem _]].
    split; [reflexivity|].
    split; [rewrite <- Hf; apply surjective_pairing|].
    rewrite Hmem. cbn [st1 with_mem mem known_student_ids known_face_names
                       known_face_encodings].
    rewrite (index_snoc_new _ _ Hnot). cbn [bind].
    split.
    + replace (length (known_student_ids (mem st)))
        with (length (known_face_names (mem st))) by lia.
      rewrite nth_error_app2, Nat.sub_diag by lia. reflexivity.
    + rewrite Hi, nth_error_app2, Nat.sub_diag by lia. reflexivity.
Qed.

End Registering.

Lemma uneven_sample_embedding (img_data : string) :
  (2 <= String.length img_data)%nat ->
  sample_embedding (collab := Sample.uneven_studio) img_data
  = Some (repeat 1 (String.length img_data)).
Proof.
  intros H. unfold sample_embedding, validate_image_data.
  assert (E : ValidationUtils.is_empty img_data = false)
    by (destruct img_data; [simpl in H; lia | reflexivity]).
  rewrite E. cbn [decode_base64_to_image Sample.uneven_studio].
  assert (L : (String.length img_data <? 2)%nat = false)
    by (apply Nat.ltb_ge; exact H).
  rewrite L. cbn [negb].
  unfold detect_faces, filter_detections.
  cbn [detector Sample.uneven_studio fold_left].
  unfold detect_step. cbn [det_confidence det_box det_keypoints].
  rewrite gtb_true by lra. reflexivity.
Qed.

Lemma register_refused_witness :
  register_student (collab := Sample.uneven_studio) initial "MIT2025001"
                   "Alice" ["aa"; "aaa"]%string AllWritten
  = (false, initial).
Proof.
  apply (register_refused (collab := Sample.uneven_studio)).
  right. right. right. exists [1; 1], [1; 1; 1].
  cbn [collect_embeddings].
  rewrite !uneven_sample_embedding by (simpl; lia).
  cbn [collect_embeddings app String.length repeat].
  split; [left; reflexivity|]. split; [right; left; reflexivity|].
  simpl. lia.
Defined.

Lemma studio_collect_two (a b : string) :
  (2 <= String.length a)%nat ->
  (2 <= String.length b)%nat ->
  collect_embeddings (collab := Sample.studio) [a; b] []
  = [[if Nat.even (String.length a) then 1 else -1];
     [if Nat.even (String.length b) then 1 else -1]].
Proof.
  intros Ha Hb. cbn [collect_embeddings].
  rewrite !studio_sample_embedding by assumption. reflexivity.
Qed.

Lemma register_outcome_witness :
  exists st' m,
    np_mean (collect_embeddings (collab := Sample.studio)
                                ["aa"; "aaaa"]%string [])
    = Some m /\
    register_student (collab := Sample.studio) Sample.alice_enrolled
                     " mit2025001" "Alice B. " ["aa"; "aaaa"]%string
                     PickleOpenFails
    = (false, st') /\
    stored_name (mem st') "MIT2025001" = Some "Alice B."%string /\
    stored_embedding (mem st') "MIT2025001" = Some (normalize_vector m).
Proof.
  apply (register_outcome (collab := Sample.studio) Sample.alice_enrolled
                          " mit2025001" "Alice B. " ["aa"; "aaaa"]%string
                          PickleOpenFails 1%nat).
  - split; reflexivity.
  - reflexivity.
  - reflexivity.
  - rewrite studio_collect_two by (simpl; lia). simpl. lia.
  - rewrite studio_collect_two by (simpl; lia).
    repeat constructor.
Defined.

(** *** Registering, then listing or deleting *)

Lemma pop_snoc {A : Type} (l : list A) (x : A) :
  Py.pop (l ++ [x]) (length l) = Some l.
Proof.
  induction l as [|y l IH]; simpl; [reflexivity | rewrite IH; reflexivity].
Qed.

Section RoundTrip.

Context {collab : Collaborators}.

(** X10: Enrolling a student whose id is not registered and then deleting that
    id gives back the three lists of before the enrollment, whatever the
    file system does during the second save. *)
Theorem register_then_delete (st st1 : State) (student_id name : string)
    (face_images : list string) (o o' : io) :
  aligned (mem st) ->
  ~ In (normalized student_id) (known_student_ids (mem st)) ->
  register_student st student_id name face_images o = (true, st1) ->
  exists st2,
    delete_student st1 student_id o' = (pickle_written o', st2) /\
    mem st2 = mem st.
Proof.
  intros [Hn Hi] Hnot H.
  destruct (register_success _ _ _ _ _ _ H) as [m [_ [_ Hc]]].
  pose proof (commit_append _ _ _ _ _ _ Hnot Hc) as Hmem.
  unfold delete_student. fold (normalized student_id). rewrite Hmem.
  cbn [known_student_ids known_face_names known_face_encodings].
  assert (Em : Py.mem (normalized student_id)
                      (known_student_ids (mem st) ++ [normalized student_id])
               = true)
    by (apply mem_In, in_or_app; right; left; reflexivity).
  rewrite Em, (index_snoc_new _ _ Hnot), pop_snoc.
  replace (length (known_student_ids (mem st)))
    with (length (known_face_names (mem st))) by lia.
  rewrite pop_snoc.
  replace (length (known_face_names (mem st)))
    with (length (known_face_encodings (mem st))) by lia.
  rewrite pop_snoc.
  set (st' := with_mem st1 _).
  exists (snd (save_student_database st' o')).
  destruct (save_outcome st' o') as [Hf [Hm _]].
  split; [rewrite <- Hf; apply surjective_pairing|].
  rewrite Hm. unfold st'. cbn [with_mem mem]. destruct (mem st); reflexivity.
Qed.

Lemma in_combine_nth {A B : Type} (l : list A) (l' : list B) (a : A) (b : B) :
  In (a, b) (combine l l') <->
  exists i, nth_error l i = Some a /\ nth_error l' i = Some b.
Proof.
  revert l'. induction l as [|x l IH]; intros [|y l']; simpl.
  - split; [contradiction | intros [[|i] [H _]]; discriminate].
  - split; [contradiction | intros [[|i] [H _]]; discriminate].
  - split; [contradiction | intros [[|i] [_ H]]; discriminate].
  - split.
    + intros [H|H].
      * injection H as <- <-. exists 0%nat. split; reflexivity.
      * apply IH in H. destruct H as [i [H1 H2]].
        exists (S i). split; assumption.
    + intros [[|i] [H1 H2]]; simpl in H1, H2.
      * left. congruence.
      * right. apply IH. exists i. split; assumption.
Qed.

(** X11: After a successful enrollment on aligned lists with unique ids, the
    listing shows the student under the normalized id with the trimmed
    name, and under that id with no other name. *)
Theorem registered_student_is_listed (st st' : State)
    (student_id name : string) (face_images : list string) (o : io) :
  aligned (mem st) ->
  NoDup (known_student_ids (mem st)) ->
  register_student st student_id name face_images o = (true, st') ->
  In (normalized student_id, Py.strip name) (get_registered_students st') /\
  forall nm,
    In (normalized student_id, nm) (get_registered_students st') ->
    nm = Py.strip name.
Proof.
  intros [Hn Hi] Hnd H.
  destruct (register_success _ _ _ _ _ _ H) as [m [_ [_ Hc]]].
  fold (normalized student_id) in Hc.
  unfold get_registered_students.
  assert (G : exists idx,
             nth_error (known_student_ids (mem st')) idx
             = Some (normalized student_id) /\
             nth_error (known_face_names (mem st')) idx
             = Some (Py.strip name) /\
             NoDup (known_student_ids (mem st'))).
  { destruct (in_dec string_dec (normalized student_id)
                     (known_student_ids (mem st))) as [Hin|Hnot].
    - destruct (commit_update _ _ _ _ _ _ Hin Hc)
        as [idx [encodings [names [Hidx [_ [Hnm Hmem]]]]]].
      exists idx. rewrite Hmem. cbn [known_student_ids known_face_names].
      split; [apply (index_Some _ _ _ Hidx)|].
      split; [apply (setitem_Some _ _ _ _ Hnm) | exact Hnd].
    - rewrite (commit_append _ _ _ _ _ _ Hnot Hc).
      cbn [known_student_ids known_face_names].
      exists (length (known_student_ids (mem st))).
      split; [rewrite nth_error_app2, Nat.sub_diag by lia; reflexivity|].
      split.
      + replace (length (known_student_ids (mem st)))
          with (length (known_face_names (mem st))) by lia.
        rewrite nth_error_app2, Nat.sub_diag by lia. reflexivity.
      + apply NoDup_app; [exact Hnd | constructor; [intros []|constructor] |].
        intros x Hx [<-|[]]. contradiction. }
  destruct G as [idx [G1 [G2 G3]]]. split.
  - apply in_combine_nth. exists idx. split; assumption.
  - intros nm Hin. apply in_combine_nth in Hin.
    destruct Hin as [i [I1 I2]].
    assert (i = idx).
    { apply (proj1 (NoDup_nth_error _) G3).
      - apply nth_error_Some. rewrite I1. discriminate.
      - congruence. }
    subst i. congruence.
Qed.

End RoundTrip.

Lemma register_then_delete_witness :
  exists st2,
    delete_student Sample.alice_cancelled "mit2025001 " PickleDumpFails
    = (false, st2) /\
    mem st2 = mem initial.
Proof.
  apply (register_then_delete (collab := Sample.studio) initial
           Sample.alice_cancelled "mit2025001 " "Alice"
           ["aa"; "aaa"]%string AllWritten PickleDumpFails).
  - split; reflexivity.
  - intros [].
  - apply studio_register_opposite.
Defined.

Lemma registered_student_is_listed_witness :
  In ("MIT2025001"%string, "Alice B."%string)
     (get_registered_students Sample.alice_again).
Proof.
  apply (registered_student_is_listed (collab := Sample.studio)
           Sample.alice_enrolled Sample.alice_again
           " mit2025001" "Alice B. " ["aa"; "aaaa"]%string AllWritten).
  - split; reflexivity.
  - repeat constructor. intros [].
  - apply studio_register_again.
Defined.

End StoreProps.

(** ** More on the matcher *)

Module MatcherExtras.

Import MathUtils MathProps FaceProcessor EmbeddingMatcher IdentityStore.
Import MatcherProps VectorProps.

Lemma measure_all_mismatch (q : vec) (known : list vec) :
  Exists (fun e => length e <> length q) known ->
  forall ds ss, measure_all q known ds ss = None.
Proof.
  induction 1 as [e known He|e known Hk IH]; intros ds ss; simpl.
  - assert (E : calculate_cosine_similarity q e = None).
    { unfold calculate_cosine_similarity, np_dot.
      assert (N : (length q =? length e)%nat = false)
        by (apply Nat.eqb_neq; congruence).
      rewrite N. reflexivity. }
    rewrite E. destruct (calculate_euclidean_distance q e); reflexivity.
  - destruct (calculate_euclidean_distance q e); [|reflexivity].
    destruct (calculate_cosine_similarity q e); [|reflexivity].
    cbn [bind]. apply IH.
Qed.

(** X12: A query whose dimension differs from that of one registered embedding
    is answered with (None, 1.0): the shape error is caught, and no other
    record is looked at. *)
Theorem dimension_mismatch_rejected (s : Store) (q : vec) (threshold : R) :
  Exists (fun e => length e <> length q) (known_face_encodings s) ->
  recognize_face s q threshold = (None, 1).
Proof.
  intros H. unfold recognize_face, recognize_try.
  rewrite (measure_all_mismatch q _ H).
  destruct (length (known_face_encodings s) =? 0)%nat; reflexivity.
Qed.

Lemma dimension_mismatch_rejected_witness :
  recognize_face Sample.one_student [1; 0] 0.6 = (None, 1).
Proof.
  apply dimension_mismatch_rejected.
  constructor. simpl. lia.
Defined.

Lemma student_info_fields (s : Store) (ds ss : list R) (i : nat) (c : R)
    (info : StudentInfo) (d : R) :
  student_info_at s ds ss i c = Some (Some info, d) ->
  nth_error (known_student_ids s) i = Some (student_id info) /\
  nth_error (known_face_names s) i = Some (name info) /\
  nth_error ss i = Some (similarity_score info) /\
  nth_error ds i = Some (distance_score info) /\
  d = distance_score info.
Proof.
  unfold student_info_at.
  destruct (nth_error (known_student_ids s) i); cbn [bind]; [|discriminate].
  destruct (nth_error (known_face_names s) i); cbn [bind]; [|discriminate].
  destruct (nth_error ss i); cbn [bind]; [|discriminate].
  destruct (nth_error ds i); cbn [bind]; [|discriminate].
  intros H. injection H as <- <-. repeat split.
Qed.

(** X14: An accepted match names a registered student: the id and the name of
    the result stand at one position of the store, and the distance returned
    beside the result is the distance of the result and is not negative. *)
Theorem accepted_match_is_registered (s : Store) (q : vec) (threshold : R)
    (info : StudentInfo) (d : R) :
  recognize_face s q threshold = (Some info, d) ->
  (exists i,
     nth_error (known_student_ids s) i = Some (student_id info) /\
     nth_error (known_face_names s) i = Some (name info)) /\
  d = distance_score info /\
  0 <= d.
Proof.
  unfold recognize_face.
  destruct (length (known_face_encodings s) =? 0)%nat; [discriminate|].
  destruct (recognize_try s q threshold) as [r|] eqn:E; [|discriminate].
  intros ->. unfold recognize_try in E.
  destruct (measure_all q (known_face_encodings s) [] []) as [[ds ss]|] eqn:Em;
    cbn [bind] in E; [|discriminate].
  pose proof (measure_all_bounds _ _ _ _ _ _ Em (Forall_nil _)) as Hd.
  rewrite Forall_forall in Hd.
  destruct (Py.argmin ds) as [imin|]; cbn [bind] in E; [|discriminate].
  destruct (Py.argmax ss) as [imax|]; cbn [bind] in E; [|discriminate].
  destruct (nth_error ds imin) as [dmin|]; cbn [bind] in E; [|discriminate].
  destruct (nth_error ss imax) as [smax|]; cbn [bind] in E; [|discriminate].
  assert (G : forall i c,
             student_info_at s ds ss i c = Some (Some info, d) ->
             (exists i,
                nth_error (known_student_ids s) i = Some (student_id info) /\
                nth_error (known_face_names s) i = Some (name info)) /\
             d = distance_score info /\ 0 <= d).
  { intros i c H. apply student_info_fields in H.
    destruct H as [H1 [H2 [H3 [H4 H5]]]].
    apply nth_error_In in H4.
    split; [exists i; split; assumption|].
    split; [exact H5|]. rewrite H5. apply Hd, H4. }
  destruct (Py.gtb smax (1 - threshold)); [apply (G _ _ E)|].
  destruct (Py.ltb dmin threshold); [apply (G _ _ E) | discriminate].
Qed.

Lemma accepted_match_is_registered_witness :
  0 = distance_score (mkInfo "MIT2025001" "Alice" 1 1 0).
Proof.
  apply (accepted_match_is_registered Sample.one_student [1] 0.6).
  apply recognize_same.
Defined.

Lemma euclidean_self (q : vec) : euclidean q q = 0.
Proof.
  rewrite euclidean_norm. unfold norm. rewrite zip_sub_self. apply sqrt_0.
Qed.

Lemma euclidean_nonneg (q e : vec) : 0 <= euclidean q e.
Proof. unfold euclidean. apply sqrt_pos. Qed.

(** X15: A query equal to a registered embedding is accepted for every
    threshold in (0, 1], with a confidence above 0 (on aligned lists whose
    embeddings have the dimension of the query): either on a similarity
    above 1 - threshold, which is then the confidence, or on the distance
    0, with the confidence 1. *)
Theorem exact_match_accepted (s : Store) (q : vec) (threshold : R) :
  aligned s ->
  dimension (length q) s ->
  In q (known_face_encodings s) ->
  0 < threshold <= 1 ->
  exists info d,
    recognize_face s q threshold = (Some info, d) /\
    0 < confidence info /\
    (1 - threshold < confidence info \/ d = 0 /\ confidence info = 1).
Proof.
  intros [Hn Hi] Hdim Hin [Ht0 Ht1].
  unfold recognize_face, recognize_try.
  rewrite (measure_all_same_length q _ Hdim). cbn [bind app].
  destruct (known_face_encodings s) as [|e0 rest] eqn:Ee; [contradiction|].
  cbn [length Nat.eqb map].
  set (ds := euclidean q e0 :: map (euclidean q) rest).
  set (ss := cosine q e0 :: map (cosine q) rest).
  set (smax := maximum (cosine q e0) (map (cosine q) rest)).
  assert (Imax : In smax ss) by apply maximum_in.
  assert (Emax : Py.argmax ss = Some (first_index_of smax ss))
    by apply argmax_first.
  set (dmin := minimum (euclidean q e0) (map (euclidean q) rest)).
  assert (Emin : Py.argmin ds = Some (first_index_of dmin ds))
    by apply argmin_first.
  assert (Imin : In dmin ds) by apply minimum_in.
  assert (Hd0 : dmin = 0).
  { apply Rle_antisym.
    - rewrite <- (euclidean_self q). apply minimum_lower.
      change (euclidean q e0 :: map (euclidean q) rest)
        with (map (euclidean q) (e0 :: rest)).
      apply in_map, Hin.
    - change ds with (map (euclidean q) (e0 :: rest)) in Imin.
      apply in_map_iff in Imin. destruct Imin as [e [<- _]].
      apply euclidean_nonneg. }
  rewrite Emin, Emax. cbn [bind].
  assert (Ld : length ds = S (length rest))
    by (unfold ds; simpl; rewrite length_map; reflexivity).
  assert (Ls : length ss = S (length rest))
    by (unfold ss; simpl; rewrite length_map; reflexivity).
  rewrite (first_index_nth _ _ Imin).
  cbn [bind]. rewrite (first_index_nth _ _ Imax). cbn [bind].
  simpl in Hn, Hi.
  destruct (Rle_or_lt smax (1 - threshold)) as [Hle|Hgt].
  - rewrite gtb_false by exact Hle. rewrite ltb_true by lra.
    set (i := first_index_of dmin ds).
    assert (Li : (i < S (length rest))%nat)
      by (unfold i; rewrite <- Ld; apply first_index_bound, Imin).
    unfold student_info_at.
    destruct (nth_error (known_student_ids s) i) as [a|] eqn:Ea;
      [|apply nth_error_None in Ea; lia].
    destruct (nth_error (known_face_names s) i) as [b|] eqn:Eb;
      [|apply nth_error_None in Eb; lia].
    destruct (nth_error ss i) as [x|] eqn:Ex;
      [|apply nth_error_None in Ex; lia].
    unfold i. rewrite (first_index_nth _ _ Imin).
    cbn [bind]. eexists. eexists. split; [reflexivity|].
    cbn [confidence]. rewrite Hd0. unfold Rdiv. rewrite Rmult_0_l.
    split; [lra|]. right. split; lra.
  - rewrite gtb_true by lra.
    set (i := first_index_of smax ss).
    assert (Li : (i < S (length rest))%nat)
      by (unfold i; rewrite <- Ls; apply first_index_bound, Imax).
    unfold student_info_at.
    destruct (nth_error (known_student_ids s) i) as [a|] eqn:Ea;
      [|apply nth_error_None in Ea; lia].
    destruct (nth_error (known_face_names s) i) as [b|] eqn:Eb;
      [|apply nth_error_None in Eb; lia].
    destruct (nth_error ss i) as [x|] eqn:Ex;
      [|apply nth_error_None in Ex; lia].
    destruct (nth_error ds i) as [y|] eqn:Ey;
      [|apply nth_error_None in Ey; lia].
    cbn [bind]. eexists. eexists. split; [reflexivity|].
    cbn [confidence]. split; [lra|]. left. lra.
Qed.

Lemma exact_match_accepted_witness :
  exists info d,
    recognize_face Sample.one_student [1] 0.6 = (Some info, d) /\
    0 < confidence info /\
    (1 - 0.6 < confidence info \/ d = 0 /\ confidence info = 1).
Proof.
  apply exact_match_accepted.
  - split; reflexivity.
  - repeat constructor.
  - left. reflexivity.
  - lra.
Defined.

Lemma recognize_single (v : vec) (sid nm : string) (threshold : R) :
  0 < threshold <= 1 ->
  exists c x,
    recognize_face (mkStore [v] [nm] [sid]) v threshold
    = (Some (mkInfo sid nm c x 0), 0) /\
    0 < c /\ (c = x \/ c = 1).
Proof.
  intros [Ht0 Ht1]. unfold recognize_face, recognize_try.
  cbn [known_face_encodings length Nat.eqb measure_all].
  rewrite distance_same_length, similarity_same_length by reflexivity.
  cbn [bind app measure_all Py.argmin Py.argmax Py.arg_from nth_error].
  rewrite euclidean_self.
  destruct (Rle_or_lt (cosine v v) (1 - threshold)) as [Hle|Hgt].
  - rewrite gtb_false by exact Hle. rewrite ltb_true by lra.
    exists (1 - 0 / threshold), (cosine v v). split; [reflexivity|].
    unfold Rdiv. rewrite Rmult_0_l. split; [lra | right; lra].
  - rewrite gtb_true by lra.
    exists (cosine v v), (cosine v v). split; [reflexivity|].
    split; [lra | left; reflexivity].
Qed.

Section EndToEnd.

Context {collab : Collaborators}.

(** X16: End to end: after a successful enrollment into an empty store, a query
    equal to the stored embedding is recognised for every threshold in
    (0, 1] as the enrolled student, under the normalized id and the trimmed
    name, with the distance 0 and a confidence above 0: the confidence is
    the similarity of the embedding with itself when that exceeds
    1 - threshold, and 1 otherwise. *)
Theorem enroll_then_recognize (st st' : State) (student_id name : string)
    (face_images : list string) (o : io) :
  mem st = mkStore [] [] [] ->
  register_student st student_id name face_images o = (true, st') ->
  exists v,
    stored_embedding (mem st') (normalized student_id) = Some v /\
    forall threshold,
      0 < threshold <= 1 ->
      exists c x,
        recognize_face (mem st') v threshold
        = (Some (mkInfo (normalized student_id) (Py.strip name) c x 0), 0) /\
        0 < c /\ (c = x \/ c = 1).
Proof.
  intros Hempty H.
  destruct (EnrollmentProps.register_success _ _ _ _ _ _ H)
    as [m [_ [_ Hc]]].
  fold (normalized student_id) in Hc.
  assert (Hnot : ~ In (normalized student_id) (known_student_ids (mem st)))
    by (rewrite Hempty; intros []).
  pose proof (EnrollmentProps.commit_append _ _ _ _ _ _ Hnot Hc) as Hmem.
  rewrite Hempty in Hmem. cbn [known_face_encodings known_face_names
                               known_student_ids app] in Hmem.
  exists (normalize_vector m). rewrite Hmem. split.
  - unfold stored_embedding. cbn [known_student_ids Py.index].
    rewrite String.eqb_refl. reflexivity.
  - intros threshold Ht. apply recognize_single; assumption.
Qed.

End EndToEnd.

Lemma enroll_then_recognize_witness :
  exists v,
    stored_embedding (mem Sample.alice_first) "MIT2025001" = Some v /\
    exists c x,
      recognize_face (mem Sample.alice_first) v 0.6
      = (Some (mkInfo "MIT2025001" "Alice" c x 0), 0) /\
      0 < c /\ (c = x \/ c = 1).
Proof.
  destruct (enroll_then_recognize (collab := Sample.studio) initial
              Sample.alice_first "MIT2025001" "Alice"
              ["aa"; "aaaa"]%string AllWritten)
    as [v [Hv Hr]].
  - reflexivity.
  - rewrite EnrollmentProps.studio_register by (try reflexivity; simpl; lia).
    reflexivity.
  - exists v. split; [exact Hv|]. apply Hr. lra.
Defined.

End MatcherExtras.

(** ** More on detection and on the recognition of one image *)

Module PipelineExtras.

Import MathUtils MathProps FaceProcessor DetectionFilter RecognitionResult.
Import DetectionProps RecognitionProps.

Lemma max_from_head {A : Type} (key : A -> R) (best : A) (l : list A) :
  Forall (fun x => key x <= key best) l -> Py.max_from key best l = best.
Proof.
  induction 1 as [|x l Hx Hl IH]; simpl; [reflexivity|].
  rewrite gtb_false by exact Hx. exact IH.
Qed.

Section Detection.

Context {collab : Collaborators}.

Lemma detect_faces_kept (image : Image) (f : Face FaceImg Landmarks) :
  In f (detect_faces image) ->
  exists d, survives image d /\ f = candidate image d.
Proof.
  unfold detect_faces. destruct (detector image) as [ds|]; [|contradiction].
  unfold filter_detections. rewrite detect_loop_spec. cbn [app].
  intros H. apply (Permutation_in _ (sort_desc_perm rank _)) in H.
  apply in_map_iff in H. destruct H as [d [E Hd]].
  apply filter_In in Hd. destruct Hd as [_ Hs].
  exists d. split; [apply survivesb_spec, Hs | congruence].
Qed.

(** X17: Every face returned by [detect_faces] was detected with a confidence
    above 0.95 and has a box that lies inside the image and is wider and
    higher than 60 pixels; its size is that of its box, its crop is the
    region of its box, and its quality is the score of that crop. *)
Theorem detected_faces_in_bounds (image : Image)
    (f : Face FaceImg Landmarks) :
  In f (detect_faces image) ->
  exists x y w h,
    box f = (x, y, w, h) /\
    size f = (w, h) /\
    face f = crop image x y w h /\
    quality f = _calculate_face_quality (face f) /\
    face_confidence f > 0.95 /\
    (0 <= x /\ 0 <= y /\ 60 < w /\ 60 < h /\
     x + w <= snd (shape image) /\ y + h <= fst (shape image))%Z.
Proof.
  intros H. destruct (detect_faces_kept image f H) as [d [[Hc [Hw Hh]] ->]].
  unfold candidate, clamped, clamp in *.
  destruct (det_box d) as [[[x y] w] h].
  destruct (shape image) as [height width].
  cbn [fst snd box_width box_height] in *.
  eexists _, _, _, _. cbn [box size face quality face_confidence].
  repeat split; try reflexivity; try assumption; lia.
Qed.

(** X18: The list returned by [detect_faces] is in descending order of rank, so
    the best face that [register_student] selects with [max] is the first
    face of the list. *)
Theorem best_face_is_first (image : Image) :
  Py.max_by (fun x => quality x * face_confidence x) (detect_faces image)
  = hd_error (detect_faces image).
Proof.
  assert (S : StronglySorted (fun a b => rank a >= rank b)
                             (detect_faces image)).
  { unfold detect_faces. destruct (detector image); [|constructor].
    apply sort_desc_sorted. }
  destruct (detect_faces image) as [|f rest]; [reflexivity|].
  cbn [Py.max_by hd_error]. f_equal. apply max_from_head.
  inversion S as [|? ? _ Hf]; subst.
  eapply Forall_impl; [|exact Hf]. intros x Hx. cbv beta in Hx.
  unfold rank in Hx. lra.
Qed.

End Detection.

Lemma detected_faces_in_bounds_witness :
  exists x y w h,
    (10, 10, 120, 120)%Z = (x, y, w, h) /\
    (0 <= x /\ 0 <= y /\ 60 < w /\ 60 < h /\
     x + w <= 640 /\ y + h <= 480)%Z.
Proof.
  destruct (detected_faces_in_bounds (collab := Sample.studio) 2%nat
              (mkFace 2%nat (10, 10, 120, 120)%Z 0.99
                      (_calculate_face_quality (collab := Sample.studio)
                                               2%nat)
                      None (120, 120)%Z))
    as [x [y [w [h [Hb [_ [_ [_ [_ Hz]]]]]]]]].
  - rewrite EnrollmentProps.studio_detect_faces. left. reflexivity.
  - exists x, y, w, h. split; [exact Hb | exact Hz].
Defined.

Lemma list_remove_sub (x : RecognizedStudent) (l : list RecognizedStudent) :
  forall rest,
    list_remove x l = Some rest ->
    length l = S (length rest) /\ (forall r, In r rest -> In r l).
Proof.
  induction l as [|y t IH]; simpl; intros rest H; [discriminate|].
  destruct (recognized_eq_dec y x).
  - injection H as <-. split; [reflexivity | intros r Hr; right; exact Hr].
  - destruct (list_remove x t) as [rest'|]; [|discriminate].
    injection H as <-. destruct (IH rest' eq_refl) as [H1 H2].
    split; [simpl; congruence|].
    intros r [Hr|Hr]; [left; exact Hr | right; apply H2, Hr].
Qed.

Section Image.

Context {collab : Collaborators}.

Lemma offer_sub (rs rs' : list RecognizedStudent) (info : StudentInfo)
    (f : Face FaceImg Landmarks) :
  offer rs info f = Some rs' ->
  (length rs' <= S (length rs))%nat /\
  forall r, In r rs' -> In r rs \/ r = entry_of (info, f).
Proof.
  unfold offer. fold (entry_of (info, f)).
  change (mkRecognized info (box f) (quality f) (size f))
    with (entry_of (info, f)).
  destruct (find (same_student (student_id info)) rs) as [ex|].
  - destruct (Py.gtb _ _).
    + destruct (list_remove ex rs) as [rest|] eqn:E; cbn [bind];
        [|discriminate].
      intros H. injection H as <-.
      destruct (list_remove_sub _ _ _ E) as [L S].
      split; [rewrite length_app; simpl; lia|].
      intros r Hr. apply in_app_or in Hr.
      destruct Hr as [Hr|[<-|[]]]; [left; apply S, Hr | right; reflexivity].
    + intros H. injection H as <-. split; [lia | intros r Hr; left; exact Hr].
  - intros H. injection H as <-.
    split; [rewrite length_app; simpl; lia|].
    intros r Hr. apply in_app_or in Hr.
    destruct Hr as [Hr|[<-|[]]]; [left; exact Hr | right; reflexivity].
Qed.

Lemma process_loop_accounting (s : Store) (threshold : R)
    (faces : list (Face FaceImg Landmarks)) :
  forall rs n rs' n',
    process_loop s threshold (rs, n) faces = Some (rs', n') ->
    n' = (n + length (filter (unknown s threshold) faces))%nat /\
    (length rs' <= length rs + length (matched s threshold faces))%nat /\
    forall r, In r rs' ->
              In r rs \/ In r (map entry_of (matched s threshold faces)).
Proof.
  induction faces as [|f faces IH]; intros rs n rs' n' H.
  - cbn [process_loop] in H. injection H as <- <-.
    cbn [filter matched map length]. split; [lia|].
    split; [lia | intros r Hr; left; exact Hr].
  - cbn [process_loop filter matched] in H |- *.
    unfold process_step, match_of, unknown in *.
    destruct (get_face_embedding (face f)) as [e|]; cbn [bind] in H.
    + destruct (fst (recognize_face s e threshold)) as [info|].
      * destruct (offer rs info f) as [rs1|] eqn:Eo; cbn [bind] in H;
          [|discriminate].
        destruct (offer_sub _ _ _ _ Eo) as [L1 S1].
        destruct (IH _ _ _ _ H) as [H1 [H2 H3]].
        split; [exact H1|]. cbn [length map].
        split; [lia|]. intros r Hr.
        destruct (H3 r Hr) as [Hr1|Hr1]; [|right; right; exact Hr1].
        destruct (S1 r Hr1) as [Hr2 | ->]; [left; exact Hr2|].
        right. left. reflexivity.
      * destruct (IH _ _ _ _ H) as [H1 [H2 H3]]. cbn [length].
        split; [lia|]. split; assumption.
    + apply (IH _ _ _ _ H).
Qed.

Lemma matched_unknown_embedded (s : Store) (threshold : R)
    (faces : list (Face FaceImg Landmarks)) :
  (length (matched s threshold faces)
   + length (filter (unknown s threshold) faces)
   = length (filter embedded faces))%nat.
Proof.
  induction faces as [|f faces IH]; [reflexivity|].
  cbn [matched filter]. unfold match_of, unknown, embedded in *.
  destruct (get_face_embedding (face f)) as [e|]; [|exact IH].
  destruct (fst (recognize_face s e threshold)); cbn [length]; lia.
Qed.

Lemma process_image_faces (s : Store) (image_data : string) (threshold : R)
    (rs : list RecognizedStudent) (fd un : nat) :
  process_image s image_data threshold = Processed rs fd un ->
  exists image0 image,
    decode_base64_to_image image_data = Some image0 /\
    resize_image image0 = Some image /\
    fd = length (detect_faces image) /\
    process_loop s threshold ([], 0%nat) (detect_faces image)
    = Some (rs, un).
Proof.
  unfold process_image.
  destruct (negb (validate_image_data image_data)); [discriminate|].
  destruct (decode_base64_to_image image_data) as [image0|]; [|discriminate].
  destruct (resize_image image0) as [image|] eqn:Er; cbn [bind];
    [|discriminate].
  destruct (process_loop s threshold ([], 0%nat) (detect_faces image))
    as [[rs' un']|] eqn:El; cbn [bind fst snd]; [|discriminate].
  intros H. injection H as <- <- <-.
  exists image0, image. repeat split; assumption.
Qed.

(** X19: The counts of a processed image: [faces_detected] is the number of
    faces that [detect_faces] returns for the resized image,
    [unregistered_faces] the number of those whose embedding matches
    nobody, and the recognised students plus the unregistered faces are at
    most the faces detected.  Every recognised student comes from a
    detected face that matched, and carries the box, the quality and the
    size of that face. *)
Theorem process_image_accounting (s : Store) (image_data : string)
    (threshold : R) (rs : list RecognizedStudent) (fd un : nat) :
  process_image s image_data threshold = Processed rs fd un ->
  (length rs + un <= fd)%nat /\
  exists image0 image,
    decode_base64_to_image image_data = Some image0 /\
    resize_image image0 = Some image /\
    fd = length (detect_faces image) /\
    un = length (filter (unknown s threshold) (detect_faces image)) /\
    forall r,
      In r rs ->
      In r (map entry_of (matched s threshold (detect_faces image))).
Proof.
  intros H.
  destruct (process_image_faces _ _ _ _ _ _ H)
    as [image0 [image [Hd [Hr [Hfd Hl]]]]].
  destruct (process_loop_accounting _ _ _ _ _ _ _ Hl) as [H1 [H2 H3]].
  pose proof (matched_unknown_embedded s threshold (detect_faces image)) as M.
  pose proof (filter_length_le embedded (detect_faces image)) as F.
  cbn [length] in H1, H2. split; [lia|].
  exists image0, image. repeat split; try assumption.
  intros r Hin. destruct (H3 r Hin) as [Hn|Hm]; [destruct Hn | exact Hm].
Qed.

Lemma matched_empty_store (s : Store) (threshold : R)
    (faces : list (Face FaceImg Landmarks)) :
  known_face_encodings s = [] -> matched s threshold faces = [].
Proof.
  intros He. induction faces as [|f l IH]; [reflexivity|].
  cbn [matched]. unfold match_of.
  destruct (get_face_embedding (face f)); [|exact IH].
  unfold recognize_face. rewrite He. exact IH.
Qed.

(** X20: With no registered student, a processed image recognises nobody, and
    every detected face whose embedding is extracted counts as
    unregistered. *)
Theorem empty_store_recognizes_nobody (s : Store) (image_data : string)
    (threshold : R) (rs : list RecognizedStudent) (fd un : nat) :
  known_face_encodings s = [] ->
  process_image s image_data threshold = Processed rs fd un ->
  rs = [] /\
  exists image0 image,
    decode_base64_to_image image_data = Some image0 /\
    resize_image image0 = Some image /\
    un = length (filter embedded (detect_faces image)).
Proof.
  intros He H.
  destruct (process_image_faces _ _ _ _ _ _ H)
    as [image0 [image [Hd [Hr [Hfd Hl]]]]].
  destruct (process_loop_accounting _ _ _ _ _ _ _ Hl) as [H1 [H2 _]].
  pose proof (matched_empty_store s threshold (detect_faces image) He) as M.
  pose proof (matched_unknown_embedded s threshold (detect_faces image)) as E.
  rewrite M in H2, E. cbn [length] in H1, H2, E.
  split; [destruct rs; [reflexivity | simpl in H2; lia]|].
  exists image0, image. repeat split; try assumption. lia.
Qed.

(** X21: [process_image] answers 'Invalid image data' exactly when the text is
    empty or does not decode.  The answer 'Failed to decode image' is never
    given: a text that passed the validation has already been decoded
    once. *)
Theorem invalid_image_data (s : Store) (image_data : string)
    (threshold : R) :
  (process_image s image_data threshold
   = Failed (Some "Invalid image data"%string)
   <-> validate_image_data image_data = false) /\
  process_image s image_data threshold
  <> Failed (Some "Failed to decode image"%string).
Proof.
  unfold process_image, validate_image_data.
  destruct (ValidationUtils.is_empty image_data); cbn [negb].
  - split; [split; reflexivity | discriminate].
  - destruct (decode_base64_to_image image_data) as [image0|]; cbn [negb].
    + destruct (resize_image image0) as [image|]; cbn [bind].
      * destruct (process_loop s threshold ([], 0%nat) (detect_faces image));
          cbn [bind]; split; try discriminate; split; discriminate.
      * split; [split; discriminate | discriminate].
    + split; [split; reflexivity | discriminate].
Qed.

End Image.

(** *** One image with the sample collaborators *)

Lemma studio_process_alice :
  process_image (collab := Sample.studio) Sample.one_student "aa" 0.6
  = Processed
      [mkRecognized (mkInfo "MIT2025001" "Alice" 1 1 0)
                    (10, 10, 120, 120)%Z
                    (_calculate_face_quality (collab := Sample.studio) 2%nat)
                    (120, 120)%Z]
      1 0.
Proof.
  unfold process_image, validate_image_data.
  cbn [ValidationUtils.is_empty decode_base64_to_image resize_image
       Sample.studio String.length Nat.ltb Nat.leb negb bind].
  rewrite EnrollmentProps.studio_detect_faces.
  cbn [process_loop length]. unfold process_step, get_face_embedding.
  cbn [face represent Sample.studio Nat.even].
  rewrite MatcherProps.recognize_same. reflexivity.
Qed.

Lemma studio_process_empty :
  process_image (collab := Sample.studio) (mkStore [] [] []) "aa" 0.6
  = Processed [] 1 1.
Proof.
  unfold process_image, validate_image_data.
  cbn [ValidationUtils.is_empty decode_base64_to_image resize_image
       Sample.studio String.length Nat.ltb Nat.leb negb bind].
  rewrite EnrollmentProps.studio_detect_faces. reflexivity.
Qed.

Lemma process_image_accounting_witness : (1 + 0 <= 1)%nat.
Proof.
  apply (process_image_accounting (collab := Sample.studio)
           Sample.one_student "aa" 0.6
           [mkRecognized (mkInfo "MIT2025001" "Alice" 1 1 0)
                         (10, 10, 120, 120)%Z
                         (_calculate_face_quality (collab := Sample.studio)
                                                  2%nat)
                         (120, 120)%Z]).
  apply studio_process_alice.
Defined.

Lemma empty_store_recognizes_nobody_witness :
  @nil RecognizedStudent = [] /\
  exists image0 image : nat,
    decode_base64_to_image (Collaborators := Sample.studio) "aa"
    = Some image0 /\
    resize_image (Collaborators := Sample.studio) image0 = Some image /\
    1%nat = length (filter (embedded (collab := Sample.studio))
                           (detect_faces (collab := Sample.studio) image)).
Proof.
  apply (empty_store_recognizes_nobody (collab := Sample.studio)
           (mkStore [] [] []) "aa" 0.6 [] 1 1).
  - reflexivity.
  - apply studio_process_empty.
Defined.

End PipelineExtras.

(** ** The normalization of student ids *)

Module IdProps.

Import FaceProcessor IdentityStore.

Lemma is_space_upper (c : ascii) :
  Py.is_space (Py.upper_char c) = Py.is_space c.
Proof.
  destruct c as [[] [] [] [] [] [] [] []]; reflexivity.
Qed.

Lemma upper_char_idempotent (c : ascii) :
  Py.upper_char (Py.upper_char c) = Py.upper_char c.
Proof.
  destruct c as [[] [] [] [] [] [] [] []]; reflexivity.
Qed.

Lemma upper_idempotent (s : string) : Py.upper (Py.upper s) = Py.upper s.
Proof.
  induction s as [|c s IH]; simpl; [reflexivity|].
  rewrite upper_char_idempotent, IH. reflexivity.
Qed.

Lemma lstrip_upper (s : string) :
  Py.lstrip (Py.upper s) = Py.upper (Py.lstrip s).
Proof.
  induction s as [|c s IH]; simpl; [reflexivity|].
  rewrite is_space_upper. destruct (Py.is_space c); [exact IH | reflexivity].
Qed.

Lemma rstrip_upper (s : string) :
  Py.rstrip (Py.upper s) = Py.upper (Py.rstrip s).
Proof.
  induction s as [|c s IH]; simpl; [reflexivity|].
  rewrite IH, is_space_upper.
  destruct (Py.rstrip s); simpl; [destruct (Py.is_space c)|]; reflexivity.
Qed.

Lemma strip_upper (s : string) : Py.strip (Py.upper s) = Py.upper (Py.strip s).
Proof.
  unfold Py.strip. rewrite lstrip_upper, rstrip_upper. reflexivity.
Qed.

(** A text that is empty or starts with a character that is no white
    space. *)
Lemma lstrip_clean (s : string) :
  match Py.lstrip s with
  | EmptyString => True
  | String c _ => Py.is_space c = false
  end.
Proof.
  induction s as [|c s IH]; simpl; [exact I|].
  destruct (Py.is_space c) eqn:E; [exact IH | exact E].
Qed.

Lemma rstrip_head (c : ascii) (s : string) :
  Py.is_space c = false ->
  exists t, Py.rstrip (String c s) = String c t.
Proof.
  intros H. simpl. destruct (Py.rstrip s); [rewrite H|]; eexists; reflexivity.
Qed.

Lemma rstrip_idempotent (s : string) : Py.rstrip (Py.rstrip s) = Py.rstrip s.
Proof.
  induction s as [|c s IH]; [reflexivity|].
  cbn [Py.rstrip]. destruct (Py.rstrip s) as [|a r] eqn:E.
  - destruct (Py.is_space c) eqn:Ec; [reflexivity|].
    cbn [Py.rstrip]. rewrite Ec. reflexivity.
  - cbn [Py.rstrip] in *. rewrite IH. reflexivity.
Qed.

Lemma strip_idempotent (s : string) : Py.strip (Py.strip s) = Py.strip s.
Proof.
  unfold Py.strip. pose proof (lstrip_clean s) as H.
  destruct (Py.lstrip s) as [|c u] eqn:E; [reflexivity|].
  destruct (rstrip_head c u H) as [t Et]. rewrite Et.
  cbn [Py.lstrip]. rewrite H, <- Et. apply rstrip_idempotent.
Qed.

Lemma normalized_twice (student_id : string) :
  normalized (normalized student_id) = normalized student_id.
Proof.
  unfold normalized.
  rewrite strip_upper, upper_idempotent, strip_idempotent. reflexivity.
Qed.

Lemma validate_normalized (student_id : string) :
  ValidationUtils.validate_student_id (normalized student_id)
  = ValidationUtils.validate_student_id student_id.
Proof.
  unfold ValidationUtils.validate_student_id.
  fold (normalized student_id). fold (normalized (normalized student_id)).
  rewrite normalized_twice.
  destruct student_id as [|c s]; [reflexivity|].
  destruct (normalized (String c s)) as [|a r] eqn:E; reflexivity.
Qed.

Section Ids.

Context {collab : Collaborators}.

(** X22: Normalizing an id twice is normalizing it once, so an id taken from
    the store or from the listing addresses the record of the raw id it
    came from: [register_student] and [delete_student] do with it what they
    do with the raw id. *)
Theorem normalized_id_addresses_same_record (st : State)
    (student_id name : string) (face_images : list string) (o : io) :
  normalized (normalized student_id) = normalized student_id /\
  register_student st (normalized student_id) name face_images o
  = register_student st student_id name face_images o /\
  delete_student st (normalized student_id) o
  = delete_student st student_id o.
Proof.
  split; [apply normalized_twice|]. split.
  - unfold register_student. rewrite validate_normalized.
    fold (normalized student_id). fold (normalized (normalized student_id)).
    rewrite normalized_twice. reflexivity.
  - unfold delete_student.
    fold (normalized student_id). fold (normalized (normalized student_id)).
    rewrite normalized_twice. reflexivity.
Qed.

End Ids.

End IdProps.

(** ** The service *)

Module ServiceProps.

Import MathUtils MathProps FaceProcessor RecognitionResult Service.
Import RecognitionProps PipelineExtras.

(** *** The statistics *)

Lemma update_stats_step (st : ServiceStats) (call : string * bool) :
  total_requests (update_stats st (fst call) (snd call))
  = S (total_requests st) /\
  counted (update_stats st (fst call) (snd call))
  = (counted st + if known_operation call then 1 else 0)%nat.
Proof.
  unfold update_stats, known_operation, counted.
  destruct (String.eqb (fst call) "recognition"); cbn [orb].
  - destruct (snd call); cbn; split; lia.
  - destruct (String.eqb (fst call) "registration"); cbn; split; lia.
Qed.

(** X23: Every call of [update_stats] counts one request, and bumps exactly one
    of the three other counters when the operation is 'recognition' or
    'registration' and none otherwise: after any sequence of calls the
    requests have grown by the number of calls and the three counters
    together by the number of calls with a known operation, so they never
    exceed the requests if they did not before. *)
Theorem stats_accounting (st : ServiceStats) (calls : list (string * bool)) :
  total_requests (after_calls st calls)
  = (total_requests st + length calls)%nat /\
  counted (after_calls st calls)
  = (counted st + length (filter known_operation calls))%nat /\
  ((counted st <= total_requests st)%nat ->
   (counted (after_calls st calls)
    <= total_requests (after_calls st calls))%nat).
Proof.
  assert (G : total_requests (after_calls st calls)
              = (total_requests st + length calls)%nat /\
              counted (after_calls st calls)
              = (counted st + length (filter known_operation calls))%nat).
  { unfold after_calls. revert st.
    induction calls as [|c calls IH]; intros st; cbn [fold_left filter length].
    - split; lia.
    - destruct (IH (update_stats st (fst c) (snd c))) as [H1 H2].
      destruct (update_stats_step st c) as [S1 S2].
      rewrite H1, H2, S1, S2.
      destruct (known_operation c); cbn [length]; split; lia. }
  destruct G as [G1 G2]. split; [exact G1|]. split; [exact G2|].
  intros H. rewrite G1, G2.
  pose proof (filter_length_le known_operation calls). lia.
Qed.

Lemma stats_accounting_witness :
  (counted (after_calls (mkStats 0 0 0 0)
                        [("recognition", true); ("health", true);
                         ("registration", false)]%string)
   <= total_requests (after_calls (mkStats 0 0 0 0)
                        [("recognition", true); ("health", true);
                         ("registration", false)]%string))%nat.
Proof.
  apply (stats_accounting (mkStats 0 0 0 0)). unfold counted. simpl. lia.
Defined.

(** *** The dictionary of the batch *)

Lemma dict_get_set_same {V : Type} (k : string) (v : V) (d : dict V) :
  dict_get k (dict_set k v d) = Some v.
Proof.
  induction d as [|[k' v'] t IH]; simpl.
  - rewrite String.eqb_refl. reflexivity.
  - destruct (String.eqb k' k) eqn:E; simpl.
    + rewrite String.eqb_refl. reflexivity.
    + rewrite E. exact IH.
Qed.

Lemma dict_get_set_other {V : Type} (k k0 : string) (v : V) (d : dict V) :
  k0 <> k -> dict_get k0 (dict_set k v d) = dict_get k0 d.
Proof.
  intros Hne. induction d as [|[k' v'] t IH]; simpl.
  - apply String.eqb_neq in Hne. rewrite String.eqb_sym, Hne. reflexivity.
  - destruct (String.eqb k' k) eqn:E; simpl.
    + apply String.eqb_eq in E. subst k'.
      apply String.eqb_neq in Hne. rewrite String.eqb_sym, Hne. reflexivity.
    + rewrite IH. reflexivity.
Qed.

Lemma dict_set_values {V : Type} (k : string) (v : V) (d : dict V) :
  forall x, In x (dict_values (dict_set k v d)) ->
            x = v \/ In x (dict_values d).
Proof.
  unfold dict_values. induction d as [|[k' v'] t IH]; simpl; intros x H.
  - destruct H as [H|[]]. left. congruence.
  - destruct (String.eqb k' k); simpl in H.
    + destruct H as [H|H]; [left; congruence | right; right; exact H].
    + destruct H as [H|H]; [right; left; exact H|].
      destruct (IH x H) as [H'|H']; [left; exact H' | right; right; exact H'].
Qed.

Lemma dict_set_length {V : Type} (k : string) (v : V) (d : dict V) :
  length (dict_set k v d)
  = match dict_get k d with
    | Some _ => length d
    | None => S (length d)
    end.
Proof.
  induction d as [|[k' v'] t IH]; simpl; [reflexivity|].
  destruct (String.eqb k' k); simpl; [reflexivity|].
  rewrite IH. destruct (dict_get k t); reflexivity.
Qed.

Lemma dict_set_in {V : Type} (k : string) (v : V) (d : dict V) :
  forall k' v', In (k', v') (dict_set k v d) ->
                (k', v') = (k, v) \/ In (k', v') d.
Proof.
  induction d as [|[k1 v1] t IH]; simpl; intros k' v' H.
  - destruct H as [H|[]]. left. congruence.
  - destruct (String.eqb k1 k); simpl in H.
    + destruct H as [H|H]; [left; congruence | right; right; exact H].
    + destruct H as [H|H]; [right; left; exact H|].
      destruct (IH _ _ H) as [H'|H']; [left; exact H' | right; right; exact H'].
Qed.

Lemma dict_set_keys {V : Type} (k : string) (v : V) (d : dict V) :
  forall k', In k' (map fst (dict_set k v d)) -> k' = k \/ In k' (map fst d).
Proof.
  intros k' H. apply in_map_iff in H. destruct H as [[k1 v1] [E H]].
  simpl in E. subst k1. destruct (dict_set_in _ _ _ _ _ H) as [H'|H'].
  - left. congruence.
  - right. apply in_map_iff. exists (k', v1). split; [reflexivity | exact H'].
Qed.

Lemma dict_set_nodup {V : Type} (k : string) (v : V) (d : dict V) :
  NoDup (map fst d) -> NoDup (map fst (dict_set k v d)).
Proof.
  induction d as [|[k1 v1] t IH]; simpl; intros H.
  - constructor; [intros [] | constructor].
  - inversion H as [|? ? Hk Ht]; subst.
    destruct (String.eqb k1 k) eqn:E; simpl.
    + apply String.eqb_eq in E. subst k1. constructor; assumption.
    + constructor; [|apply IH, Ht].
      intros Hin. destruct (dict_set_keys _ _ _ _ Hin) as [H'|H'].
      * subst k1. rewrite String.eqb_refl in E. discriminate.
      * contradiction.
Qed.

Lemma dict_set_well_keyed (r : RecognizedStudent)
    (d : dict RecognizedStudent) :
  well_keyed d -> well_keyed (dict_set (student_id (student r)) r d).
Proof.
  intros [Hk Hn]. split; [|apply dict_set_nodup, Hn].
  intros k v H. destruct (dict_set_in _ _ _ _ _ H) as [E|H'].
  - injection E as -> ->. reflexivity.
  - apply Hk, H'.
Qed.

Lemma dict_get_absent {V : Type} (k : string) (d : dict V) :
  ~ In k (map fst d) -> dict_get k d = None.
Proof.
  induction d as [|[k1 v1] t IH]; simpl; intros H; [reflexivity|].
  destruct (String.eqb k1 k) eqn:E.
  - apply String.eqb_eq in E. subst k1. exfalso. apply H. left. reflexivity.
  - apply IH. tauto.
Qed.

Lemma well_keyed_filed (d : dict RecognizedStudent) :
  well_keyed d -> filed d.
Proof.
  unfold filed, entries_of, dict_values.
  induction d as [|[k v] t IH]; intros [Hk Hn] sid; [reflexivity|].
  inversion Hn as [|? ? Hnot Ht]; subst.
  assert (Wt : well_keyed t).
  { split; [|exact Ht]. intros k' v' H. apply Hk. right. exact H. }
  specialize (IH Wt sid). cbn [map snd filter dict_get].
  unfold same_student at 1. rewrite (Hk k v (or_introl eq_refl)).
  destruct (String.eqb k sid) eqn:E; [|exact IH].
  apply String.eqb_eq in E. subst sid.
  rewrite (dict_get_absent k t Hnot) in IH. rewrite IH. reflexivity.
Qed.

(** The dictionary holds, for every id of the matches seen so far, the
    entry of highest confidence. *)
Lemma collect_student_best (ms : list StudentInfo)
    (d : dict RecognizedStudent) (r : RecognizedStudent) :
  well_keyed d ->
  (forall sid,
     match best_confidence sid ms with
     | None => dict_get sid d = None
     | Some c => exists x, dict_get sid d = Some x /\
                           confidence (student x) = c
     end) ->
  well_keyed (collect_student d r) /\
  forall sid,
    match best_confidence sid (ms ++ [student r]) with
    | None => dict_get sid (collect_student d r) = None
    | Some c => exists x, dict_get sid (collect_student d r) = Some x /\
                          confidence (student x) = c
    end.
Proof.
  intros W Inv. unfold collect_student.
  set (sid0 := student_id (student r)).
  pose proof (Inv sid0) as Inv0.
  destruct (dict_get sid0 d) as [held|] eqn:Eg.
  - destruct (best_confidence sid0 ms) as [c|] eqn:Eb;
      [|discriminate].
    destruct Inv0 as [x [Hx Hc]]. injection Hx as <-.
    unfold Py.gtb.
    destruct (Rgt_dec (confidence (student r)) (confidence (student held)))
      as [G|G].
    + split; [apply dict_set_well_keyed, W|].
      intros sid. rewrite best_confidence_snoc. fold sid0.
      destruct (String.eqb sid0 sid) eqn:Es.
      * apply String.eqb_eq in Es. subst sid. rewrite Eb.
        exists r. split; [apply dict_get_set_same|].
        rewrite Hc in G. symmetry. apply Rmax_right. lra.
      * rewrite dict_get_set_other; [apply Inv|].
        intros ->. rewrite String.eqb_refl in Es. discriminate.
    + split; [exact W|].
      intros sid. rewrite best_confidence_snoc. fold sid0.
      destruct (String.eqb sid0 sid) eqn:Es; [|apply Inv].
      apply String.eqb_eq in Es. subst sid. rewrite Eb, Eg.
      exists held. split; [reflexivity|].
      rewrite Hc in *. symmetry. apply Rmax_left. lra.
  - split; [apply dict_set_well_keyed, W|].
    intros sid. rewrite best_confidence_snoc. fold sid0.
    destruct (String.eqb sid0 sid) eqn:Es.
    + apply String.eqb_eq in Es. subst sid.
      destruct (best_confidence sid0 ms) as [c|].
      * destruct Inv0 as [x [Hx _]]. discriminate.
      * exists r. split; [apply dict_get_set_same | reflexivity].
    + rewrite dict_get_set_other; [apply Inv|].
      intros ->. rewrite String.eqb_refl in Es. discriminate.
Qed.

Lemma collect_students_best (rs : list RecognizedStudent) :
  forall ms d,
    well_keyed d ->
    (forall sid,
       match best_confidence sid ms with
       | None => dict_get sid d = None
       | Some c => exists x, dict_get sid d = Some x /\
                             confidence (student x) = c
       end) ->
    well_keyed (fold_left collect_student rs d) /\
    forall sid,
      match best_confidence sid (ms ++ map student rs) with
      | None => dict_get sid (fold_left collect_student rs d) = None
      | Some c => exists x,
          dict_get sid (fold_left collect_student rs d) = Some x /\
          confidence (student x) = c
      end.
Proof.
  induction rs as [|r rs IH]; intros ms d W Inv; cbn [fold_left map].
  - rewrite app_nil_r. split; assumption.
  - destruct (collect_student_best ms d r W Inv) as [W1 Inv1].
    destruct (IH _ _ W1 Inv1) as [W2 Inv2].
    split; [exact W2|]. intros sid. specialize (Inv2 sid).
    rewrite <- app_assoc in Inv2. exact Inv2.
Qed.

Section BatchProps.

Context {collab : Collaborators}.

Lemma batch_loop_best (s : Store) (threshold : R)
    (images_data : list string) :
  forall ms acc idx,
    well_keyed (all_recognized_students acc) ->
    (forall sid,
       match best_confidence sid ms with
       | None => dict_get sid (all_recognized_students acc) = None
       | Some c => exists x,
           dict_get sid (all_recognized_students acc) = Some x /\
           confidence (student x) = c
       end) ->
    let final := batch_loop s threshold acc idx images_data in
    well_keyed (all_recognized_students final) /\
    forall sid,
      match best_confidence sid
              (ms ++ map student (batch_students s threshold images_data))
      with
      | None => dict_get sid (all_recognized_students final) = None
      | Some c => exists x,
          dict_get sid (all_recognized_students final) = Some x /\
          confidence (student x) = c
      end.
Proof.
  induction images_data as [|img rest IH]; intros ms acc idx W Inv;
    cbn [batch_loop batch_students map].
  - rewrite app_nil_r. split; assumption.
  - unfold batch_step.
    destruct (process_image s img threshold) as [e|rs fd un].
    + apply IH; assumption.
    + destruct (collect_students_best rs ms _ W Inv) as [W1 Inv1].
      destruct (IH (ms ++ map student rs)
                   (mkBatch (batch_results acc
                             ++ [mkEntry idx true None fd (length rs)])
                            (fold_left collect_student rs
                                       (all_recognized_students acc))
                            (total_faces_detected acc + fd))
                   (S idx) W1 Inv1) as [W2 Inv2].
      split; [exact W2|]. intros sid. specialize (Inv2 sid).
      rewrite map_app, app_assoc. exact Inv2.
Qed.

(** X24: The students of a batch response are deduplicated over the whole
    batch: every student recognised in at least one image of the batch is
    listed exactly once, with the highest confidence it got in any image,
    and nobody else is listed; [total_unique_students] is the length of
    that list. *)
Theorem batch_students_deduplicated (stats stats' : ServiceStats)
    (s : Store) (images_data : list string) (threshold : R)
    (response : BatchResponse) :
  process_batch_images stats s images_data threshold
  = (Ok response, stats') ->
  deduplicated
    (map student
         (batch_students s (checked_threshold threshold) images_data))
    (response_students response) /\
  total_unique_students response = length (response_students response).
Proof.
  unfold process_batch_images.
  destruct images_data as [|img rest]; [discriminate|].
  intros H. cbv beta iota in H.
  remember (img :: rest) as images eqn:Ei. clear Ei.
  injection H as <- _.
  cbn [response_students total_unique_students].
  destruct (batch_loop_best s (checked_threshold threshold) images
                            [] (mkBatch [] [] 0) 0%nat) as [W Inv].
  - split; [intros k v [] | constructor].
  - intros sid. reflexivity.
  - cbn [app] in Inv. split.
    + intros sid. rewrite (well_keyed_filed _ W sid).
      specialize (Inv sid).
      destruct (best_confidence sid _) as [c|].
      * destruct Inv as [x [Hx Hc]]. rewrite Hx.
        exists x. split; [reflexivity | exact Hc].
      * rewrite Inv. reflexivity.
    + unfold dict_values. rewrite length_map. reflexivity.
Qed.

End BatchProps.

(** *** The counts of a batch *)

Lemma collect_student_length (d : dict RecognizedStudent)
    (r : RecognizedStudent) :
  (length (collect_student d r) <= S (length d))%nat.
Proof.
  unfold collect_student.
  pose proof (dict_set_length (student_id (student r)) r d) as L.
  destruct (dict_get (student_id (student r)) d).
  - destruct (Py.gtb _ _); lia.
  - lia.
Qed.

Lemma collect_students_length (rs : list RecognizedStudent) :
  forall d, (length (fold_left collect_student rs d)
             <= length d + length rs)%nat.
Proof.
  induction rs as [|r rs IH]; intros d; cbn [fold_left length]; [lia|].
  specialize (IH (collect_student d r)).
  pose proof (collect_student_length d r). lia.
Qed.

Section BatchCounts.

Context {collab : Collaborators}.

Lemma batch_loop_counts (s : Store) (threshold : R)
    (images_data : list string) :
  forall acc idx,
    exists entries,
      batch_results (batch_loop s threshold acc idx images_data)
      = batch_results acc ++ entries /\
      map image_index entries = seq idx (length images_data) /\
      total_faces_detected (batch_loop s threshold acc idx images_data)
      = (total_faces_detected acc
         + list_sum (map entry_faces_detected entries))%nat /\
      (length (all_recognized_students
                 (batch_loop s threshold acc idx images_data))
       <= length (all_recognized_students acc)
          + list_sum (map students_recognized entries))%nat.
Proof.
  induction images_data as [|img rest IH]; intros acc idx; cbn [batch_loop].
  - exists []. rewrite app_nil_r. cbn. repeat split; lia.
  - destruct (IH (batch_step s threshold acc idx img) (S idx))
      as [entries [H1 [H2 [H3 H4]]]].
    unfold batch_step in *.
    destruct (process_image s img threshold) as [e|rs fd un];
      cbn [batch_results total_faces_detected all_recognized_students] in *.
    + exists (mkEntry idx false (Some e) 0 0 :: entries).
      split; [rewrite H1, <- app_assoc; reflexivity|].
      split; [cbn [map length seq image_index]; rewrite H2; reflexivity|].
      cbn [map entry_faces_detected students_recognized].
      unfold list_sum. cbn [fold_right]. unfold list_sum in H3, H4.
      split; lia.
    + exists (mkEntry idx true None fd (length rs) :: entries).
      split; [rewrite H1, <- app_assoc; reflexivity|].
      split; [cbn [map length seq image_index]; rewrite H2; reflexivity|].
      cbn [map entry_faces_detected students_recognized].
      unfold list_sum. cbn [fold_right]. unfold list_sum in H3, H4.
      pose proof (collect_students_length rs (all_recognized_students acc)).
      split; lia.
Qed.

(** X25: The counts of a batch response: one result per image, numbered from 0
    in the order of the request; [total_faces_detected] is the sum of the
    faces detected per image; the unique students are at most the students
    recognised per image added up; the successful images are at most the
    images; and the batch counts as one request, a successful recognition
    when at least one student is listed and a failed one otherwise. *)
Theorem batch_counts (stats stats' : ServiceStats) (s : Store)
    (images_data : list string) (threshold : R) (response : BatchResponse) :
  process_batch_images stats s images_data threshold
  = (Ok response, stats') ->
  map image_index (response_results response)
  = seq 0 (length images_data) /\
  total_images_processed response = length images_data /\
  (successful_images response <= total_images_processed response)%nat /\
  response_faces_detected response
  = list_sum (map entry_faces_detected (response_results response)) /\
  (total_unique_students response
   <= list_sum (map students_recognized (response_results response)))%nat /\
  stats' = update_stats stats "recognition"
             (match response_students response with
              | [] => false
              | _ :: _ => true
              end).
Proof.
  unfold process_batch_images.
  destruct images_data as [|img rest]; [discriminate|].
  intros H. cbv beta iota in H.
  remember (img :: rest) as images eqn:Ei. clear Ei.
  injection H as <- <-.
  cbn [response_results total_images_processed successful_images
       response_faces_detected total_unique_students response_students].
  destruct (batch_loop_counts s (checked_threshold threshold) images
                              (mkBatch [] [] 0) 0%nat)
    as [entries [H1 [H2 [H3 H4]]]].
  cbn [batch_results total_faces_detected all_recognized_students app
       length] in H1, H3, H4.
  rewrite H1, H3.
  assert (L : length entries = length images).
  { rewrite <- (length_map image_index), H2, length_seq. reflexivity. }
  split; [exact H2|]. split; [reflexivity|].
  split; [rewrite <- L; apply filter_length_le|].
  split; [lia|]. split; [lia|].
  f_equal. unfold dict_values.
  destruct (all_recognized_students
              (batch_loop s (checked_threshold threshold)
                          (mkBatch [] [] 0) 0 images)); reflexivity.
Qed.

End BatchCounts.

(** *** The threshold and the confidence at the service boundary *)

Lemma checked_threshold_range (t : R) : 0 <= checked_threshold t <= 1.
Proof.
  unfold checked_threshold, ValidationUtils.validate_confidence_score.
  destruct (Rle_dec 0 t); [destruct (Rle_dec t 1)|]; lra.
Qed.

Lemma checked_threshold_default (t : R) :
  ~ (0 <= t <= 1) -> checked_threshold t = 0.6.
Proof.
  intros H. unfold checked_threshold,
              ValidationUtils.validate_confidence_score.
  destruct (Rle_dec 0 t); [destruct (Rle_dec t 1)|]; try reflexivity.
  exfalso. apply H. split; assumption.
Qed.

Lemma accepted_positive (s : Store) (q : vec) (threshold : R)
    (info : StudentInfo) :
  threshold <= 1 ->
  fst (recognize_face s q threshold) = Some info ->
  0 < confidence info.
Proof.
  intros Ht. unfold recognize_face.
  destruct (length (known_face_encodings s) =? 0)%nat; [discriminate|].
  destruct (recognize_try s q threshold) as [[r d]|] eqn:E; [|discriminate].
  cbn [fst]. intros ->. unfold recognize_try in E.
  destruct (measure_all q (known_face_encodings s) [] []) as [[ds ss]|] eqn:Em;
    cbn [bind] in E; [|discriminate].
  pose proof (MatcherProps.measure_all_bounds _ _ _ _ _ _ Em (Forall_nil _))
    as Hd.
  rewrite Forall_forall in Hd.
  destruct (Py.argmin ds) as [imin|]; cbn [bind] in E; [|discriminate].
  destruct (Py.argmax ss) as [imax|]; cbn [bind] in E; [|discriminate].
  destruct (nth_error ds imin) as [dmin|] eqn:Edmin; cbn [bind] in E;
    [|discriminate].
  destruct (nth_error ss imax) as [smax|] eqn:Esmax; cbn [bind] in E;
    [|discriminate].
  apply nth_error_In in Edmin.
  specialize (Hd _ Edmin).
  unfold Py.gtb, Py.ltb in E.
  destruct (Rgt_dec smax (1 - threshold)).
  - apply MatcherProps.student_info_confidence in E. rewrite E. lra.
  - destruct (Rlt_dec dmin threshold); [|discriminate].
    apply MatcherProps.student_info_confidence in E. rewrite E.
    assert (0 < threshold) by lra.
    assert (dmin / threshold < 1)
      by (apply Rmult_lt_reg_r with threshold; [lra|];
          unfold Rdiv; rewrite Rmult_assoc, Rinv_l by lra; lra).
    lra.
Qed.

Section Boundary.

Context {collab : Collaborators}.

Lemma matched_in (s : Store) (threshold : R)
    (faces : list (Face FaceImg Landmarks)) (info : StudentInfo)
    (f : Face FaceImg Landmarks) :
  In (info, f) (matched s threshold faces) ->
  In f faces /\ match_of s threshold f = Some info.
Proof.
  induction faces as [|g faces IH]; cbn [matched]; [contradiction|].
  destruct (match_of s threshold g) as [i|] eqn:E.
  - intros [H|H].
    + injection H as <- <-. split; [left; reflexivity | exact E].
    + destruct (IH H) as [H1 H2]. split; [right; exact H1 | exact H2].
  - intros H. destruct (IH H) as [H1 H2]. split; [right; exact H1 | exact H2].
Qed.

Lemma process_image_confidence (s : Store) (image_data : string)
    (threshold : R) (rs : list RecognizedStudent) (fd un : nat) :
  threshold <= 1 ->
  process_image s image_data threshold = Processed rs fd un ->
  forall r, In r rs -> 0 < confidence (student r).
Proof.
  intros Ht H r Hr.
  destruct (process_image_faces _ _ _ _ _ _ H)
    as [image0 [image [_ [_ [_ Hl]]]]].
  destruct (process_loop_accounting _ _ _ _ _ _ _ Hl) as [_ [_ H3]].
  destruct (H3 r Hr) as [[]|Hm].
  apply in_map_iff in Hm. destruct Hm as [[info f] [<- Hm]].
  apply matched_in in Hm. destruct Hm as [_ Hm].
  unfold match_of in Hm. cbn [entry_of fst student].
  destruct (get_face_embedding (face f)) as [e|]; [|discriminate].
  apply (accepted_positive s e threshold info Ht Hm).
Qed.

Lemma collect_students_values (P : RecognizedStudent -> Prop)
    (rs : list RecognizedStudent) :
  forall d,
    (forall r, In r (dict_values d) -> P r) ->
    (forall r, In r rs -> P r) ->
    forall r, In r (dict_values (fold_left collect_student rs d)) -> P r.
Proof.
  induction rs as [|x rs IH]; intros d Hd Hrs; cbn [fold_left];
    [exact Hd|].
  apply IH; [|intros r Hr; apply Hrs; right; exact Hr].
  intros r Hr. unfold collect_student in Hr.
  assert (G : In r (dict_values (dict_set (student_id (student x)) x d)) ->
              P r).
  { intros H. destruct (dict_set_values _ _ _ _ H) as [->|H'].
    - apply Hrs. left. reflexivity.
    - apply Hd, H'. }
  destruct (dict_get (student_id (student x)) d); [|apply G, Hr].
  destruct (Py.gtb _ _); [apply G, Hr | apply Hd, Hr].
Qed.

Lemma batch_loop_values (P : RecognizedStudent -> Prop) (s : Store)
    (threshold : R) (images_data : list string) :
  (forall image_data rs fd un,
     process_image s image_data threshold = Processed rs fd un ->
     forall r, In r rs -> P r) ->
  forall acc idx,
    (forall r, In r (dict_values (all_recognized_students acc)) -> P r) ->
    forall r,
      In r (dict_values
              (all_recognized_students
                 (batch_loop s threshold acc idx images_data))) ->
      P r.
Proof.
  intros Himg. induction images_data as [|img rest IH]; intros acc idx Hacc;
    cbn [batch_loop]; [exact Hacc|].
  apply IH. unfold batch_step.
  destruct (process_image s img threshold) as [e|rs fd un] eqn:E;
    cbn [all_recognized_students]; [exact Hacc|].
  apply collect_students_values; [exact Hacc | apply (Himg _ _ _ _ E)].
Qed.

(** X26: Whatever threshold the client sends, the handlers work with a
    threshold in [0, 1]: one outside that interval is replaced by 0.6
    rather than refused.  Hence every student that a reply lists, for one
    image or for a batch, has a confidence above 0. *)
Theorem service_confidence_positive (stats : ServiceStats) (s : Store)
    (image_data : string) (images_data : list string) (threshold : R) :
  (~ (0 <= threshold <= 1) ->
   process_single_image stats s image_data threshold
   = process_single_image stats s image_data 0.6 /\
   process_batch_images stats s images_data threshold
   = process_batch_images stats s images_data 0.6) /\
  (forall rs fd un stats',
     process_single_image stats s image_data threshold
     = (Ok (Processed rs fd un), stats') ->
     forall r, In r rs -> 0 < confidence (student r)) /\
  (forall response stats',
     process_batch_images stats s images_data threshold
     = (Ok response, stats') ->
     forall r, In r (response_students response) ->
               0 < confidence (student r)).
Proof.
  pose proof (checked_threshold_range threshold) as [_ Hle].
  split; [|split].
  - intros Hout. unfold process_single_image, process_batch_images.
    rewrite (checked_threshold_default threshold Hout).
    assert (E : checked_threshold 0.6 = 0.6).
    { unfold checked_threshold, ValidationUtils.validate_confidence_score.
      destruct (Rle_dec 0 0.6); [destruct (Rle_dec 0.6 1)|]; reflexivity. }
    rewrite E. split; reflexivity.
  - intros rs fd un stats'. unfold process_single_image.
    destruct (ValidationUtils.is_empty image_data); [discriminate|].
    intros H. injection H as H _.
    apply (process_image_confidence _ _ _ _ _ _ Hle H).
  - intros response stats'. unfold process_batch_images.
    destruct images_data as [|img rest]; [discriminate|].
    intros H. cbv beta iota in H.
    remember (img :: rest) as images eqn:Ei. clear Ei.
    injection H as <- _. cbn [response_students].
    apply (batch_loop_values _ s (checked_threshold threshold) images).
    + intros d rs fd un Hp. apply (process_image_confidence _ _ _ _ _ _ Hle Hp).
    + intros r [].
Qed.

End Boundary.

(** *** The handlers with the sample collaborators *)

Lemma studio_single_image :
  process_single_image (collab := Sample.studio) (mkStats 0 0 0 0)
                       Sample.one_student "aa" 2.5
  = (Ok (Processed [Sample.alice_seen] 1 0), mkStats 1 1 0 0).
Proof.
  unfold process_single_image. cbn [ValidationUtils.is_empty].
  rewrite checked_threshold_default by lra.
  rewrite studio_process_alice. reflexivity.
Qed.

Lemma service_confidence_positive_witness :
  0 < confidence (student Sample.alice_seen).
Proof.
  apply (service_confidence_positive (collab := Sample.studio)
           (mkStats 0 0 0 0) Sample.one_student "aa" [] 2.5)
    with (rs := [Sample.alice_seen]) (fd := 1%nat) (un := 0%nat)
         (stats' := mkStats 1 1 0 0).
  - apply studio_single_image.
  - left. reflexivity.
Defined.

Lemma studio_batch_reply :
  exists response stats',
    process_batch_images (collab := Sample.studio) (mkStats 0 0 0 0)
                         Sample.one_student ["aa"; "a"; "aaaa"]%string 2.5
    = (Ok response, stats').
Proof.
  eexists. eexists. reflexivity.
Defined.

Lemma batch_counts_witness :
  exists response stats',
    process_batch_images (collab := Sample.studio) (mkStats 0 0 0 0)
                         Sample.one_student ["aa"; "a"; "aaaa"]%string 2.5
    = (Ok response, stats') /\
    map image_index (response_results response) = [0; 1; 2]%nat /\
    total_images_processed response = 3%nat.
Proof.
  destruct studio_batch_reply as [response [stats' H]].
  exists response, stats'. split; [exact H|].
  destruct (batch_counts (collab := Sample.studio) _ _ _ _ _ _ H)
    as [H1 [H2 _]].
  split; [exact H1 | exact H2].
Defined.

Lemma batch_students_deduplicated_witness :
  exists response stats',
    process_batch_images (collab := Sample.studio) (mkStats 0 0 0 0)
                         Sample.one_student ["aa"; "a"; "aaaa"]%string 2.5
    = (Ok response, stats') /\
    total_unique_students response = length (response_students response).
Proof.
  destruct studio_batch_reply as [response [stats' H]].
  exists response, stats'. split; [exact H|].
  apply (batch_students_deduplicated (collab := Sample.studio) _ _ _ _ _ _ H).
Defined.

End ServiceProps.
